(** * MAX14906 register-access driver: shallow embedding and verification

    The embedding follows [drivers/digital-io/max14906/max14906.c].
    Machine integers are [Z] with the C conversions written out, the
    three-byte scratch buffer of the descriptor is a [list Z] updated by
    index, and every call into the platform (SPI, GPIO, allocator) goes
    through the [Platform] interface and is recorded in a trace. *)

From Stdlib Require Import ZArith Lia Bool List.
From stdpp Require Import base list numbers.
Import ListNotations.

Local Open Scope Z_scope.

(** ** Machine integers *)

Definition to_u8 (x : Z) : Z := x mod 256.
Definition to_u32 (x : Z) : Z := x mod 4294967296.

(** C truth value of an [int]. *)
Definition nonzero (x : Z) : bool := negb (x =? 0).

Definition EINVAL : Z := 22.
Definition ENODEV : Z := 19.
Definition ENOMEM : Z := 12.

(** [for (int i = lo; i < hi; i++) s = body i s], unrolled [n] times. *)
Fixpoint for_range {S : Type} (n : nat) (i : Z) (body : Z -> S -> S) (s : S) : S :=
  match n with
  | O => s
  | S n' => for_range n' (i + 1) body (body i s)
  end.

Definition for_loop {S : Type} (lo hi : Z) (body : Z -> S -> S) (s : S) : S :=
  for_range (Z.to_nat (hi - lo)) lo body s.

(** ** CRC5 engine *)

Module Crc5.

Definition crc5_start : Z := 0x1f.
Definition crc5_poly : Z := 0x15.
Definition extra_byte : Z := 0x00.

(** Body shared by the three loops of each routine: one bit of [byte],
    selected by the loop index [i], is shifted into [crc5_result]. *)
Definition crc5_iter (byte : Z) (i : Z) (crc5_result : Z) : Z :=
  let data_bit := Z.land (Z.shiftr byte (7 - i)) 0x01 in
  let result_bit := Z.shiftr (Z.land crc5_result 0x10) 4 in
  if nonzero (Z.lxor data_bit result_bit)
  then to_u8 (Z.lxor crc5_poly (Z.land (Z.shiftl crc5_result 1) 0x1f))
  else to_u8 (Z.land (Z.shiftl crc5_result 1) 0x1f).

Definition max14906_crc_encode (data : list Z) : Z :=
  let crc5_result := crc5_start in
  let crc5_result := for_loop 0 8 (crc5_iter (data !!! 0%nat)) crc5_result in
  let crc5_result := for_loop 0 8 (crc5_iter (data !!! 1%nat)) crc5_result in
  let crc5_result := for_loop 0 3 (crc5_iter extra_byte) crc5_result in
  crc5_result.

Definition max14906_crc_decode (data : list Z) : Z :=
  let crc5_result := crc5_start in
  let crc5_result := for_loop 2 8 (crc5_iter (data !!! 0%nat)) crc5_result in
  let crc5_result := for_loop 0 8 (crc5_iter (data !!! 1%nat)) crc5_result in
  let crc5_result := for_loop 0 3 (crc5_iter extra_byte) crc5_result in
  crc5_result.

(** *** The division as the specification words it

    A five-bit remainder register; each message bit is compared with the
    top bit of the register, the register is shifted left by one, and the
    polynomial is added (xor) when the two bits differ. *)

Definition div_step (poly : Z) (rem : Z) (bit : bool) : Z :=
  let shifted := (2 * rem) mod 32 in
  if xorb bit (Z.testbit rem 4) then Z.lxor poly shifted else shifted.

Definition crc5_divide (start poly : Z) (bits : list bool) : Z :=
  fold_left (div_step poly) bits start.

(** Bits of a byte at the given positions (position 7 is the most
    significant bit), in the order listed. *)
Definition bits_at (positions : list Z) (byte : Z) : list bool :=
  map (Z.testbit byte) positions.

Definition msb_first : Z -> list bool := bits_at [7; 6; 5; 4; 3; 2; 1; 0].
Definition zero_pad : list bool := [false; false; false].

(** Encode, in the words of the specification. *)
Definition crc5_encode_spec (cmd data : Z) : Z :=
  crc5_divide 0x1f 0x15 (msb_first cmd ++ msb_first data ++ zero_pad).

(** Decode as the code computes it: the two most significant bits of the
    command byte are left out, bits 5 down to 0 enter the division. *)
Definition crc5_decode_high_skipped (cmd data : Z) : Z :=
  crc5_divide 0x1f 0x15 (bits_at [5; 4; 3; 2; 1; 0] cmd ++ msb_first data ++ zero_pad).

(** Decode as the specification words it: six command bits, the two low
    bits of the command byte left out. *)
Definition crc5_decode_low_skipped (cmd data : Z) : Z :=
  crc5_divide 0x1f 0x15 (bits_at [7; 6; 5; 4; 3; 2] cmd ++ msb_first data ++ zero_pad).

End Crc5.

Import Crc5.

(** ** Bit-field helpers and the register map

    [no_os_util.h] and [max14906.h] are not among the sources; the
    helpers and constants below are the ones [max14906.c] names. *)

(** Modelled from the spec: [no_os_find_first_set_bit] of [no_os_util.h]
    (absent), the offset of the lowest set bit of a 32-bit word, 32 when
    the word is zero. *)
Fixpoint first_set_from (fuel : nat) (word first_set_bit : Z) : Z :=
  match fuel with
  | O => 32
  | S fuel' =>
      if word =? 0 then 32
      else if nonzero (Z.land word 0x1) then first_set_bit
      else first_set_from fuel' (Z.shiftr word 1) (first_set_bit + 1)
  end.

Definition no_os_find_first_set_bit (word : Z) : Z := first_set_from 32 word 0.

(** Modelled from the spec: [no_os_field_prep] of [no_os_util.h] (absent):
    the value moved to the offset of the field and cut to the field. *)
Definition no_os_field_prep (mask val : Z) : Z :=
  Z.land (Z.shiftl val (no_os_find_first_set_bit mask)) mask.

(** Modelled from the spec: [no_os_field_get] of [no_os_util.h] (absent):
    the field of a word, moved down to offset 0. *)
Definition no_os_field_get (mask word : Z) : Z :=
  Z.shiftr (Z.land word mask) (no_os_find_first_set_bit mask).

Definition NO_OS_BIT (x : Z) : Z := to_u32 (Z.shiftl 1 x).

(** Modelled from the spec: the constants of [max14906.h] (absent). The
    frame is two bytes without CRC; the command byte carries the chip
    address in its two top bits, a five-bit register address below it and
    the read/write flag in bit 0; there are four channels. *)
Definition MAX14906_FRAME_SIZE : Z := 2.
Definition MAX14906_CHANNELS : Z := 4.

Definition MAX14906_CHIP_ADDR_MASK : Z := 0xC0.
Definition MAX14906_ADDR_MASK : Z := 0x3E.
Definition MAX14906_RW_MASK : Z := 0x01.

Definition MAX14906_SETOUT_REG : Z := 0x00.
Definition MAX14906_DOILEVEL_REG : Z := 0x02.
Definition MAX14906_OVR_LD_REG : Z := 0x04.
Definition MAX14906_OPN_WIR_FLT_REG : Z := 0x05.
Definition MAX14906_SHD_VDD_FLT_REG : Z := 0x06.
Definition MAX14906_GLOBAL_FLT_REG : Z := 0x07.
Definition MAX14906_CONFIG_DO_REG : Z := 0x0D.
Definition MAX14906_CONFIG_CURR_LIM : Z := 0x0E.

(** Modelled from the spec: the per-channel field masks of [max14906.h]
    (absent): one level bit and one high-side output bit per channel at
    the channel's index, the direction bit four positions above it, and
    two-bit output-mode and current-limit fields. *)
Definition MAX14906_DOI_LEVEL_MASK (x : Z) : Z := NO_OS_BIT x.
Definition MAX14906_HIGHO_MASK (x : Z) : Z := NO_OS_BIT x.
Definition MAX14906_CH_DIR_MASK (x : Z) : Z := NO_OS_BIT (x + 4).
Definition MAX14906_DO_MASK (x : Z) : Z := to_u32 (Z.shiftl 0x3 (2 * x)).
Definition MAX14906_CL_MASK (x : Z) : Z := to_u32 (Z.shiftl 0x3 (2 * x)).

Inductive max14906_function : Set :=
| MAX14906_OUT
| MAX14906_IN
| MAX14906_HIGH_Z.

Definition function_value (f : max14906_function) : Z :=
  match f with
  | MAX14906_OUT => 0
  | MAX14906_IN => 1
  | MAX14906_HIGH_Z => 2
  end.

Inductive max14906_do_mode : Set :=
| MAX14906_HIGH_SIDE
| MAX14906_HIGH_SIDE_INRUSH
| MAX14906_SIMPLE_PUSH_PULL_CLAMP
| MAX14906_PUSH_PULL.

Definition do_mode_value (m : max14906_do_mode) : Z :=
  match m with
  | MAX14906_HIGH_SIDE => 0
  | MAX14906_HIGH_SIDE_INRUSH => 1
  | MAX14906_SIMPLE_PUSH_PULL_CLAMP => 2
  | MAX14906_PUSH_PULL => 3
  end.

(** The current limits in register encoding; 130 mA is the lowest. *)
Inductive max14906_climit : Set :=
| MAX14906_CL_600
| MAX14906_CL_130
| MAX14906_CL_300
| MAX14906_CL_1200.

Definition climit_value (c : max14906_climit) : Z :=
  match c with
  | MAX14906_CL_600 => 0
  | MAX14906_CL_130 => 1
  | MAX14906_CL_300 => 2
  | MAX14906_CL_1200 => 3
  end.

(** ** The platform interface and the trace of calls into it *)

Inductive no_os_gpio_values : Set :=
| NO_OS_GPIO_LOW
| NO_OS_GPIO_HIGH
| NO_OS_GPIO_HIGH_Z.

(** One SPI message. [tx_buff] holds the [bytes_number] bytes the
    transport may read, [rx_buff] tells whether a receive buffer was
    given. *)
Record no_os_spi_msg : Type := {
  tx_buff : list Z;
  rx_buff : bool;
  bytes_number : Z;
  cs_change : Z
}.

(** GPIO descriptors are opaque handles; [None] is the null pointer. *)
Definition gpio_handle : Type := option Z.

Inductive event : Type :=
| EvCalloc
| EvFree
| EvSpiInit
| EvSpiRemove
| EvSpiTransfer (msg : no_os_spi_msg)
| EvGpioGetOptional
| EvGpioSetValue (h : gpio_handle) (v : no_os_gpio_values)
| EvGpioRemove (h : gpio_handle).

(** What the driver calls and does not define. [W] is the state of
    everything outside the driver: bus, device, pins, heap. *)
Class Platform (W : Type) : Type := {
  no_os_calloc : W -> bool * W;
  no_os_free : W -> W;
  no_os_spi_init : W -> Z * W;
  no_os_spi_remove : W -> Z * W;
  no_os_spi_transfer : no_os_spi_msg -> W -> Z * list Z * W;
  no_os_gpio_get_optional : W -> Z * gpio_handle * W;
  no_os_gpio_set_value : gpio_handle -> no_os_gpio_values -> W -> Z * W;
  no_os_gpio_remove : gpio_handle -> W -> Z * W
}.

Record max14906_desc : Type := {
  enable : gpio_handle;
  crc_en : bool;
  chip_address : Z;
  buff : list Z
}.

Record max14906_init_param : Type := {
  param_crc_en : bool
}.

(** A descriptor as [no_os_calloc] leaves it. *)
Definition zeroed_desc : max14906_desc :=
  {| enable := None; crc_en := false; chip_address := 0; buff := [0; 0; 0] |}.

Definition with_buff (d : max14906_desc) (b : list Z) : max14906_desc :=
  {| enable := enable d; crc_en := crc_en d; chip_address := chip_address d;
     buff := b |}.

Definition buff_ok (d : max14906_desc) : Prop := length (buff d) = 3%nat.

Record state (W : Type) : Type := {
  dev : max14906_desc;
  world : W;
  trace : list event
}.

Arguments dev {W} _.
Arguments world {W} _.
Arguments trace {W} _.

(** ** A state monad over the descriptor, the platform and the trace *)

Definition M (W A : Type) : Type := state W -> A * state W.

Definition mret {W A : Type} (a : A) : M W A := fun s => (a, s).

Definition mbind {W A B : Type} (m : M W A) (k : A -> M W B) : M W B :=
  fun s => let '(a, s') := m s in k a s'.

Declare Scope drv_scope.
Delimit Scope drv_scope with drv.

Notation "x <- m ;; k" := (mbind m (fun x => k))
  (at level 100, m at next level, right associativity) : drv_scope.
Notation "m ;;; k" := (mbind m (fun _ => k))
  (at level 100, right associativity) : drv_scope.

Local Open Scope drv_scope.

(** [for (i = lo; ...; i++) { ret = body(i); if (ret) <leave with ret>; }]
    run for [n] rounds; 0 when every round succeeded. *)
Fixpoint for_ret {W : Type} (n : nat) (i : Z) (body : Z -> M W Z) : M W Z :=
  match n with
  | O => mret 0
  | S n' =>
      ret <- body i ;;
      if nonzero ret then mret ret else for_ret n' (i + 1) body
  end.

(** [memset(buff, 0, n)] *)
Definition memset0 (n : nat) (b : list Z) : list Z :=
  replicate (Nat.min n (length b)) 0 ++ drop n b.

(** The bytes a transfer received overwrite the start of the receive
    buffer, one stored byte per received byte, at most [n]. *)
Fixpoint store_rx (n : nat) (rx b : list Z) : list Z :=
  match n, rx, b with
  | S n', r :: rx', _ :: b' => to_u8 r :: store_rx n' rx' b'
  | _, _, _ => b
  end.

Section Driver.

Context {W : Type} `{Platform W}.

Definition get_dev : M W max14906_desc := fun s => (dev s, s).

Definition set_buff (b : list Z) : M W unit := fun s =>
  (tt, {| dev := with_buff (dev s) b; world := world s; trace := trace s |}).

Definition set_crc_en (c : bool) : M W unit := fun s =>
  (tt, {| dev := {| enable := enable (dev s); crc_en := c;
                    chip_address := chip_address (dev s); buff := buff (dev s) |};
          world := world s; trace := trace s |}).

Definition set_enable (h : gpio_handle) : M W unit := fun s =>
  (tt, {| dev := {| enable := h; crc_en := crc_en (dev s);
                    chip_address := chip_address (dev s); buff := buff (dev s) |};
          world := world s; trace := trace s |}).

(** A call into the platform: the world moves on and the call is
    appended to the trace. *)
Definition call {A : Type} (ev : event) (f : W -> A * W) : M W A := fun s =>
  let '(a, w) := f (world s) in
  (a, {| dev := dev s; world := w; trace := trace s ++ [ev] |}).

Definition spi_transfer (msg : no_os_spi_msg) : M W (Z * list Z) :=
  call (EvSpiTransfer msg)
       (fun w => let '(ret, rx, w') := no_os_spi_transfer msg w in ((ret, rx), w')).

Definition command_byte (chip addr rw : Z) : Z :=
  let b0 := to_u8 (no_os_field_prep MAX14906_CHIP_ADDR_MASK chip) in
  let b0 := to_u8 (Z.lor b0 (no_os_field_prep MAX14906_ADDR_MASK addr)) in
  let b0 := to_u8 (Z.lor b0 (no_os_field_prep MAX14906_RW_MASK rw)) in
  b0.

(** The scratch buffer and the message [max14906_reg_write] hands to the
    transport. *)
Definition write_frame (d : max14906_desc) (addr val : Z) : list Z * no_os_spi_msg :=
  let bytes_number := MAX14906_FRAME_SIZE in
  let b := <[0%nat := command_byte (chip_address d) addr 1]> (buff d) in
  let b := <[1%nat := to_u8 val]> b in
  let '(b, bytes_number) :=
    if crc_en d
    then (<[2%nat := max14906_crc_encode b]> b, bytes_number + 1)
    else (b, bytes_number) in
  (b, {| tx_buff := take (Z.to_nat bytes_number) b; rx_buff := false;
         bytes_number := bytes_number; cs_change := 1 |}).

Definition max14906_reg_write (addr val : Z) : M W Z :=
  d <- get_dev ;;
  let '(b, xfer) := write_frame d addr val in
  set_buff b ;;;
  r <- spi_transfer xfer ;;
  let '(ret, _) := r in
  mret ret.

(** The scratch buffer and the message [max14906_reg_read] hands to the
    transport. *)
Definition read_frame (d : max14906_desc) (addr : Z) : list Z * no_os_spi_msg :=
  let bytes_number := MAX14906_FRAME_SIZE in
  let bytes_number := if crc_en d then bytes_number + 1 else bytes_number in
  let b := memset0 (Z.to_nat bytes_number) (buff d) in
  let b := <[0%nat := command_byte (chip_address d) addr 0]> b in
  let b := if crc_en d then <[2%nat := max14906_crc_encode b]> b else b in
  (b, {| tx_buff := take (Z.to_nat bytes_number) b; rx_buff := true;
         bytes_number := bytes_number; cs_change := 1 |}).

(** The second component of the result is what was stored through
    [val]: [None] when the pointer was not written. *)
Definition max14906_reg_read (addr : Z) : M W (Z * option Z) :=
  d <- get_dev ;;
  let '(b, xfer) := read_frame d addr in
  set_buff b ;;;
  r <- spi_transfer xfer ;;
  let '(ret, rx) := r in
  set_buff (store_rx (Z.to_nat (bytes_number xfer)) rx b) ;;;
  if nonzero ret then mret (ret, None)
  else
    d <- get_dev ;;
    if crc_en d && negb (max14906_crc_decode (buff d) =? buff d !!! 2%nat)
    then mret (- EINVAL, None)
    else mret (0, Some (buff d !!! 1%nat)).

Definition max14906_reg_update (addr mask val : Z) : M W Z :=
  let reg_val := 0 in
  r <- max14906_reg_read addr ;;
  let '(ret, out) := r in
  let reg_val := default reg_val out in
  if nonzero ret then mret ret
  else
    let reg_val := Z.land reg_val (to_u32 (Z.lnot mask)) in
    let reg_val := Z.lor reg_val (Z.land mask val) in
    max14906_reg_write addr reg_val.

Definition max14906_ch_get (ch : Z) : M W (Z * option Z) :=
  if ch >=? MAX14906_CHANNELS then mret (- EINVAL, None)
  else
    r <- max14906_reg_read MAX14906_DOILEVEL_REG ;;
    let '(ret, val) := r in
    if nonzero ret then mret (ret, val)
    else mret (0, no_os_field_get (MAX14906_DOI_LEVEL_MASK ch) <$> val).

Definition max14906_ch_set (ch val : Z) : M W Z :=
  if ch >=? MAX14906_CHANNELS then mret (- EINVAL)
  else
    max14906_reg_update MAX14906_SETOUT_REG (MAX14906_HIGHO_MASK ch)
      (if nonzero val then MAX14906_HIGHO_MASK ch else 0).

Definition max14906_ch_func (ch : Z) (function : max14906_function) : M W Z :=
  match function with
  | MAX14906_HIGH_Z =>
      ret <- max14906_reg_update MAX14906_CONFIG_DO_REG (MAX14906_DO_MASK ch)
               (no_os_field_prep (MAX14906_DO_MASK ch) (do_mode_value MAX14906_PUSH_PULL)) ;;
      if nonzero ret then mret ret
      else
        max14906_reg_update MAX14906_SETOUT_REG (MAX14906_CH_DIR_MASK ch)
          (no_os_field_prep (MAX14906_CH_DIR_MASK ch) 1)
  | _ =>
      ret <- match function with
             | MAX14906_IN =>
                 max14906_reg_update MAX14906_CONFIG_DO_REG (MAX14906_DO_MASK ch)
                   (no_os_field_prep (MAX14906_DO_MASK ch) (do_mode_value MAX14906_HIGH_SIDE))
             | _ => mret 0
             end ;;
      if nonzero ret then mret ret
      else
        max14906_reg_update MAX14906_SETOUT_REG (MAX14906_CH_DIR_MASK ch)
          (no_os_field_prep (MAX14906_CH_DIR_MASK ch) (function_value function))
  end.

Definition max14906_climit_set (ch : Z) (climit : max14906_climit) : M W Z :=
  max14906_reg_update MAX14906_CONFIG_CURR_LIM (MAX14906_CL_MASK ch)
    (no_os_field_prep (MAX14906_CL_MASK ch) (climit_value climit)).

(** [climit] tells whether the output pointer is non-null. *)
Definition max14906_climit_get (ch : Z) (climit : bool) : M W (Z * option Z) :=
  if negb climit then mret (- EINVAL, None)
  else
    r <- max14906_reg_read MAX14906_CONFIG_CURR_LIM ;;
    let '(ret, reg_val) := r in
    if nonzero ret then mret (ret, None)
    else mret (0, no_os_field_get (MAX14906_CL_MASK ch) <$> reg_val).

(** *** Lifecycle *)

(** The [gpio_err] and [err] labels of [max14906_init]. *)
Definition init_err (ret : Z) : M W (Z * option max14906_desc) :=
  call EvFree (fun w => (tt, no_os_free w)) ;;;
  mret (ret, None).

Definition init_gpio_err (ret : Z) : M W (Z * option max14906_desc) :=
  d <- get_dev ;;
  call (EvGpioRemove (enable d)) (no_os_gpio_remove (enable d)) ;;;
  call EvSpiRemove no_os_spi_remove ;;;
  init_err ret.

Definition init_channel (i : Z) : M W Z :=
  ret <- max14906_ch_func i MAX14906_HIGH_Z ;;
  if nonzero ret then mret ret
  else max14906_climit_set i MAX14906_CL_130.

(** [max14906_init] from the comment "Clear the latched faults generated
    at power up" on. *)
Definition init_config : M W (Z * option max14906_desc) :=
  r <- max14906_reg_read MAX14906_OVR_LD_REG ;;
  let '(ret, _) := r in
  if nonzero ret then init_gpio_err ret else
  r <- max14906_reg_read MAX14906_OPN_WIR_FLT_REG ;;
  let '(ret, _) := r in
  if nonzero ret then init_gpio_err ret else
  r <- max14906_reg_read MAX14906_SHD_VDD_FLT_REG ;;
  let '(ret, _) := r in
  if nonzero ret then init_gpio_err ret else
  r <- max14906_reg_read MAX14906_GLOBAL_FLT_REG ;;
  let '(ret, _) := r in
  if nonzero ret then init_gpio_err ret else
  ret <- for_ret (Z.to_nat MAX14906_CHANNELS) 0 init_channel ;;
  if nonzero ret then init_gpio_err ret else
  descriptor <- get_dev ;;
  mret (0, Some descriptor).

(** The steps of the configuration phase one by one, each with the
    error code init checks: the four fault-register reads, then for every
    channel the function and the current limit. *)
Definition read_step (addr : Z) : M W Z :=
  r <- max14906_reg_read addr ;;
  mret (fst r).

Definition config_steps : list (M W Z) :=
  map read_step
      [MAX14906_OVR_LD_REG; MAX14906_OPN_WIR_FLT_REG;
       MAX14906_SHD_VDD_FLT_REG; MAX14906_GLOBAL_FLT_REG]
  ++ flat_map (fun i => [max14906_ch_func i MAX14906_HIGH_Z;
                         max14906_climit_set i MAX14906_CL_130])
       [0; 1; 2; 3].

(** Steps run in order up to the first one that returns an error. *)
Fixpoint run_until_failure (steps : list (M W Z)) : M W Z :=
  match steps with
  | [] => mret 0
  | m :: rest =>
      ret <- m ;;
      if nonzero ret then mret ret else run_until_failure rest
  end.

(** [max14906_init] after the allocation succeeded. *)
Definition init_body (param : max14906_init_param) : M W (Z * option max14906_desc) :=
  ret <- call EvSpiInit no_os_spi_init ;;
  if nonzero ret then init_err ret else
  set_crc_en (param_crc_en param) ;;;
  r <- call EvGpioGetOptional no_os_gpio_get_optional ;;
  let '(ret, h) := r in
  set_enable h ;;;
  if negb (nonzero ret) then
    d <- get_dev ;;
    ret <- call (EvGpioSetValue (enable d) NO_OS_GPIO_HIGH)
                (no_os_gpio_set_value (enable d) NO_OS_GPIO_HIGH) ;;
    if nonzero ret then init_gpio_err ret else init_config
  else init_config.

(** The result carries what was stored through [desc]: [None] when the
    caller's pointer was not written. The state passed in supplies the
    world and the trace; init works on a descriptor of its own. *)
Definition max14906_init (param : max14906_init_param) (w : W) (tr : list event)
  : (Z * option max14906_desc) * state W :=
  let '(ok, w1) := no_os_calloc w in
  let s := {| dev := zeroed_desc; world := w1; trace := tr ++ [EvCalloc] |} in
  if negb ok then ((- ENOMEM, None), s)
  else init_body param s.

(** [desc] tells whether the descriptor pointer is non-null; the
    descriptor itself is the one of the state. *)
Definition max14906_remove (desc : bool) : M W Z :=
  if negb desc then mret (- ENODEV)
  else
    ret <- for_ret (Z.to_nat MAX14906_CHANNELS) 0
             (fun i => max14906_ch_func i MAX14906_HIGH_Z) ;;
    if nonzero ret then mret ret else
    ret <- call EvSpiRemove no_os_spi_remove ;;
    if nonzero ret then mret ret else
    d <- get_dev ;;
    ret <- match enable d with
           | Some _ => call (EvGpioSetValue (enable d) NO_OS_GPIO_HIGH_Z)
                            (no_os_gpio_set_value (enable d) NO_OS_GPIO_HIGH_Z)
           | None => mret 0
           end ;;
    if nonzero ret then mret ret else
    call EvFree (fun w => (tt, no_os_free w)) ;;;
    mret 0.

End Driver.

(** ** A test double: the device as an in-memory register file *)

Module Stub.

Definition regfile : Type := Z -> Z.

Definition reg_set (regs : regfile) (addr val : Z) : regfile :=
  fun a => if a =? addr then val else regs a.

(** What the calls other than the transfer answer. *)
Record outcomes : Type := {
  alloc_ok : bool;
  spi_init_ret : Z;
  gpio_get_ret : Z;
  gpio_get_handle : gpio_handle;
  gpio_set_ret : Z
}.

(** The device end of one frame: a write frame stores the data byte at
    the addressed register, a read frame answers with the register in
    byte 1 and the CRC5 of the answer in byte 2. *)
Definition device_transfer (msg : no_os_spi_msg) (regs : regfile) : Z * list Z * regfile :=
  let cmd := tx_buff msg !!! 0%nat in
  let addr := no_os_field_get MAX14906_ADDR_MASK cmd in
  if nonzero (Z.land cmd MAX14906_RW_MASK)
  then (0, [], reg_set regs addr (tx_buff msg !!! 1%nat))
  else
    let resp := [0; to_u8 (regs addr)] in
    (0, resp ++ [max14906_crc_decode resp], regs).

Definition platform (o : outcomes) : Platform regfile := {|
  no_os_calloc := fun w => (alloc_ok o, w);
  no_os_free := fun w => w;
  no_os_spi_init := fun w => (spi_init_ret o, w);
  no_os_spi_remove := fun w => (0, w);
  no_os_spi_transfer := device_transfer;
  no_os_gpio_get_optional := fun w => (gpio_get_ret o, gpio_get_handle o, w);
  no_os_gpio_set_value := fun _ _ w => (gpio_set_ret o, w);
  no_os_gpio_remove := fun _ w => (0, w)
|}.

(** A platform on which every transfer fails with [-EIO]. *)
Definition dead_bus : Platform regfile := {|
  no_os_calloc := fun w => (true, w);
  no_os_free := fun w => w;
  no_os_spi_init := fun w => (0, w);
  no_os_spi_remove := fun w => (0, w);
  no_os_spi_transfer := fun _ w => (-5, [], w);
  no_os_gpio_get_optional := fun w => (0, Some 1, w);
  no_os_gpio_set_value := fun _ _ w => (0, w);
  no_os_gpio_remove := fun _ w => (0, w)
|}.

(** Everything succeeds and an enable line is present. *)
Definition all_ok : outcomes :=
  {| alloc_ok := true; spi_init_ret := 0; gpio_get_ret := 0;
     gpio_get_handle := Some 1; gpio_set_ret := 0 |}.

(** Acquiring the enable line fails, everything else succeeds. *)
Definition gpio_get_fails : outcomes :=
  {| alloc_ok := true; spi_init_ret := 0; gpio_get_ret := - EINVAL;
     gpio_get_handle := None; gpio_set_ret := 0 |}.

(** Driving the enable line fails, everything else succeeds. *)
Definition gpio_set_fails : outcomes :=
  {| alloc_ok := true; spi_init_ret := 0; gpio_get_ret := 0;
     gpio_get_handle := Some 1; gpio_set_ret := -5 |}.

Definition power_on : regfile := fun _ => 0.

(** A descriptor with CRC enabled. *)
Definition crc_desc : max14906_desc :=
  {| enable := Some 1; crc_en := true; chip_address := 0; buff := [0; 0; 0] |}.

Definition start (d : max14906_desc) (regs : regfile) : state regfile :=
  {| dev := d; world := regs; trace := [] |}.

(** The CRC-enabled descriptor on the register file at power-up. *)
Definition s0 : state regfile := start crc_desc power_on.

End Stub.

(** ** Register accesses as they appear on the bus *)

Inductive access : Type :=
| RegRead (addr : Z)
| RegWrite (addr val : Z).

(** A transfer decoded the way the device decodes it: the RW bit and the
    address field of byte 0, and for a write the data byte. *)
Definition access_of (ev : event) : option access :=
  match ev with
  | EvSpiTransfer msg =>
      let cmd := tx_buff msg !!! 0%nat in
      let addr := no_os_field_get MAX14906_ADDR_MASK cmd in
      if nonzero (Z.land cmd MAX14906_RW_MASK)
      then Some (RegWrite addr (tx_buff msg !!! 1%nat))
      else Some (RegRead addr)
  | _ => None
  end.

Definition accesses (tr : list event) : list access := omap access_of tr.

(** The value a register update writes back, as a byte. *)
Definition reg_merge (v mask val : Z) : Z :=
  to_u8 (Z.lor (Z.land v (Z.lnot mask)) (Z.land mask val)).

(** The fields of the descriptor that register access leaves alone. *)
Definition same_config (d d' : max14906_desc) : Prop :=
  enable d' = enable d /\ crc_en d' = crc_en d /\ chip_address d' = chip_address d.

(** The loop indices [i, i + n) of a CRC loop, as the bit positions
    [7 - i] they select. *)
Fixpoint positions (n : nat) (i : Z) : list Z :=
  match n with
  | O => []
  | S n' => (7 - i) :: positions n' (i + 1)
  end.

(** The command byte assembled from field values that fit their fields. *)
Definition layout_check (c a r : Z) : bool :=
  to_u8 (Z.lor (to_u8 (Z.lor (to_u8 (Z.shiftl c 6)) (Z.shiftl a 1))) (Z.shiftl r 0))
  =? 64 * c + 2 * a + r.

(** The three fields of the command byte joined by bitwise or. *)
Definition fields_or_check (c a r : Z) : bool :=
  Z.lor (Z.lor (Z.shiftl c 6) (Z.shiftl a 1)) (Z.shiftl r 0) =? 64 * c + 2 * a + r.

(** What the device decodes from such a command byte. *)
Definition decode_check (c a r : Z) : bool :=
  (no_os_field_get MAX14906_ADDR_MASK (64 * c + 2 * a + r) =? a)
  && (Z.land (64 * c + 2 * a + r) MAX14906_RW_MASK =? r).

(** Whether a field reads back as [fv] once an update of that field with
    [fv] has been merged into the register value [v]. *)
Definition field_after_update (mask fv v : Z) : bool :=
  no_os_field_get mask (reg_merge v mask (no_os_field_prep mask fv)) =? fv.

(** Kinds of platform calls. *)
Definition is_transfer (ev : event) : bool :=
  match ev with
  | EvSpiTransfer _ => true
  | _ => false
  end.

Definition is_cleanup (ev : event) : bool :=
  match ev with
  | EvGpioRemove _ | EvSpiRemove | EvFree => true
  | _ => false
  end.

Definition is_gpio_set (ev : event) : bool :=
  match ev with
  | EvGpioSetValue _ _ => true
  | _ => false
  end.

(** From [s] to [s'] only SPI transfers happened, and the descriptor
    kept its configuration and its three-byte buffer. *)
Definition bus_step {W : Type} (s s' : state W) : Prop :=
  exists new,
    trace s' = trace s ++ new
    /\ forallb is_transfer new = true
    /\ same_config (dev s) (dev s') /\ buff_ok (dev s').

Definition bus_only {W A : Type} (m : M W A) : Prop :=
  forall s a s', buff_ok (dev s) -> m s = (a, s') -> bus_step s s'.

(** How a run of the configuration phase, or of all of init, ends:
    with success, the descriptor handed out and only transfers on the
    trace, or with an error, nothing handed out and the three clean-up
    calls last. *)
Definition ends_well {W : Type} (s : state W) (res : Z * option max14906_desc * state W) : Prop :=
  let '(ret, out, s') := res in
  (ret = 0 /\ out = Some (dev s') /\ bus_step s s')
  \/ (ret <> 0 /\ out = None
      /\ exists s1, bus_step s s1
           /\ trace s' = trace s1 ++ [EvGpioRemove (enable (dev s)); EvSpiRemove; EvFree]
           /\ dev s' = dev s1).

(** *** What init is expected to leave on the register file *)

(** The register value [v] with the field [mask ch] set to [fv]. *)
Definition set_field (mask : Z -> Z) (fv ch v : Z) : Z :=
  reg_merge v (mask ch) (no_os_field_prep (mask ch) fv).

Definition high_z_mode : Z -> Z -> Z :=
  set_field MAX14906_DO_MASK (do_mode_value MAX14906_PUSH_PULL).
Definition high_z_dir : Z -> Z -> Z :=
  set_field MAX14906_CH_DIR_MASK 1.
Definition min_climit : Z -> Z -> Z :=
  set_field MAX14906_CL_MASK (climit_value MAX14906_CL_130).

(** The accesses of [n] rounds of the channel loop starting at channel
    [ch], when CONFIG_DO, SETOUT and CONFIG_CURR_LIM hold [d], [t], [c]. *)
Fixpoint expected_channel_accesses (n : nat) (ch d t c : Z) : list access :=
  match n with
  | O => []
  | S n' =>
      [RegRead MAX14906_CONFIG_DO_REG;
       RegWrite MAX14906_CONFIG_DO_REG (high_z_mode ch d);
       RegRead MAX14906_SETOUT_REG;
       RegWrite MAX14906_SETOUT_REG (high_z_dir ch t);
       RegRead MAX14906_CONFIG_CURR_LIM;
       RegWrite MAX14906_CONFIG_CURR_LIM (min_climit ch c)]
      ++ expected_channel_accesses n' (ch + 1)
           (high_z_mode ch d) (high_z_dir ch t) (min_climit ch c)
  end.

(** The register file after these rounds. *)
Fixpoint channel_regs (n : nat) (ch : Z) (regs : Stub.regfile) : Stub.regfile :=
  match n with
  | O => regs
  | S n' =>
      let regs := Stub.reg_set regs MAX14906_CONFIG_DO_REG
                    (high_z_mode ch (to_u8 (regs MAX14906_CONFIG_DO_REG))) in
      let regs := Stub.reg_set regs MAX14906_SETOUT_REG
                    (high_z_dir ch (to_u8 (regs MAX14906_SETOUT_REG))) in
      let regs := Stub.reg_set regs MAX14906_CONFIG_CURR_LIM
                    (min_climit ch (to_u8 (regs MAX14906_CONFIG_CURR_LIM))) in
      channel_regs n' (ch + 1) regs
  end.

(** A field set for the channels [ch, ch + n) in turn. *)
Fixpoint field_chain (mask : Z -> Z) (fv : Z) (n : nat) (ch v : Z) : Z :=
  match n with
  | O => v
  | S n' => field_chain mask fv n' (ch + 1) (set_field mask fv ch v)
  end.

Definition fields_set (mask : Z -> Z) (fv : Z) (ch v : Z) : bool :=
  no_os_field_get (mask ch) (field_chain mask fv 4 0 v) =? fv.

Definition fault_reads : list access :=
  [RegRead MAX14906_OVR_LD_REG; RegRead MAX14906_OPN_WIR_FLT_REG;
   RegRead MAX14906_SHD_VDD_FLT_REG; RegRead MAX14906_GLOBAL_FLT_REG].

(** Two register addresses of the map differ. *)
Ltac other_register := vm_compute; congruence.

(** ** Definitions for the further properties *)

(** What a bit error pattern [(ec, ed)] on the command and data byte adds
    to the encode CRC: the division of the pattern started at 0. *)
Definition encode_syndrome (ec ed : Z) : Z :=
  crc5_divide 0 0x15 (msb_first ec ++ msb_first ed ++ zero_pad).

(** The same for the decode CRC, which sees bits 5 down to 0 of the
    command byte. *)
Definition decode_syndrome (ec ed : Z) : Z :=
  crc5_divide 0 0x15 (bits_at [5; 4; 3; 2; 1; 0] ec ++ msb_first ed ++ zero_pad).

(** One division step commutes with exclusive or. *)
Definition step_linear_check (r r' : Z) : bool :=
  forallb (fun b =>
    forallb (fun b' =>
      (div_step crc5_poly (Z.lxor r r') (xorb b b')
       =? Z.lxor (div_step crc5_poly r b) (div_step crc5_poly r' b'))
      && (0 <=? Z.lxor r r') && (Z.lxor r r' <? 32))
      [false; true]) [false; true].

(** The level field of a channel is the bit of the level register at the
    channel's index. *)
Definition level_bit_check (ch v : Z) : bool :=
  no_os_field_get (MAX14906_DOI_LEVEL_MASK ch) v =? Z.b2z (Z.testbit v ch).

(** A field of channel [ch'] is as it was once the same kind of field of
    another channel [ch] has been updated with [fv]. *)
Definition field_kept_check (mask : Z -> Z) (fv ch ch' v : Z) : bool :=
  (ch =? ch')
  || (no_os_field_get (mask ch') (reg_merge v (mask ch) (no_os_field_prep (mask ch) fv))
      =? no_os_field_get (mask ch') v).

(** Which bits of a byte the masks of a channel below 4 select. *)
Definition mask_bits_check (ch i : Z) : bool :=
  Bool.eqb (Z.testbit (MAX14906_HIGHO_MASK ch) i) (i =? ch)
  && Bool.eqb (Z.testbit (MAX14906_CH_DIR_MASK ch) i) (i =? ch + 4)
  && Bool.eqb (Z.testbit (MAX14906_DO_MASK ch) i) ((i =? 2 * ch) || (i =? 2 * ch + 1))
  && Bool.eqb (Z.testbit (MAX14906_CL_MASK ch) i) ((i =? 2 * ch) || (i =? 2 * ch + 1)).

(** The masks of a channel index from 4 to 15 select no bit of a byte. *)
Definition mask_outside_byte_check (ch i : Z) : bool :=
  (ch <? 4)
  || (negb (Z.testbit (MAX14906_CH_DIR_MASK ch) i)
      && negb (Z.testbit (MAX14906_DO_MASK ch) i)
      && negb (Z.testbit (MAX14906_CL_MASK ch) i)).

(** The register file after [n] rounds of the channel loop of
    [max14906_remove], starting at channel [ch]. *)
Fixpoint high_z_regs (n : nat) (ch : Z) (regs : Stub.regfile) : Stub.regfile :=
  match n with
  | O => regs
  | S n' =>
      let regs := Stub.reg_set regs MAX14906_CONFIG_DO_REG
                    (high_z_mode ch (to_u8 (regs MAX14906_CONFIG_DO_REG))) in
      let regs := Stub.reg_set regs MAX14906_SETOUT_REG
                    (high_z_dir ch (to_u8 (regs MAX14906_SETOUT_REG))) in
      high_z_regs n' (ch + 1) regs
  end.

(** The mode that [max14906_ch_func] writes for input and for high-Z,
    and the direction value it writes for a function. *)
Definition mode_of (function : max14906_function) : max14906_do_mode :=
  match function with
  | MAX14906_HIGH_Z => MAX14906_PUSH_PULL
  | _ => MAX14906_HIGH_SIDE
  end.

Definition direction_of (function : max14906_function) : Z :=
  match function with
  | MAX14906_HIGH_Z => 1
  | _ => function_value function
  end.

(** Flipping bit [k] of a byte gives a byte, which for bits 7 and 6 has
    the same low six bits. *)
Definition flipped_byte_check (r k : Z) : bool :=
  let x := Z.lxor r (Z.shiftl 1 k) in
  (0 <=? x) && (x <? 256) && ((k <? 6) || (x mod 64 =? r mod 64)).

(** The rounds of the channel loop of [max14906_remove], one step per
    channel. *)
Definition high_z_steps {W : Type} `{Platform W} : list (M W Z) :=
  map (fun i => max14906_ch_func i MAX14906_HIGH_Z) [0; 1; 2; 3].

(** ** Proofs *)

(** *** Checking a predicate on an initial segment of [Z] by evaluation *)

Lemma forallb_Z_below (P : Z -> bool) (n : nat) :
  forallb P (map Z.of_nat (seq 0 n)) = true ->
  forall x, 0 <= x < Z.of_nat n -> P x = true.
Proof.
  intros Hall x Hx.
  rewrite forallb_forall in Hall.
  apply Hall, in_map_iff.
  exists (Z.to_nat x); split; [lia|].
  apply in_seq; lia.
Qed.

Lemma to_u8_range x : 0 <= to_u8 x < 256.
Proof. unfold to_u8. apply Z.mod_pos_bound. lia. Qed.

Lemma to_u8_small x : 0 <= x < 256 -> to_u8 x = x.
Proof. intros. unfold to_u8. apply Z.mod_small. lia. Qed.

(** *** CRC5 *)

Section Crc5Facts.

Lemma land_1_testbit (x k : Z) :
  Z.land (Z.shiftr x k) 0x01 = Z.b2z (Z.testbit x k).
Proof.
  change 0x01 with (Z.ones 1).
  rewrite Z.land_ones by lia.
  change (2 ^ 1) with 2.
  rewrite <- Z.bit0_mod, Z.shiftr_spec by lia.
  reflexivity.
Qed.

Lemma div_step_range (b : bool) (rem : Z) :
  0 <= rem < 32 -> 0 <= div_step crc5_poly rem b < 32.
Proof.
  intros Hr.
  pose proof (forallb_Z_below
    (fun r => (0 <=? div_step crc5_poly r b) && (div_step crc5_poly r b <? 32)) 32) as Hchk.
  assert (Hall : forallb (fun r => (0 <=? div_step crc5_poly r b)
                                   && (div_step crc5_poly r b <? 32))
                         (map Z.of_nat (seq 0 32)) = true)
    by (destruct b; vm_compute; reflexivity).
  specialize (Hchk Hall rem Hr). cbv beta in Hchk.
  apply andb_prop in Hchk as [H1 H2]. lia.
Qed.

Lemma crc5_iter_div_step (byte i rem : Z) :
  0 <= rem < 32 ->
  crc5_iter byte i rem = div_step crc5_poly rem (Z.testbit byte (7 - i)).
Proof.
  intros Hr. unfold crc5_iter.
  rewrite land_1_testbit.
  set (b := Z.testbit byte (7 - i)).
  pose proof (forallb_Z_below
    (fun r =>
       (if nonzero (Z.lxor (Z.b2z b) (Z.shiftr (Z.land r 0x10) 4))
        then to_u8 (Z.lxor crc5_poly (Z.land (Z.shiftl r 1) 0x1f))
        else to_u8 (Z.land (Z.shiftl r 1) 0x1f)) =? div_step crc5_poly r b) 32) as Hchk.
  assert (Hall : forallb
    (fun r =>
       (if nonzero (Z.lxor (Z.b2z b) (Z.shiftr (Z.land r 0x10) 4))
        then to_u8 (Z.lxor crc5_poly (Z.land (Z.shiftl r 1) 0x1f))
        else to_u8 (Z.land (Z.shiftl r 1) 0x1f)) =? div_step crc5_poly r b)
    (map Z.of_nat (seq 0 32)) = true)
    by (destruct b; vm_compute; reflexivity).
  specialize (Hchk Hall rem Hr). cbv beta in Hchk.
  apply Z.eqb_eq in Hchk. exact Hchk.
Qed.

Lemma for_range_divide (byte : Z) (n : nat) :
  forall i rem, 0 <= rem < 32 ->
    for_range n i (crc5_iter byte) rem
    = fold_left (div_step crc5_poly) (bits_at (positions n i) byte) rem.
Proof.
  induction n as [|n IH]; intros i rem Hr; [reflexivity|].
  cbn [for_range positions bits_at map fold_left].
  rewrite crc5_iter_div_step by assumption.
  apply IH, div_step_range, Hr.
Qed.

Lemma fold_div_step_range (bits : list bool) :
  forall rem, 0 <= rem < 32 -> 0 <= fold_left (div_step crc5_poly) bits rem < 32.
Proof.
  induction bits as [|b bits IH]; intros rem Hr; [exact Hr|].
  cbn [fold_left]. apply IH, div_step_range, Hr.
Qed.

Lemma crc5_divide_range (bits : list bool) :
  0 <= crc5_divide 0x1f 0x15 bits < 32.
Proof. apply (fold_div_step_range bits 0x1f). lia. Qed.

Lemma crc_encode_divide (cmd data : Z) (rest : list Z) :
  max14906_crc_encode (cmd :: data :: rest) = crc5_encode_spec cmd data.
Proof.
  unfold max14906_crc_encode, crc5_encode_spec, crc5_divide, for_loop.
  cbn [lookup_total list_lookup_total].
  rewrite !fold_left_app.
  rewrite (for_range_divide cmd) by (unfold crc5_start; lia).
  rewrite (for_range_divide data) by (apply fold_div_step_range; unfold crc5_start; lia).
  rewrite (for_range_divide extra_byte)
    by (do 2 apply fold_div_step_range; unfold crc5_start; lia).
  change (bits_at (positions (Z.to_nat (8 - 0)) 0) cmd) with (msb_first cmd).
  change (bits_at (positions (Z.to_nat (8 - 0)) 0) data) with (msb_first data).
  change (bits_at (positions (Z.to_nat (3 - 0)) 0) extra_byte) with zero_pad.
  reflexivity.
Qed.

Lemma crc_decode_divide (cmd data : Z) (rest : list Z) :
  max14906_crc_decode (cmd :: data :: rest) = crc5_decode_high_skipped cmd data.
Proof.
  unfold max14906_crc_decode, crc5_decode_high_skipped, crc5_divide, for_loop.
  cbn [lookup_total list_lookup_total].
  rewrite !fold_left_app.
  rewrite (for_range_divide cmd) by (unfold crc5_start; lia).
  rewrite (for_range_divide data) by (apply fold_div_step_range; unfold crc5_start; lia).
  rewrite (for_range_divide extra_byte)
    by (do 2 apply fold_div_step_range; unfold crc5_start; lia).
  change (bits_at (positions (Z.to_nat (8 - 2)) 2) cmd)
    with (bits_at [5; 4; 3; 2; 1; 0] cmd).
  change (bits_at (positions (Z.to_nat (8 - 0)) 0) data) with (msb_first data).
  change (bits_at (positions (Z.to_nat (3 - 0)) 0) extra_byte) with zero_pad.
  reflexivity.
Qed.

Lemma crc_decode_range (cmd data : Z) (rest : list Z) :
  0 <= max14906_crc_decode (cmd :: data :: rest) < 32.
Proof. rewrite crc_decode_divide. apply crc5_divide_range. Qed.

Lemma crc_encode_range (cmd data : Z) (rest : list Z) :
  0 <= max14906_crc_encode (cmd :: data :: rest) < 32.
Proof. rewrite crc_encode_divide. apply crc5_divide_range. Qed.

End Crc5Facts.

(** C2, as amended. For every two-byte input, [max14906_crc_encode] is
    the bit-serial CRC5 division with start value 0x1F and polynomial
    0x15 over the eight bits of the command byte, most significant bit
    first, then the eight bits of the data byte, most significant bit
    first, then three zero pad bits, and its result has five bits.
    [max14906_crc_decode] is the same division over six bits of the
    command byte, namely bits 5 down to 0: it leaves out the two most
    significant bits of that byte, not the two low ones, and treats the
    data byte and the pad in the same way. *)
Theorem crc5_engine_is_bit_serial_division (cmd data : Z) :
  max14906_crc_encode [cmd; data]
  = crc5_divide 0x1f 0x15 (msb_first cmd ++ msb_first data ++ zero_pad)
  /\ 0 <= max14906_crc_encode [cmd; data] < 32
  /\ max14906_crc_decode [cmd; data]
     = crc5_divide 0x1f 0x15
         (bits_at [5; 4; 3; 2; 1; 0] cmd ++ msb_first data ++ zero_pad)
  /\ 0 <= max14906_crc_decode [cmd; data] < 32.
Proof.
  split; [rewrite crc_encode_divide; unfold crc5_encode_spec; reflexivity|].
  split; [apply crc_encode_range|].
  split; [|apply crc_decode_range].
  rewrite crc_decode_divide; unfold crc5_decode_high_skipped; reflexivity.
Qed.

(** C2, as stated, fails for the command byte 0x01 with data byte 0x00:
    the code's decode differs from the division that leaves out the two
    low bits of the command byte, and it does tell 0x01 from 0x00, which
    differ in a low bit only. *)
Lemma crc_decode_low_bits_are_not_skipped :
  max14906_crc_decode [0x01; 0x00] <> crc5_decode_low_skipped 0x01 0x00
  /\ max14906_crc_decode [0x01; 0x00] <> max14906_crc_decode [0x00; 0x00].
Proof. split; vm_compute; discriminate. Qed.

(** *** The command byte *)

Lemma field_prep_contiguous (x k n : Z) :
  0 <= k -> 0 <= n ->
  Z.land (Z.shiftl x k) (Z.shiftl (Z.ones n) k) = Z.shiftl (x mod 2 ^ n) k.
Proof.
  intros Hk Hn.
  rewrite <- Z.shiftl_land, Z.land_ones by assumption.
  reflexivity.
Qed.

Lemma layout_check_all (c a r : Z) :
  0 <= c < 4 -> 0 <= a < 32 -> 0 <= r < 2 -> layout_check c a r = true.
Proof.
  intros Hc Ha Hr.
  pose proof (forallb_Z_below
    (fun c => forallb (fun a => forallb (layout_check c a) (map Z.of_nat (seq 0 2)))
                      (map Z.of_nat (seq 0 32))) 4) as Hchk.
  assert (Hall : forallb
    (fun c => forallb (fun a => forallb (layout_check c a) (map Z.of_nat (seq 0 2)))
                      (map Z.of_nat (seq 0 32))) (map Z.of_nat (seq 0 4)) = true)
    by (vm_compute; reflexivity).
  specialize (Hchk Hall c Hc). cbv beta in Hchk.
  pose proof (forallb_Z_below _ 32 Hchk a Ha) as Hchk2. cbv beta in Hchk2.
  exact (forallb_Z_below _ 2 Hchk2 r Hr).
Qed.

Lemma command_byte_layout (chip addr rw : Z) :
  command_byte chip addr rw = 64 * (chip mod 4) + 2 * (addr mod 32) + rw mod 2.
Proof.
  unfold command_byte, no_os_field_prep.
  change (no_os_find_first_set_bit MAX14906_CHIP_ADDR_MASK) with 6.
  change (no_os_find_first_set_bit MAX14906_ADDR_MASK) with 1.
  change (no_os_find_first_set_bit MAX14906_RW_MASK) with 0.
  change MAX14906_CHIP_ADDR_MASK with (Z.shiftl (Z.ones 2) 6).
  change MAX14906_ADDR_MASK with (Z.shiftl (Z.ones 5) 1).
  change MAX14906_RW_MASK with (Z.shiftl (Z.ones 1) 0).
  rewrite !field_prep_contiguous by lia.
  change (2 ^ 2) with 4. change (2 ^ 5) with 32. change (2 ^ 1) with 2.
  apply Z.eqb_eq.
  apply layout_check_all; apply Z.mod_pos_bound; lia.
Qed.

Lemma fields_or_check_all (c a r : Z) :
  0 <= c < 4 -> 0 <= a < 32 -> 0 <= r < 2 -> fields_or_check c a r = true.
Proof.
  intros Hc Ha Hr.
  pose proof (forallb_Z_below
    (fun c => forallb (fun a => forallb (fields_or_check c a) (map Z.of_nat (seq 0 2)))
                      (map Z.of_nat (seq 0 32))) 4) as Hchk.
  assert (Hall : forallb
    (fun c => forallb (fun a => forallb (fields_or_check c a) (map Z.of_nat (seq 0 2)))
                      (map Z.of_nat (seq 0 32))) (map Z.of_nat (seq 0 4)) = true)
    by (vm_compute; reflexivity).
  specialize (Hchk Hall c Hc). cbv beta in Hchk.
  pose proof (forallb_Z_below _ 32 Hchk a Ha) as Hchk2. cbv beta in Hchk2.
  exact (forallb_Z_below _ 2 Hchk2 r Hr).
Qed.

(** The command byte is the bitwise or of its three fields, which do not
    overlap. *)
Lemma fields_or_layout (chip addr rw : Z) :
  Z.lor (Z.lor (no_os_field_prep MAX14906_CHIP_ADDR_MASK chip)
               (no_os_field_prep MAX14906_ADDR_MASK addr))
        (no_os_field_prep MAX14906_RW_MASK rw)
  = 64 * (chip mod 4) + 2 * (addr mod 32) + rw mod 2.
Proof.
  unfold no_os_field_prep.
  change (no_os_find_first_set_bit MAX14906_CHIP_ADDR_MASK) with 6.
  change (no_os_find_first_set_bit MAX14906_ADDR_MASK) with 1.
  change (no_os_find_first_set_bit MAX14906_RW_MASK) with 0.
  change MAX14906_CHIP_ADDR_MASK with (Z.shiftl (Z.ones 2) 6).
  change MAX14906_ADDR_MASK with (Z.shiftl (Z.ones 5) 1).
  change MAX14906_RW_MASK with (Z.shiftl (Z.ones 1) 0).
  rewrite !field_prep_contiguous by lia.
  change (2 ^ 2) with 4. change (2 ^ 5) with 32. change (2 ^ 1) with 2.
  apply Z.eqb_eq.
  apply fields_or_check_all; apply Z.mod_pos_bound; lia.
Qed.

(** *** Register access *)

Section RegisterAccess.

Context {W : Type} `{Platform W}.

Local Opaque max14906_crc_encode max14906_crc_decode command_byte.

Lemma reg_write_run (s : state W) (addr val : Z) :
  max14906_reg_write addr val s
  = let '(b, xfer) := write_frame (dev s) addr val in
    let '(ret, _, w') := no_os_spi_transfer xfer (world s) in
    (ret, {| dev := with_buff (dev s) b; world := w';
             trace := trace s ++ [EvSpiTransfer xfer] |}).
Proof.
  unfold max14906_reg_write, mbind, get_dev, set_buff, spi_transfer, call, mret.
  destruct (write_frame (dev s) addr val) as [b xfer].
  cbn [dev world trace].
  destruct (no_os_spi_transfer xfer (world s)) as [[ret rx] w'].
  reflexivity.
Qed.

Lemma write_frame_explicit (d : max14906_desc) (addr val x y z : Z) :
  buff d = [x; y; z] ->
  let b0 := 64 * (chip_address d mod 4) + 2 * (addr mod 32) + 1 in
  let b1 := val mod 256 in
  write_frame d addr val
  = if crc_en d
    then ([b0; b1; max14906_crc_encode [b0; b1]],
          {| tx_buff := [b0; b1; max14906_crc_encode [b0; b1]]; rx_buff := false;
             bytes_number := 3; cs_change := 1 |})
    else ([b0; b1; z],
          {| tx_buff := [b0; b1]; rx_buff := false;
             bytes_number := 2; cs_change := 1 |}).
Proof.
  intros Hb b0 b1. unfold write_frame. rewrite Hb.
  rewrite command_byte_layout. change (1 mod 2) with 1.
  unfold to_u8. fold b0 b1.
  destruct (crc_en d).
  - cbn [list_insert insert].
    rewrite (crc_encode_divide b0 b1 [z]), <- (crc_encode_divide b0 b1 []).
    reflexivity.
  - reflexivity.
Qed.

(** C4. For every [addr] and [val], [max14906_reg_write] makes buffer
    byte 0 the bitwise or of the chip address in the two-bit field at
    the top, [addr] in the five-bit address field and 1 in the RW bit,
    and puts [val], as a byte, in buffer byte 1; with CRC enabled it
    appends the CRC5 encode of the buffer as byte 2 and the transfer
    length is 3 instead of 2; it issues exactly one SPI transfer, with
    [cs_change] set, and returns what the transport returned. *)
Theorem reg_write_frames_and_transfers_once
  (s : state W) (addr val ret : Z) (rx : list Z) (w' : W) :
  let b0 := 64 * (chip_address (dev s) mod 4) + 2 * (addr mod 32) + 1 in
  let b1 := val mod 256 in
  let xfer := {| tx_buff := if crc_en (dev s)
                            then [b0; b1; max14906_crc_encode [b0; b1]]
                            else [b0; b1];
                 rx_buff := false;
                 bytes_number := if crc_en (dev s) then 3 else 2;
                 cs_change := 1 |} in
  buff_ok (dev s) ->
  no_os_spi_transfer xfer (world s) = (ret, rx, w') ->
  b0 = Z.lor (Z.lor (no_os_field_prep MAX14906_CHIP_ADDR_MASK (chip_address (dev s)))
                    (no_os_field_prep MAX14906_ADDR_MASK addr))
             (no_os_field_prep MAX14906_RW_MASK 1)
  /\ exists s',
       max14906_reg_write addr val s = (ret, s')
       /\ trace s' = trace s ++ [EvSpiTransfer xfer]
       /\ world s' = w'
       /\ take (Z.to_nat (bytes_number xfer)) (buff (dev s')) = tx_buff xfer.
Proof.
  cbv zeta. intros Hok Hx.
  split; [rewrite fields_or_layout; reflexivity|].
  unfold buff_ok in Hok.
  destruct (buff (dev s)) as [|x [|y [|z [|? ?]]]] eqn:Hb; try discriminate Hok.
  rewrite reg_write_run, (write_frame_explicit _ addr val x y z Hb).
  destruct (crc_en (dev s)); rewrite Hx;
    eexists; repeat split; reflexivity.
Qed.

Lemma reg_read_run (s : state W) (addr : Z) :
  max14906_reg_read addr s
  = let '(b, xfer) := read_frame (dev s) addr in
    let '(ret, rx, w') := no_os_spi_transfer xfer (world s) in
    let b' := store_rx (Z.to_nat (bytes_number xfer)) rx b in
    let s' := {| dev := with_buff (dev s) b'; world := w';
                 trace := trace s ++ [EvSpiTransfer xfer] |} in
    if nonzero ret then ((ret, None), s')
    else if crc_en (dev s) && negb (max14906_crc_decode b' =? b' !!! 2%nat)
         then ((- EINVAL, None), s')
         else ((0, Some (b' !!! 1%nat)), s').
Proof.
  destruct s as [[en crc chip bf] w tr].
  unfold max14906_reg_read, mbind, get_dev, set_buff, spi_transfer, call, mret.
  cbn [dev world trace].
  destruct (read_frame _ addr) as [b xfer].
  cbn [dev world trace].
  destruct (no_os_spi_transfer xfer w) as [[ret rx] w'].
  unfold with_buff. cbn [dev world trace crc_en buff enable chip_address].
  destruct (nonzero ret); [reflexivity|].
  cbv beta. cbn [dev world trace crc_en buff enable chip_address].
  destruct (crc && _); reflexivity.
Qed.

Lemma read_frame_length (d : max14906_desc) (addr : Z) :
  bytes_number (snd (read_frame d addr)) = if crc_en d then 3 else 2.
Proof. unfold read_frame. destruct (crc_en d); reflexivity. Qed.

(** C3. With CRC enabled and a transfer that succeeded,
    [max14906_reg_read] computes the decode CRC5 of the bytes the
    transfer returned and compares it with returned byte 2: when they
    differ it returns [-EINVAL] and stores nothing through [val], when
    they agree it stores returned byte 1 through [val] and returns 0. *)
Theorem reg_read_checks_returned_crc
  (s : state W) (addr : Z) (rx : list Z) (w' : W) :
  let request := read_frame (dev s) addr in
  let returned := store_rx 3 rx (fst request) in
  crc_en (dev s) = true ->
  no_os_spi_transfer (snd request) (world s) = (0, rx, w') ->
  exists s',
    buff (dev s') = returned
    /\ trace s' = trace s ++ [EvSpiTransfer (snd request)]
    /\ (max14906_crc_decode returned <> returned !!! 2%nat ->
        max14906_reg_read addr s = (- EINVAL, None, s'))
    /\ (max14906_crc_decode returned = returned !!! 2%nat ->
        max14906_reg_read addr s = (0, Some (returned !!! 1%nat), s')).
Proof.
  cbv zeta. intros Hcrc Hx.
  rewrite reg_read_run.
  pose proof (read_frame_length (dev s) addr) as Hlen.
  destruct (read_frame (dev s) addr) as [b xfer].
  cbn [fst snd] in *.
  rewrite Hx, Hcrc in *. rewrite Hlen. change (Z.to_nat 3) with 3%nat.
  cbn [nonzero Z.eqb negb andb].
  exists {| dev := with_buff (dev s) (store_rx 3 rx b); world := w';
            trace := trace s ++ [EvSpiTransfer xfer] |}.
  split; [reflexivity|]; split; [reflexivity|]; split; intros Hcmp.
  - apply Z.eqb_neq in Hcmp. rewrite Hcmp. reflexivity.
  - apply Z.eqb_eq in Hcmp. rewrite Hcmp. reflexivity.
Qed.

Lemma store_rx_byte1 (n : nat) (rx b : list Z) :
  0 <= b !!! 1%nat < 256 -> 0 <= store_rx n rx b !!! 1%nat < 256.
Proof.
  intros Hb.
  destruct n as [|[|n]], rx as [|r0 [|r1 rx]], b as [|x [|y b]];
    cbn [store_rx lookup_total list_lookup_total] in *;
    try assumption; apply to_u8_range.
Qed.

Lemma read_frame_byte1 (d : max14906_desc) (addr : Z) :
  buff_ok d -> fst (read_frame d addr) !!! 1%nat = 0.
Proof.
  unfold buff_ok, read_frame, memset0. intros Hok.
  destruct (buff d) as [|x [|y [|z [|? ?]]]]; try discriminate Hok.
  destruct (crc_en d); reflexivity.
Qed.

Lemma reg_read_value (s s1 : state W) (addr ret : Z) (out : option Z) :
  buff_ok (dev s) ->
  max14906_reg_read addr s = (ret, out, s1) ->
  (ret <> 0 -> out = None)
  /\ (ret = 0 -> exists v, out = Some v /\ 0 <= v < 256).
Proof.
  intros Hok. rewrite reg_read_run.
  pose proof (read_frame_byte1 (dev s) addr Hok) as Hb1.
  destruct (read_frame (dev s) addr) as [b xfer]. cbn [fst] in Hb1.
  destruct (no_os_spi_transfer xfer (world s)) as [[r rx] w'].
  cbv zeta. unfold nonzero.
  destruct (r =? 0) eqn:Hr; cbn [negb].
  - destruct (crc_en (dev s) && _); intros [= <- <- <-].
    + split; [reflexivity|]. unfold EINVAL. lia.
    + split; [lia|]. intros _. eexists; split; [reflexivity|].
      apply store_rx_byte1. rewrite Hb1. lia.
  - intros [= <- <- <-]. apply Z.eqb_neq in Hr. split; [reflexivity|lia].
Qed.

Lemma land_lnot_u32 (v m : Z) :
  0 <= v < 4294967296 -> Z.land v (to_u32 (Z.lnot m)) = Z.land v (Z.lnot m).
Proof.
  intros Hv. unfold to_u32.
  change 4294967296 with (2 ^ 32) in *.
  rewrite <- Z.land_ones by lia.
  rewrite (Z.land_comm (Z.lnot m)), Z.land_assoc, Z.land_ones by lia.
  rewrite Z.mod_small by assumption. reflexivity.
Qed.

Lemma reg_update_read_fails
  (s s1 : state W) (addr mask val ret : Z) (out : option Z) :
  max14906_reg_read addr s = (ret, out, s1) -> ret <> 0 ->
  max14906_reg_update addr mask val s = (ret, s1).
Proof.
  intros Hread Hret. unfold max14906_reg_update, mbind. rewrite Hread.
  unfold nonzero. apply Z.eqb_neq in Hret. rewrite Hret. reflexivity.
Qed.

Lemma reg_update_read_succeeds
  (s s1 : state W) (addr mask val v : Z) :
  max14906_reg_read addr s = (0, Some v, s1) -> 0 <= v < 4294967296 ->
  max14906_reg_update addr mask val s
  = max14906_reg_write addr (Z.lor (Z.land v (Z.lnot mask)) (Z.land mask val)) s1.
Proof.
  intros Hread Hv. unfold max14906_reg_update, mbind. rewrite Hread.
  cbn [nonzero Z.eqb negb default from_option]. unfold id.
  rewrite land_lnot_u32 by assumption. reflexivity.
Qed.

(** C5. For every [addr], [mask] and [val], [max14906_reg_update] first
    reads the register with [max14906_reg_read]; when the read fails its
    error is returned and nothing more happens, so no write transfer is
    issued; when it succeeds with value [v], the update is the write of
    [(v & ~mask) | (mask & val)] to the same address with
    [max14906_reg_write]. *)
Theorem reg_update_reads_then_writes_merged_value
  (s s1 : state W) (addr mask val ret : Z) (out : option Z) :
  buff_ok (dev s) ->
  max14906_reg_read addr s = (ret, out, s1) ->
  (ret <> 0 -> max14906_reg_update addr mask val s = (ret, s1))
  /\ (ret = 0 ->
      exists v, out = Some v
        /\ max14906_reg_update addr mask val s
           = max14906_reg_write addr
               (Z.lor (Z.land v (Z.lnot mask)) (Z.land mask val)) s1).
Proof.
  intros Hok Hread.
  destruct (reg_read_value _ _ _ _ _ Hok Hread) as [_ Hval].
  split; intros Hret.
  - eapply reg_update_read_fails; eassumption.
  - destruct (Hval Hret) as (v & -> & Hv). subst ret.
    exists v. split; [reflexivity|].
    apply reg_update_read_succeeds; [assumption|lia].
Qed.

(** *** What register access leaves on the bus *)

Lemma decode_check_all (c a r : Z) :
  0 <= c < 4 -> 0 <= a < 32 -> 0 <= r < 2 -> decode_check c a r = true.
Proof.
  intros Hc Ha Hr.
  pose proof (forallb_Z_below
    (fun c => forallb (fun a => forallb (decode_check c a) (map Z.of_nat (seq 0 2)))
                      (map Z.of_nat (seq 0 32))) 4) as Hchk.
  assert (Hall : forallb
    (fun c => forallb (fun a => forallb (decode_check c a) (map Z.of_nat (seq 0 2)))
                      (map Z.of_nat (seq 0 32))) (map Z.of_nat (seq 0 4)) = true)
    by (vm_compute; reflexivity).
  specialize (Hchk Hall c Hc). cbv beta in Hchk.
  pose proof (forallb_Z_below _ 32 Hchk a Ha) as Hchk2. cbv beta in Hchk2.
  exact (forallb_Z_below _ 2 Hchk2 r Hr).
Qed.

Lemma command_byte_decode (chip addr rw : Z) :
  no_os_field_get MAX14906_ADDR_MASK (command_byte chip addr rw) = addr mod 32
  /\ Z.land (command_byte chip addr rw) MAX14906_RW_MASK = rw mod 2.
Proof.
  rewrite command_byte_layout.
  pose proof (decode_check_all (chip mod 4) (addr mod 32) (rw mod 2)) as Hd.
  unfold decode_check in Hd.
  rewrite andb_true_iff, !Z.eqb_eq in Hd.
  apply Hd; apply Z.mod_pos_bound; lia.
Qed.

Lemma read_frame_explicit (d : max14906_desc) (addr x y z : Z) :
  buff d = [x; y; z] ->
  let b0 := command_byte (chip_address d) addr 0 in
  read_frame d addr
  = if crc_en d
    then ([b0; 0; max14906_crc_encode [b0; 0]],
          {| tx_buff := [b0; 0; max14906_crc_encode [b0; 0]]; rx_buff := true;
             bytes_number := 3; cs_change := 1 |})
    else ([b0; 0; z],
          {| tx_buff := [b0; 0]; rx_buff := true;
             bytes_number := 2; cs_change := 1 |}).
Proof.
  intros Hb b0. unfold read_frame. rewrite Hb. fold b0.
  destruct (crc_en d).
  - cbn [list_insert insert].
    change (memset0 (Z.to_nat (MAX14906_FRAME_SIZE + 1)) [x; y; z]) with [0; 0; 0].
    cbn [list_insert insert].
    rewrite (crc_encode_divide b0 0 [0]), <- (crc_encode_divide b0 0 []).
    reflexivity.
  - reflexivity.
Qed.

Lemma access_of_frame (chip addr rw b1 : Z) (rest : list Z) (rx : bool) (n cs : Z) :
  access_of (EvSpiTransfer {| tx_buff := command_byte chip addr rw :: b1 :: rest;
                              rx_buff := rx; bytes_number := n; cs_change := cs |})
  = if nonzero (rw mod 2) then Some (RegWrite (addr mod 32) b1)
    else Some (RegRead (addr mod 32)).
Proof.
  destruct (command_byte_decode chip addr rw) as [Ha Hrw].
  unfold access_of. cbn [tx_buff lookup_total list_lookup_total].
  rewrite Ha, Hrw. reflexivity.
Qed.

Lemma read_frame_shape (d : max14906_desc) (addr : Z) :
  buff_ok d ->
  length (fst (read_frame d addr)) = 3%nat
  /\ access_of (EvSpiTransfer (snd (read_frame d addr))) = Some (RegRead (addr mod 32)).
Proof.
  unfold buff_ok. intros Hok.
  destruct (buff d) as [|x [|y [|z [|? ?]]]] eqn:Hb; try discriminate Hok.
  rewrite (read_frame_explicit d addr x y z Hb).
  destruct (crc_en d); cbn [fst snd]; rewrite access_of_frame;
    split; reflexivity.
Qed.

Lemma write_frame_shape (d : max14906_desc) (addr val : Z) :
  buff_ok d ->
  length (fst (write_frame d addr val)) = 3%nat
  /\ access_of (EvSpiTransfer (snd (write_frame d addr val)))
     = Some (RegWrite (addr mod 32) (to_u8 val)).
Proof.
  unfold buff_ok. intros Hok.
  destruct (buff d) as [|x [|y [|z [|? ?]]]] eqn:Hb; try discriminate Hok.
  rewrite (write_frame_explicit d addr val x y z Hb).
  pose proof (command_byte_layout (chip_address d) addr 1) as Hl.
  change (1 mod 2) with 1 in Hl. rewrite <- Hl.
  destruct (crc_en d); cbn [fst snd]; rewrite access_of_frame;
    split; reflexivity.
Qed.

Lemma store_rx_length (n : nat) (rx b : list Z) :
  length (store_rx n rx b) = length b.
Proof.
  revert rx b. induction n as [|n IH]; intros [|r rx] [|x b];
    cbn [store_rx length]; try reflexivity.
  rewrite IH. reflexivity.
Qed.

(** One register read: one transfer, decoded as a read of [addr]. *)
Lemma reg_read_effect (s s' : state W) (addr ret : Z) (out : option Z) :
  buff_ok (dev s) ->
  max14906_reg_read addr s = (ret, out, s') ->
  exists xfer,
    trace s' = trace s ++ [EvSpiTransfer xfer]
    /\ access_of (EvSpiTransfer xfer) = Some (RegRead (addr mod 32))
    /\ same_config (dev s) (dev s') /\ buff_ok (dev s').
Proof.
  intros Hok. rewrite reg_read_run.
  destruct (read_frame_shape (dev s) addr Hok) as [Hlen Hacc].
  destruct (read_frame (dev s) addr) as [b xfer]. cbn [fst snd] in *.
  destruct (no_os_spi_transfer xfer (world s)) as [[r rx] w'].
  cbv zeta.
  assert (Hs : forall res,
    (res, {| dev := with_buff (dev s) (store_rx (Z.to_nat (bytes_number xfer)) rx b);
             world := w'; trace := trace s ++ [EvSpiTransfer xfer] |})
    = (ret, out, s') ->
    exists xfer0,
      trace s' = trace s ++ [EvSpiTransfer xfer0]
      /\ access_of (EvSpiTransfer xfer0) = Some (RegRead (addr mod 32))
      /\ same_config (dev s) (dev s') /\ buff_ok (dev s')).
  { intros res [= _ <-]. exists xfer. cbn [trace dev].
    split; [reflexivity|]. split; [exact Hacc|].
    split; [repeat split|].
    unfold buff_ok, with_buff. cbn [buff]. rewrite store_rx_length. exact Hlen. }
  destruct (nonzero r); [apply Hs|].
  destruct (crc_en (dev s) && _); apply Hs.
Qed.

(** One register write: one transfer, decoded as a write of the byte
    [val] to [addr]. *)
Lemma reg_write_effect (s s' : state W) (addr val ret : Z) :
  buff_ok (dev s) ->
  max14906_reg_write addr val s = (ret, s') ->
  exists xfer,
    trace s' = trace s ++ [EvSpiTransfer xfer]
    /\ access_of (EvSpiTransfer xfer) = Some (RegWrite (addr mod 32) (to_u8 val))
    /\ same_config (dev s) (dev s') /\ buff_ok (dev s').
Proof.
  intros Hok. rewrite reg_write_run.
  destruct (write_frame_shape (dev s) addr val Hok) as [Hlen Hacc].
  destruct (write_frame (dev s) addr val) as [b xfer]. cbn [fst snd] in *.
  destruct (no_os_spi_transfer xfer (world s)) as [[r rx] w'].
  intros [= _ <-]. exists xfer. cbn [trace dev].
  split; [reflexivity|]. split; [exact Hacc|].
  split; [repeat split|exact Hlen].
Qed.

Lemma same_config_trans (d1 d2 d3 : max14906_desc) :
  same_config d1 d2 -> same_config d2 d3 -> same_config d1 d3.
Proof. unfold same_config. intros (?&?&?) (?&?&?). repeat split; congruence. Qed.

(** A register update is a read, and after a read that succeeded a
    write of the merged value; nothing else reaches the bus. *)
Lemma reg_update_effect (s s' : state W) (addr mask val ret : Z) :
  buff_ok (dev s) ->
  max14906_reg_update addr mask val s = (ret, s') ->
  exists new,
    trace s' = trace s ++ new
    /\ same_config (dev s) (dev s') /\ buff_ok (dev s')
    /\ ((ret <> 0 /\ accesses new = [RegRead (addr mod 32)])
        \/ exists v, 0 <= v < 256
             /\ accesses new = [RegRead (addr mod 32);
                                RegWrite (addr mod 32) (reg_merge v mask val)]).
Proof.
  intros Hok Hupd.
  destruct (max14906_reg_read addr s) as [[r out] s1] eqn:Hread.
  destruct (reg_read_effect _ _ _ _ _ Hok Hread) as (x1 & Ht1 & Ha1 & Hc1 & Hok1).
  destruct (Z.eq_dec r 0) as [Hr|Hr].
  - destruct (reg_read_value _ _ _ _ _ Hok Hread) as [_ Hv].
    destruct (Hv Hr) as (v & -> & Hrange). subst r.
    rewrite (reg_update_read_succeeds _ _ _ _ _ _ Hread) in Hupd by lia.
    destruct (reg_write_effect _ _ _ _ _ Hok1 Hupd) as (x2 & Ht2 & Ha2 & Hc2 & Hok2).
    exists [EvSpiTransfer x1; EvSpiTransfer x2].
    split; [rewrite Ht2, Ht1, <- app_assoc; reflexivity|].
    split; [eapply same_config_trans; eassumption|].
    split; [assumption|].
    right. exists v. split; [assumption|].
    unfold accesses. cbn [omap list_omap]. rewrite Ha1, Ha2. reflexivity.
  - rewrite (reg_update_read_fails _ _ _ _ _ _ _ Hread Hr) in Hupd.
    injection Hupd as <- <-.
    exists [EvSpiTransfer x1].
    split; [assumption|]. split; [assumption|]. split; [assumption|].
    left. split; [assumption|].
    unfold accesses. cbn [omap list_omap]. rewrite Ha1. reflexivity.
Qed.

End RegisterAccess.

(** *** Channel operations *)

Lemma forallb_Z_below2 (P : Z -> Z -> bool) (n m : nat) :
  forallb (fun x => forallb (P x) (map Z.of_nat (seq 0 m))) (map Z.of_nat (seq 0 n)) = true ->
  forall x y, 0 <= x < Z.of_nat n -> 0 <= y < Z.of_nat m -> P x y = true.
Proof.
  intros Hall x y Hx Hy.
  pose proof (forallb_Z_below _ n Hall x Hx) as Hrow. cbv beta in Hrow.
  exact (forallb_Z_below _ m Hrow y Hy).
Qed.

Lemma do_mode_field_written (m : max14906_do_mode) (ch v : Z) :
  0 <= ch < 4 -> 0 <= v < 256 ->
  no_os_field_get (MAX14906_DO_MASK ch)
    (reg_merge v (MAX14906_DO_MASK ch)
       (no_os_field_prep (MAX14906_DO_MASK ch) (do_mode_value m)))
  = do_mode_value m.
Proof.
  intros Hch Hv. apply Z.eqb_eq.
  apply (forallb_Z_below2
           (fun ch v => field_after_update (MAX14906_DO_MASK ch) (do_mode_value m) v)
           4 256); [|assumption|assumption].
  destruct m; vm_compute; reflexivity.
Qed.

Lemma direction_field_written (dir ch v : Z) :
  0 <= dir < 2 -> 0 <= ch < 4 -> 0 <= v < 256 ->
  no_os_field_get (MAX14906_CH_DIR_MASK ch)
    (reg_merge v (MAX14906_CH_DIR_MASK ch)
       (no_os_field_prep (MAX14906_CH_DIR_MASK ch) dir))
  = dir.
Proof.
  intros Hd Hch Hv. apply Z.eqb_eq.
  apply (forallb_Z_below2
           (fun ch v => field_after_update (MAX14906_CH_DIR_MASK ch) dir v)
           4 256); [|assumption|assumption].
  assert (dir = 0 \/ dir = 1) as [-> | ->] by lia; vm_compute; reflexivity.
Qed.

Section ChannelOperations.

Context {W : Type} `{Platform W}.

Lemma ch_get_rejects (s : state W) (ch : Z) :
  MAX14906_CHANNELS <= ch -> max14906_ch_get ch s = (- EINVAL, None, s).
Proof.
  intros Hch. unfold max14906_ch_get.
  destruct (ch >=? MAX14906_CHANNELS) eqn:Hc; [reflexivity|lia].
Qed.

Lemma ch_set_rejects (s : state W) (ch val : Z) :
  MAX14906_CHANNELS <= ch -> max14906_ch_set ch val s = (- EINVAL, s).
Proof.
  intros Hch. unfold max14906_ch_set.
  destruct (ch >=? MAX14906_CHANNELS) eqn:Hc; [reflexivity|lia].
Qed.

(** Two register updates in a row, the second only after the first
    succeeded: what reaches the bus is a prefix of the four accesses, and
    all four when the result is 0. *)
Lemma two_updates_effect
  (s s' : state W) (a1 m1 v1 a2 m2 v2 ret : Z) :
  buff_ok (dev s) ->
  mbind (max14906_reg_update a1 m1 v1)
        (fun r => if nonzero r then mret r else max14906_reg_update a2 m2 v2) s
  = (ret, s') ->
  exists new x1 x2,
    trace s' = trace s ++ new
    /\ same_config (dev s) (dev s') /\ buff_ok (dev s')
    /\ 0 <= x1 < 256 /\ 0 <= x2 < 256
    /\ accesses new `prefix_of`
         [RegRead (a1 mod 32); RegWrite (a1 mod 32) (reg_merge x1 m1 v1);
          RegRead (a2 mod 32); RegWrite (a2 mod 32) (reg_merge x2 m2 v2)]
    /\ (ret = 0 ->
        accesses new
        = [RegRead (a1 mod 32); RegWrite (a1 mod 32) (reg_merge x1 m1 v1);
           RegRead (a2 mod 32); RegWrite (a2 mod 32) (reg_merge x2 m2 v2)]).
Proof.
  intros Hok. unfold mbind.
  destruct (max14906_reg_update a1 m1 v1 s) as [r1 s1] eqn:H1.
  destruct (reg_update_effect _ _ _ _ _ _ Hok H1) as (n1 & Ht1 & Hc1 & Hok1 & Hacc1).
  unfold nonzero. destruct (r1 =? 0) eqn:Hr1; cbn [negb].
  - apply Z.eqb_eq in Hr1. intros H2.
    destruct (reg_update_effect _ _ _ _ _ _ Hok1 H2) as (n2 & Ht2 & Hc2 & Hok2 & Hacc2).
    destruct Hacc1 as [[Hne _]|(x1 & Hx1 & Ha1)]; [contradiction|].
    assert (Happ : accesses (n1 ++ n2) = accesses n1 ++ accesses n2)
      by apply omap_app.
    destruct Hacc2 as [[Hne Ha2]|(x2 & Hx2 & Ha2)].
    + exists (n1 ++ n2), x1, 0.
      split; [rewrite Ht2, Ht1, <- app_assoc; reflexivity|].
      split; [eapply same_config_trans; eassumption|].
      split; [assumption|]. split; [assumption|]. split; [lia|].
      rewrite Happ, Ha1, Ha2. split; [|contradiction].
      exists [RegWrite (a2 mod 32) (reg_merge 0 m2 v2)]. reflexivity.
    + exists (n1 ++ n2), x1, x2.
      split; [rewrite Ht2, Ht1, <- app_assoc; reflexivity|].
      split; [eapply same_config_trans; eassumption|].
      split; [assumption|]. split; [assumption|]. split; [assumption|].
      rewrite Happ, Ha1, Ha2. split; [exists []|intros _]; reflexivity.
  - apply Z.eqb_neq in Hr1. intros [= <- <-].
    destruct Hacc1 as [[_ Ha1]|(x1 & Hx1 & Ha1)].
    + exists n1, 0, 0.
      split; [assumption|]. split; [assumption|]. split; [assumption|].
      split; [lia|]. split; [lia|]. rewrite Ha1.
      split; [|contradiction]. eexists; reflexivity.
    + exists n1, x1, 0.
      split; [assumption|]. split; [assumption|]. split; [assumption|].
      split; [assumption|]. split; [lia|]. rewrite Ha1.
      split; [|contradiction]. eexists; reflexivity.
Qed.

(** C6. In every call [max14906_ch_func ch HIGH_Z] the output-mode field
    (push-pull, in CONFIG_DO) is written before the direction field
    (value 1, in SETOUT) and never after it; for the input function the
    high-side mode write likewise comes before the direction write; in
    every branch the last step is the read-modify-write of the direction
    field in SETOUT, which for the output function is the whole call;
    and when the earlier register update fails its error is returned at
    once, with no later register access. *)
Theorem ch_func_writes_mode_before_direction
  (s s' : state W) (ch ret : Z) (function : max14906_function) :
  let mode := match function with
              | MAX14906_HIGH_Z => MAX14906_PUSH_PULL
              | _ => MAX14906_HIGH_SIDE
              end in
  let dir := match function with
             | MAX14906_HIGH_Z => 1
             | _ => function_value function
             end in
  buff_ok (dev s) ->
  max14906_ch_func ch function s = (ret, s') ->
  (exists new wmode wdir,
     let mode_update := [RegRead MAX14906_CONFIG_DO_REG;
                         RegWrite MAX14906_CONFIG_DO_REG wmode] in
     let dir_update := [RegRead MAX14906_SETOUT_REG;
                        RegWrite MAX14906_SETOUT_REG wdir] in
     let plan := match function with
                 | MAX14906_OUT => dir_update
                 | _ => mode_update ++ dir_update
                 end in
     trace s' = trace s ++ new
     /\ accesses new `prefix_of` plan
     /\ (ret = 0 -> accesses new = plan)
     /\ (0 <= ch < 4 ->
         no_os_field_get (MAX14906_CH_DIR_MASK ch) wdir = dir
         /\ (function <> MAX14906_OUT ->
             no_os_field_get (MAX14906_DO_MASK ch) wmode = do_mode_value mode)))
  /\ (function <> MAX14906_OUT ->
      forall r1 s1,
        max14906_reg_update MAX14906_CONFIG_DO_REG (MAX14906_DO_MASK ch)
          (no_os_field_prep (MAX14906_DO_MASK ch) (do_mode_value mode)) s = (r1, s1) ->
        (r1 <> 0 -> ret = r1 /\ s' = s1)
        /\ (r1 = 0 ->
            max14906_reg_update MAX14906_SETOUT_REG (MAX14906_CH_DIR_MASK ch)
              (no_os_field_prep (MAX14906_CH_DIR_MASK ch) dir) s1 = (ret, s')))
  /\ (function = MAX14906_OUT ->
      max14906_reg_update MAX14906_SETOUT_REG (MAX14906_CH_DIR_MASK ch)
        (no_os_field_prep (MAX14906_CH_DIR_MASK ch) dir) s = (ret, s')).
Proof.
  cbv zeta. intros Hok Hrun.
  destruct function; unfold max14906_ch_func in Hrun;
    cbn [function_value do_mode_value] in *.
  - (* MAX14906_OUT *)
    unfold mbind, mret in Hrun. cbn [nonzero Z.eqb negb] in Hrun.
    destruct (reg_update_effect _ _ _ _ _ _ Hok Hrun) as (new & Ht & _ & _ & Hacc).
    change (MAX14906_SETOUT_REG mod 32) with MAX14906_SETOUT_REG in Hacc.
    split; [|split; [intros Hne; contradiction|intros _; exact Hrun]].
    destruct Hacc as [[Hret Ha]|(v & Hv & Ha)].
    + exists new, 0, (reg_merge 0 (MAX14906_CH_DIR_MASK ch)
                        (no_os_field_prep (MAX14906_CH_DIR_MASK ch) 0)).
      split; [assumption|]. rewrite Ha.
      split; [eexists; reflexivity|]. split; [contradiction|].
      intros Hch. split; [|intros Hne; contradiction].
      apply direction_field_written; lia.
    + exists new, 0, (reg_merge v (MAX14906_CH_DIR_MASK ch)
                        (no_os_field_prep (MAX14906_CH_DIR_MASK ch) 0)).
      split; [assumption|]. rewrite Ha.
      split; [exists []; reflexivity|]. split; [reflexivity|].
      intros Hch. split; [|intros Hne; contradiction].
      apply direction_field_written; lia.
  - (* MAX14906_IN *)
    split.
    + destruct (two_updates_effect _ _ _ _ _ _ _ _ _ Hok Hrun)
        as (new & x1 & x2 & Ht & _ & _ & Hx1 & Hx2 & Hpre & Hall).
      change (MAX14906_SETOUT_REG mod 32) with MAX14906_SETOUT_REG in *.
      change (MAX14906_CONFIG_DO_REG mod 32) with MAX14906_CONFIG_DO_REG in *.
      eexists new, _, _. cbn [app]. split; [assumption|].
      split; [exact Hpre|]. split; [exact Hall|].
      intros Hch. split; [|intros _].
      * apply direction_field_written; lia.
      * apply (do_mode_field_written MAX14906_HIGH_SIDE); assumption.
    + split; [|intros Hf; discriminate Hf].
      intros _ r1 s1 H1. unfold mbind in Hrun. rewrite H1 in Hrun.
      unfold nonzero in Hrun. split; intros Hr1.
      * apply Z.eqb_neq in Hr1. rewrite Hr1 in Hrun.
        injection Hrun as <- <-. split; reflexivity.
      * subst r1. exact Hrun.
  - (* MAX14906_HIGH_Z *)
    split.
    + destruct (two_updates_effect _ _ _ _ _ _ _ _ _ Hok Hrun)
        as (new & x1 & x2 & Ht & _ & _ & Hx1 & Hx2 & Hpre & Hall).
      change (MAX14906_SETOUT_REG mod 32) with MAX14906_SETOUT_REG in *.
      change (MAX14906_CONFIG_DO_REG mod 32) with MAX14906_CONFIG_DO_REG in *.
      eexists new, _, _. cbn [app]. split; [assumption|].
      split; [exact Hpre|]. split; [exact Hall|].
      intros Hch. split; [|intros _].
      * apply direction_field_written; lia.
      * apply (do_mode_field_written MAX14906_PUSH_PULL); assumption.
    + split; [|intros Hf; discriminate Hf].
      intros _ r1 s1 H1. unfold mbind in Hrun. rewrite H1 in Hrun.
      unfold nonzero in Hrun. split; intros Hr1.
      * apply Z.eqb_neq in Hr1. rewrite Hr1 in Hrun.
        injection Hrun as <- <-. split; reflexivity.
      * subst r1. exact Hrun.
Qed.

(** C9. [max14906_remove] called with a null descriptor returns
    [-ENODEV] and does nothing else: the descriptor, the platform and
    the trace of platform calls are as they were, so no channel was
    reconfigured, no transfer issued, no GPIO touched and nothing
    freed. *)
Theorem remove_null_is_inert (s : state W) :
  max14906_remove false s = (- ENODEV, s).
Proof. reflexivity. Qed.

End ChannelOperations.

(** *** The register-file double *)

Module StubFacts.

Import Stub.

Section WithOutcomes.

Variable o : outcomes.

Local Opaque max14906_crc_encode max14906_crc_decode command_byte.

Lemma to_u8_idem (x : Z) : to_u8 (to_u8 x) = to_u8 x.
Proof. apply to_u8_small, to_u8_range. Qed.

Lemma device_transfer_read (chip addr y : Z) (rest : list Z) (n cs : Z) (regs : regfile) :
  device_transfer {| tx_buff := command_byte chip addr 0 :: y :: rest; rx_buff := true;
                     bytes_number := n; cs_change := cs |} regs
  = (0, [0; to_u8 (regs (addr mod 32));
         max14906_crc_decode [0; to_u8 (regs (addr mod 32))]], regs).
Proof.
  destruct (command_byte_decode chip addr 0) as [Ha Hrw].
  unfold device_transfer. cbn [tx_buff lookup_total list_lookup_total].
  rewrite Ha, Hrw. reflexivity.
Qed.

Lemma device_transfer_write (chip addr y : Z) (rest : list Z) (n cs : Z) (regs : regfile) :
  device_transfer {| tx_buff := command_byte chip addr 1 :: y :: rest; rx_buff := false;
                     bytes_number := n; cs_change := cs |} regs
  = (0, [], reg_set regs (addr mod 32) y).
Proof.
  destruct (command_byte_decode chip addr 1) as [Ha Hrw].
  unfold device_transfer. cbn [tx_buff lookup_total list_lookup_total].
  rewrite Ha, Hrw. reflexivity.
Qed.

(** On the double a register read succeeds, leaves the registers as they
    are and yields the addressed register. *)
Lemma stub_reg_read (s : state regfile) (addr : Z) :
  buff_ok (dev s) ->
  exists s',
    max14906_reg_read (H := platform o) addr s
    = (0, Some (to_u8 (world s (addr mod 32))), s')
    /\ world s' = world s.
Proof.
  intros Hok. rewrite reg_read_run. unfold buff_ok in Hok.
  destruct (buff (dev s)) as [|x [|y [|z [|? ?]]]] eqn:Hb; try discriminate Hok.
  rewrite (read_frame_explicit (dev s) addr x y z Hb).
  set (r := to_u8 (world s (addr mod 32))).
  assert (Hr : to_u8 r = r) by apply to_u8_idem.
  destruct (crc_en (dev s)) eqn:Hcrc.
  - change (@no_os_spi_transfer regfile (platform o)) with device_transfer.
    rewrite device_transfer_read. fold r.
    cbn [bytes_number]. change (Z.to_nat 3) with 3%nat.
    cbn [store_rx nonzero Z.eqb negb lookup_total list_lookup_total andb].
    rewrite !Hr.
    rewrite (crc_decode_divide (to_u8 0) r [_]), <- (crc_decode_divide (to_u8 0) r []).
    change (to_u8 0) with 0.
    rewrite (to_u8_small (max14906_crc_decode [0; r]))
      by (pose proof (crc_decode_range 0 r []); lia).
    rewrite Z.eqb_refl. cbn [negb].
    eexists; split; reflexivity.
  - change (@no_os_spi_transfer regfile (platform o)) with device_transfer.
    rewrite device_transfer_read. fold r.
    cbn [bytes_number]. change (Z.to_nat 2) with 2%nat.
    cbn [store_rx nonzero Z.eqb negb lookup_total list_lookup_total andb].
    rewrite !Hr.
    eexists; split; reflexivity.
Qed.

(** On the double a register write succeeds and stores the byte. *)
Lemma stub_reg_write (s : state regfile) (addr val : Z) :
  buff_ok (dev s) ->
  exists s',
    max14906_reg_write (H := platform o) addr val s = (0, s')
    /\ world s' = reg_set (world s) (addr mod 32) (to_u8 val).
Proof.
  intros Hok. rewrite reg_write_run. unfold buff_ok in Hok.
  destruct (buff (dev s)) as [|x [|y [|z [|? ?]]]] eqn:Hb; try discriminate Hok.
  rewrite (write_frame_explicit (dev s) addr val x y z Hb).
  pose proof (command_byte_layout (chip_address (dev s)) addr 1) as Hl.
  change (1 mod 2) with 1 in Hl. rewrite <- Hl.
  change (@no_os_spi_transfer regfile (platform o)) with device_transfer.
  destruct (crc_en (dev s)); rewrite device_transfer_write;
    eexists; split; reflexivity.
Qed.

End WithOutcomes.

End StubFacts.

(** *** Lifecycle *)

Section Lifecycle.

Context {W : Type} `{Platform W}.

Lemma bus_step_refl (s : state W) : buff_ok (dev s) -> bus_step s s.
Proof.
  intros Hok. exists []. rewrite app_nil_r.
  repeat split; assumption.
Qed.

Lemma bus_step_trans (s1 s2 s3 : state W) :
  bus_step s1 s2 -> bus_step s2 s3 -> bus_step s1 s3.
Proof.
  intros (n1 & Ht1 & Hf1 & Hc1 & Hok1) (n2 & Ht2 & Hf2 & Hc2 & Hok2).
  exists (n1 ++ n2).
  split; [rewrite Ht2, Ht1, <- app_assoc; reflexivity|].
  split; [rewrite forallb_app, Hf1, Hf2; reflexivity|].
  split; [eapply same_config_trans; eassumption|assumption].
Qed.

Lemma bus_step_ok (s s' : state W) : bus_step s s' -> buff_ok (dev s').
Proof. intros (? & _ & _ & _ & Hok). exact Hok. Qed.

Lemma bus_only_ret {A : Type} (a : A) : bus_only (W := W) (mret a).
Proof. intros s a' s' Hok [= _ <-]. apply bus_step_refl, Hok. Qed.

Lemma bus_only_bind {A B : Type} (m : M W A) (k : A -> M W B) :
  bus_only m -> (forall a, bus_only (k a)) -> bus_only (mbind m k).
Proof.
  intros Hm Hk s b s' Hok. unfold mbind.
  destruct (m s) as [a s1] eqn:H1. intros H2.
  pose proof (Hm _ _ _ Hok H1) as B1.
  eapply bus_step_trans; [exact B1|].
  eapply Hk; [eapply bus_step_ok; exact B1|exact H2].
Qed.

Lemma bus_only_reg_read (addr : Z) : bus_only (max14906_reg_read addr).
Proof.
  intros s [ret out] s' Hok Hrun.
  destruct (reg_read_effect _ _ _ _ _ Hok Hrun) as (x & Ht & _ & Hc & Hok').
  exists [EvSpiTransfer x]. repeat split; solve [assumption | apply Hc].
Qed.

Lemma bus_only_reg_write (addr val : Z) : bus_only (max14906_reg_write addr val).
Proof.
  intros s ret s' Hok Hrun.
  destruct (reg_write_effect _ _ _ _ _ Hok Hrun) as (x & Ht & _ & Hc & Hok').
  exists [EvSpiTransfer x]. repeat split; solve [assumption | apply Hc].
Qed.

Lemma bus_only_reg_update (addr mask val : Z) :
  bus_only (max14906_reg_update addr mask val).
Proof.
  unfold max14906_reg_update.
  apply bus_only_bind; [apply bus_only_reg_read|].
  intros [ret out]. destruct (nonzero ret);
    [apply bus_only_ret|apply bus_only_reg_write].
Qed.

Lemma bus_only_ch_func (ch : Z) (function : max14906_function) :
  bus_only (max14906_ch_func ch function).
Proof.
  destruct function; unfold max14906_ch_func;
    (apply bus_only_bind;
     [first [apply bus_only_reg_update | apply bus_only_ret]|]);
    intros ret; destruct (nonzero ret);
    first [apply bus_only_ret | apply bus_only_reg_update].
Qed.

Lemma bus_only_climit_set (ch : Z) (climit : max14906_climit) :
  bus_only (max14906_climit_set ch climit).
Proof. apply bus_only_reg_update. Qed.

Lemma bus_only_init_channel (i : Z) : bus_only (init_channel i).
Proof.
  unfold init_channel. apply bus_only_bind; [apply bus_only_ch_func|].
  intros ret. destruct (nonzero ret);
    [apply bus_only_ret|apply bus_only_climit_set].
Qed.

Lemma bus_only_for_ret (body : Z -> M W Z) (n : nat) :
  (forall i, bus_only (body i)) -> forall i, bus_only (for_ret n i body).
Proof.
  intros Hbody. induction n as [|n IH]; intros i; cbn [for_ret].
  - apply bus_only_ret.
  - apply bus_only_bind; [apply Hbody|].
    intros ret. destruct (nonzero ret); [apply bus_only_ret|apply IH].
Qed.

(** The [gpio_err] exit: three platform calls, nothing stored through
    the caller's pointer. *)
Lemma init_gpio_err_effect (s s' : state W) (r ret : Z) (out : option max14906_desc) :
  init_gpio_err r s = (ret, out, s') ->
  ret = r /\ out = None
  /\ dev s' = dev s
  /\ trace s' = trace s ++ [EvGpioRemove (enable (dev s)); EvSpiRemove; EvFree].
Proof.
  unfold init_gpio_err, init_err, mbind, get_dev, call, mret.
  cbn [dev world trace].
  destruct (no_os_gpio_remove (enable (dev s)) (world s)) as [r1 w1].
  cbn [dev world trace].
  destruct (no_os_spi_remove w1) as [r2 w2].
  cbn [dev world trace].
  intros [= <- <- <-]. cbn [dev trace].
  rewrite <- !app_assoc. repeat split.
Qed.

Lemma ends_well_fail (s s1 : state W) (r : Z) :
  bus_step s s1 -> nonzero r = true -> ends_well s (init_gpio_err r s1).
Proof.
  intros B1 Hr.
  destruct (init_gpio_err r s1) as [[ret out] s'] eqn:Hrun.
  destruct (init_gpio_err_effect _ _ _ _ _ Hrun) as (-> & -> & Hd & Ht).
  right. unfold nonzero in Hr. apply negb_true_iff, Z.eqb_neq in Hr.
  split; [assumption|]. split; [reflexivity|].
  exists s1. split; [assumption|]. split; [|assumption].
  destruct B1 as (_ & _ & _ & (He & _) & _). rewrite <- He. exact Ht.
Qed.

Lemma init_config_ends_well (s : state W) :
  buff_ok (dev s) -> ends_well s (init_config s).
Proof.
  intros Hok. unfold init_config, mbind.
  destruct (max14906_reg_read MAX14906_OVR_LD_REG s) as [[r1 o1] s1] eqn:H1.
  pose proof (bus_only_reg_read _ _ _ _ Hok H1) as B1.
  destruct (nonzero r1) eqn:N1; [apply ends_well_fail; assumption|].
  destruct (max14906_reg_read MAX14906_OPN_WIR_FLT_REG s1) as [[r2 o2] s2] eqn:H2.
  pose proof (bus_step_trans _ _ _ B1
                (bus_only_reg_read _ _ _ _ (bus_step_ok _ _ B1) H2)) as B2.
  destruct (nonzero r2) eqn:N2; [apply ends_well_fail; assumption|].
  destruct (max14906_reg_read MAX14906_SHD_VDD_FLT_REG s2) as [[r3 o3] s3] eqn:H3.
  pose proof (bus_step_trans _ _ _ B2
                (bus_only_reg_read _ _ _ _ (bus_step_ok _ _ B2) H3)) as B3.
  destruct (nonzero r3) eqn:N3; [apply ends_well_fail; assumption|].
  destruct (max14906_reg_read MAX14906_GLOBAL_FLT_REG s3) as [[r4 o4] s4] eqn:H4.
  pose proof (bus_step_trans _ _ _ B3
                (bus_only_reg_read _ _ _ _ (bus_step_ok _ _ B3) H4)) as B4.
  destruct (nonzero r4) eqn:N4; [apply ends_well_fail; assumption|].
  destruct (for_ret (Z.to_nat MAX14906_CHANNELS) 0 init_channel s4) as [r5 s5] eqn:H5.
  pose proof (bus_step_trans _ _ _ B4
                (bus_only_for_ret _ _ bus_only_init_channel _ _ _ _
                   (bus_step_ok _ _ B4) H5)) as B5.
  destruct (nonzero r5) eqn:N5; [apply ends_well_fail; assumption|].
  left. unfold get_dev, mret. cbn [dev].
  unfold nonzero in N5. apply negb_false_iff, Z.eqb_eq in N5. subst r5.
  split; [reflexivity|]. split; [reflexivity|exact B5].
Qed.

Lemma ends_well_unwinds (s s' : state W) (ret : Z) (out : option max14906_desc) :
  ends_well s (ret, out, s') -> ret <> 0 ->
  out = None
  /\ exists pre,
       trace s' = pre ++ [EvGpioRemove (enable (dev s')); EvSpiRemove; EvFree].
Proof.
  intros [(Hz & _)|(_ & Hout & s1 & B1 & Ht & Hd)] Hret; [contradiction|].
  split; [assumption|]. exists (trace s1).
  destruct B1 as (_ & _ & _ & (He & _) & _).
  rewrite Hd, He. exact Ht.
Qed.

Lemma transfer_is_no_gpio_set (l : list event) :
  forallb is_transfer l = true -> forallb (fun ev => negb (is_gpio_set ev)) l = true.
Proof.
  rewrite !forallb_forall. intros Hl ev Hin.
  specialize (Hl ev Hin). destruct ev; try discriminate Hl; reflexivity.
Qed.

Lemma ends_well_no_gpio_set (s s' : state W) (ret : Z) (out : option max14906_desc) :
  ends_well s (ret, out, s') ->
  exists rest,
    trace s' = trace s ++ rest
    /\ forallb (fun ev => negb (is_gpio_set ev)) rest = true.
Proof.
  intros [(_ & _ & new & Ht & Hf & _)|(_ & _ & s1 & (new & Ht1 & Hf & _) & Ht & _)].
  - exists new. split; [assumption|]. apply transfer_is_no_gpio_set, Hf.
  - exists (new ++ [EvGpioRemove (enable (dev s)); EvSpiRemove; EvFree]).
    split; [rewrite Ht, Ht1, <- app_assoc; reflexivity|].
    rewrite forallb_app, (transfer_is_no_gpio_set _ Hf). reflexivity.
Qed.

Lemma init_error_effect
  (param : max14906_init_param) (w : W) (tr : list event)
  (ret : Z) (out : option max14906_desc) (s' : state W) :
  max14906_init param w tr = (ret, out, s') ->
  ret <> 0 ->
  out = None
  /\ (forall w1 w2,
        no_os_calloc w = (true, w1) -> no_os_spi_init w1 = (0, w2) ->
        exists pre,
          trace s' = pre ++ [EvGpioRemove (enable (dev s')); EvSpiRemove; EvFree]).
Proof.
  intros Hrun Hret. unfold max14906_init in Hrun.
  destruct (no_os_calloc w) as [ok w1] eqn:Hc.
  destruct ok; cbn [negb] in Hrun.
  2: { injection Hrun as <- <- <-. split; [reflexivity|]. intros ? ? [=]. }
  unfold init_body, mbind, call, set_crc_en, set_enable, get_dev in Hrun.
  cbn [dev world trace] in Hrun.
  destruct (no_os_spi_init w1) as [r1 w2] eqn:Hs.
  cbn [dev world trace] in Hrun.
  destruct (nonzero r1) eqn:N1.
  { unfold init_err, mbind, call, mret in Hrun. cbn [dev world trace] in Hrun.
    injection Hrun as <- <- <-. split; [reflexivity|].
    intros w1' w2' [= <-] Hs'. rewrite Hs in Hs'.
    injection Hs' as -> _. discriminate N1. }
  cbn [dev world trace enable crc_en chip_address buff zeroed_desc] in Hrun.
  destruct (no_os_gpio_get_optional w2) as [[e h] w3] eqn:Hg.
  cbn [dev world trace enable crc_en chip_address buff zeroed_desc] in Hrun.
  cut (exists s0 : state W, ends_well s0 (ret, out, s')).
  { intros (s0 & Hend).
    destruct (ends_well_unwinds _ _ _ _ Hend Hret) as [Hout Hpre].
    split; [assumption|]. intros _ _ _ _. exact Hpre. }
  destruct (nonzero e) eqn:Ne;
    cbn [negb dev world trace enable crc_en chip_address buff] in Hrun.
  - eexists. rewrite <- Hrun. apply init_config_ends_well. reflexivity.
  - destruct (no_os_gpio_set_value h NO_OS_GPIO_HIGH w3) as [r2 w4] eqn:Hv.
    cbn [dev world trace] in Hrun.
    destruct (nonzero r2) eqn:N2.
    + eexists. rewrite <- Hrun.
      apply ends_well_fail; [|assumption]. apply bus_step_refl. reflexivity.
    + eexists. rewrite <- Hrun. apply init_config_ends_well. reflexivity.
Qed.


(** The state in which the configuration phase starts, or, when driving
    the enable line failed, in which init leaves through [gpio_err]. *)
Lemma init_reaches_config
  (param : max14906_init_param) (w w1 w2 w3 : W) (tr : list event)
  (e : Z) (h : gpio_handle) :
  let d := {| enable := h; crc_en := param_crc_en param;
              chip_address := 0; buff := [0; 0; 0] |} in
  let tr1 := tr ++ [EvCalloc; EvSpiInit; EvGpioGetOptional] in
  no_os_calloc w = (true, w1) ->
  no_os_spi_init w1 = (0, w2) ->
  no_os_gpio_get_optional w2 = (e, h, w3) ->
  (e <> 0 ->
   max14906_init param w tr = init_config {| dev := d; world := w3; trace := tr1 |})
  /\ (e = 0 ->
      forall r w4,
        no_os_gpio_set_value h NO_OS_GPIO_HIGH w3 = (r, w4) ->
        max14906_init param w tr
        = (if nonzero r then init_gpio_err r else init_config)
            {| dev := d; world := w4;
               trace := tr1 ++ [EvGpioSetValue h NO_OS_GPIO_HIGH] |}).
Proof.
  cbv zeta. intros Hc Hs Hg.
  assert (Hstart : max14906_init param w tr
    = (if negb (nonzero e)
       then mbind (call (EvGpioSetValue h NO_OS_GPIO_HIGH)
                        (no_os_gpio_set_value h NO_OS_GPIO_HIGH))
                  (fun r => if nonzero r then init_gpio_err r else init_config)
       else init_config)
        {| dev := {| enable := h; crc_en := param_crc_en param;
                     chip_address := 0; buff := [0; 0; 0] |};
           world := w3;
           trace := tr ++ [EvCalloc; EvSpiInit; EvGpioGetOptional] |}).
  { unfold max14906_init. rewrite Hc. cbn [negb].
    unfold init_body, set_crc_en, set_enable, get_dev.
    unfold mbind at 1. unfold call at 1. cbn [dev world trace]. rewrite Hs.
    cbn [nonzero Z.eqb negb]. unfold mbind at 1. cbn [dev world trace].
    unfold mbind at 1. unfold call at 1. cbn [dev world trace]. rewrite Hg.
    unfold mbind at 1.
    cbn [dev world trace enable crc_en chip_address buff zeroed_desc].
    rewrite <- !app_assoc. cbn [app].
    destruct (negb (nonzero e)); [|reflexivity].
    unfold mbind at 1. cbn [dev enable]. reflexivity. }
  rewrite Hstart. unfold nonzero at 1 3. split.
  - intros He. apply Z.eqb_neq in He. rewrite He. reflexivity.
  - intros -> r w4 Hv. cbn [Z.eqb negb].
    unfold mbind, call. cbn [dev world trace]. rewrite Hv.
    rewrite <- !app_assoc. reflexivity.
Qed.

Lemma run_until_failure_first_failure (pre post : list (M W Z)) (m : M W Z) :
  forall (s sk sk' : state W) (r : Z),
    run_until_failure pre s = (0, sk) ->
    m sk = (r, sk') -> r <> 0 ->
    run_until_failure (pre ++ m :: post) s = (r, sk').
Proof.
  induction pre as [|a pre IH]; intros s sk sk' r Hpre Hm Hr.
  - injection Hpre as <-. cbn [app run_until_failure]. unfold mbind.
    rewrite Hm. unfold nonzero. apply Z.eqb_neq in Hr. rewrite Hr. reflexivity.
  - cbn [app run_until_failure] in *. unfold mbind in *.
    destruct (a s) as [ra sa]. destruct (nonzero ra) eqn:Na.
    + injection Hpre as -> _. discriminate Na.
    + eapply IH; eassumption.
Qed.

Lemma bus_only_read_step (addr : Z) : bus_only (read_step addr).
Proof.
  unfold read_step. apply bus_only_bind; [apply bus_only_reg_read|].
  intros r. apply bus_only_ret.
Qed.

Lemma bus_only_config_steps : Forall bus_only config_steps.
Proof.
  unfold config_steps. cbn [map flat_map app].
  repeat constructor;
    first [apply bus_only_read_step | apply bus_only_ch_func
          | apply bus_only_climit_set].
Qed.

Lemma bus_only_run_until_failure (steps : list (M W Z)) :
  Forall bus_only steps -> bus_only (run_until_failure steps).
Proof.
  induction 1 as [|m rest Hm _ IH]; cbn [run_until_failure].
  - apply bus_only_ret.
  - apply bus_only_bind; [exact Hm|].
    intros ret. destruct (nonzero ret); [apply bus_only_ret|exact IH].
Qed.

(** The configuration phase is its steps run up to the first failure,
    followed by the [gpio_err] exit on failure and by handing out the
    descriptor otherwise. *)
Lemma init_config_steps (s : state W) :
  init_config s
  = mbind (run_until_failure config_steps)
          (fun ret => if nonzero ret then init_gpio_err ret
                      else mbind get_dev (fun descriptor => mret (0, Some descriptor))) s.
Proof.
  unfold init_config, config_steps.
  cbn [map flat_map app run_until_failure].
  change (Z.to_nat MAX14906_CHANNELS) with 4%nat. cbn [for_ret].
  change (0 + 1) with 1. change (1 + 1) with 2. change (2 + 1) with 3.
  unfold read_step, init_channel, mbind, mret.
  repeat
    (match goal with
     | |- context [max14906_reg_read ?a ?st] =>
         destruct (max14906_reg_read a st) as [[? ?] ?]
     | |- context [max14906_ch_func ?c ?f ?st] =>
         destruct (max14906_ch_func c f st) as [? ?]
     | |- context [max14906_climit_set ?c ?l ?st] =>
         destruct (max14906_climit_set c l st) as [? ?]
     end;
     cbn [fst];
     match goal with
     | |- context [nonzero ?r] =>
         let N := fresh "N" in
         destruct (nonzero r) eqn:N; cbv beta iota; rewrite ?N; [reflexivity|]
     end).
  reflexivity.
Qed.

Lemma init_config_first_failure
  (s sk sk' : state W) (pre post : list (M W Z)) (m : M W Z) (r : Z) :
  buff_ok (dev s) ->
  config_steps = pre ++ m :: post ->
  run_until_failure pre s = (0, sk) ->
  m sk = (r, sk') -> r <> 0 ->
  exists s',
    init_config s = (r, None, s')
    /\ trace s' = trace sk' ++ [EvGpioRemove (enable (dev s)); EvSpiRemove; EvFree].
Proof.
  intros Hok Hsteps Hpre Hm Hr.
  pose proof bus_only_config_steps as Hall. rewrite Hsteps in Hall.
  apply Forall_app in Hall as [Hbpre Hbm]. inversion Hbm as [|? ? Hbm1 _]; subst.
  pose proof (bus_only_run_until_failure _ Hbpre _ _ _ Hok Hpre) as B1.
  pose proof (Hbm1 _ _ _ (bus_step_ok _ _ B1) Hm) as B2.
  pose proof (bus_step_trans _ _ _ B1 B2) as (_ & _ & _ & (He & _) & _).
  rewrite init_config_steps, Hsteps. unfold mbind at 1.
  rewrite (run_until_failure_first_failure pre post m s sk sk' r Hpre Hm Hr).
  unfold nonzero. apply Z.eqb_neq in Hr. rewrite Hr. cbn [negb].
  destruct (init_gpio_err r sk') as [[ret out] s'] eqn:Herr.
  destruct (init_gpio_err_effect _ _ _ _ _ Herr) as (-> & -> & _ & Ht).
  exists s'. split; [reflexivity|]. rewrite Ht, He. reflexivity.
Qed.

(** C8, as amended. When a step of [max14906_init] after the transport
    acquisition other than the acquisition of the optional enable GPIO
    fails, that is when driving the enable line, one of the four
    fault-register reads, or the function or current-limit setting of a
    channel returns an error, init calls [no_os_gpio_remove], then
    [no_os_spi_remove], then [no_os_free], and returns that error; and
    whenever init returns an error, nothing was stored through the
    caller's descriptor pointer, and, the transport having been acquired,
    these three calls are its last. *)
Theorem init_unwinds_on_checked_failures
  (param : max14906_init_param) (w : W) (tr : list event) :
  (forall ret out s',
     max14906_init param w tr = (ret, out, s') -> ret <> 0 ->
     out = None
     /\ (forall w1 w2,
           no_os_calloc w = (true, w1) -> no_os_spi_init w1 = (0, w2) ->
           exists pre,
             trace s' = pre ++ [EvGpioRemove (enable (dev s')); EvSpiRemove; EvFree]))
  /\ (forall w1 w2 w3 e h,
        let d := {| enable := h; crc_en := param_crc_en param;
                    chip_address := 0; buff := [0; 0; 0] |} in
        let tr1 := tr ++ [EvCalloc; EvSpiInit; EvGpioGetOptional] in
        no_os_calloc w = (true, w1) ->
        no_os_spi_init w1 = (0, w2) ->
        no_os_gpio_get_optional w2 = (e, h, w3) ->
        (forall r w4,
           e = 0 ->
           no_os_gpio_set_value h NO_OS_GPIO_HIGH w3 = (r, w4) -> r <> 0 ->
           exists s',
             max14906_init param w tr = (r, None, s')
             /\ trace s' = tr1 ++ [EvGpioSetValue h NO_OS_GPIO_HIGH;
                                   EvGpioRemove h; EvSpiRemove; EvFree])
        /\ (forall s pre m post sk sk' r,
              (e <> 0 /\ s = {| dev := d; world := w3; trace := tr1 |}
               \/ e = 0
                  /\ exists w4,
                       no_os_gpio_set_value h NO_OS_GPIO_HIGH w3 = (0, w4)
                       /\ s = {| dev := d; world := w4;
                                 trace := tr1 ++ [EvGpioSetValue h NO_OS_GPIO_HIGH] |}) ->
              config_steps = pre ++ m :: post ->
              run_until_failure pre s = (0, sk) ->
              m sk = (r, sk') -> r <> 0 ->
              exists s',
                max14906_init param w tr = (r, None, s')
                /\ trace s' = trace sk' ++ [EvGpioRemove h; EvSpiRemove; EvFree])).
Proof.
  split; [intros ret out s'; apply init_error_effect|].
  cbv zeta. intros w1 w2 w3 e h Hc Hs Hg.
  destruct (init_reaches_config param w w1 w2 w3 tr e h Hc Hs Hg) as [Hne Heq].
  split.
  - intros r w4 -> Hv Hr. rewrite (Heq eq_refl r w4 Hv).
    unfold nonzero. apply Z.eqb_neq in Hr. rewrite Hr. cbn [negb].
    destruct (init_gpio_err r _) as [[ret out] s'] eqn:Herr.
    destruct (init_gpio_err_effect _ _ _ _ _ Herr) as (-> & -> & _ & Ht).
    exists s'. split; [reflexivity|]. rewrite Ht. cbn [trace dev enable].
    rewrite <- !app_assoc. reflexivity.
  - intros s pre m post sk sk' r Hstart Hsteps Hpre Hm Hr.
    assert (Hinit : max14906_init param w tr = init_config s
                    /\ buff_ok (dev s) /\ enable (dev s) = h).
    { destruct Hstart as [[He ->]|(-> & w4 & Hv & ->)].
      - split; [apply Hne, He|]. split; reflexivity.
      - split; [apply (Heq eq_refl 0 w4 Hv)|]. split; reflexivity. }
    destruct Hinit as (-> & Hok & Hen).
    destruct (init_config_first_failure s sk sk' pre post m r Hok Hsteps Hpre Hm Hr)
      as (s' & Hrun & Ht).
    exists s'. split; [exact Hrun|]. rewrite Ht, Hen. reflexivity.
Qed.

(** C10. When acquiring the optional enable GPIO returns a nonzero
    error, [max14906_init] drops that error: it does not unwind, does
    not drive the enable line, and goes on with the fault-register reads
    and the channel configuration; its result is exactly the result of
    that configuration phase, so the failed acquisition alone never
    makes init fail. *)
Theorem init_discards_gpio_get_error
  (param : max14906_init_param) (w w1 w2 w3 : W) (tr : list event)
  (e : Z) (h : gpio_handle) :
  let s := {| dev := {| enable := h; crc_en := param_crc_en param;
                        chip_address := 0; buff := [0; 0; 0] |};
              world := w3;
              trace := tr ++ [EvCalloc; EvSpiInit; EvGpioGetOptional] |} in
  no_os_calloc w = (true, w1) ->
  no_os_spi_init w1 = (0, w2) ->
  no_os_gpio_get_optional w2 = (e, h, w3) ->
  e <> 0 ->
  max14906_init param w tr = init_config s
  /\ (exists rest,
        trace (snd (max14906_init param w tr)) = trace s ++ rest
        /\ forallb (fun ev => negb (is_gpio_set ev)) rest = true)
  /\ (fst (fst (init_config s)) = 0 ->
      fst (max14906_init param w tr) = (0, Some (dev (snd (max14906_init param w tr))))).
Proof.
  cbv zeta. intros Hc Hs Hg He.
  set (s := {| dev := {| enable := h; crc_en := param_crc_en param;
                         chip_address := 0; buff := [0; 0; 0] |};
               world := w3;
               trace := tr ++ [EvCalloc; EvSpiInit; EvGpioGetOptional] |}).
  assert (Heq : max14906_init param w tr = init_config s)
    by (apply (init_reaches_config param w w1 w2 w3 tr e h Hc Hs Hg), He).
  rewrite Heq.
  pose proof (init_config_ends_well s eq_refl) as Hend.
  destruct (init_config s) as [[ret out] s'] eqn:Hrun. cbn [fst snd].
  split; [reflexivity|]. split.
  - eapply ends_well_no_gpio_set. exact Hend.
  - intros ->. destruct Hend as [(_ & -> & _)|(Hne & _)]; [reflexivity|contradiction].
Qed.

End Lifecycle.

(** *** Init against the register file *)

Module StubInit.

Import Stub.

Section WithOutcomes.

Variable o : outcomes.

Lemma reg_set_same (regs : regfile) (a v : Z) : reg_set regs a v a = v.
Proof. unfold reg_set. rewrite Z.eqb_refl. reflexivity. Qed.

Lemma reg_set_other (regs : regfile) (a b v : Z) :
  b <> a -> reg_set regs a v b = regs b.
Proof. intros Hne. unfold reg_set. apply Z.eqb_neq in Hne. rewrite Hne. reflexivity. Qed.

Lemma reg_merge_byte (v mask val : Z) : to_u8 (reg_merge v mask val) = reg_merge v mask val.
Proof. unfold reg_merge. apply StubFacts.to_u8_idem. Qed.

Lemma accesses_snoc (tr : list event) (ev : event) (a : access) :
  access_of ev = Some a -> accesses (tr ++ [ev]) = accesses tr ++ [a].
Proof.
  intros Ha. unfold accesses. rewrite omap_app. cbn [omap list_omap].
  rewrite Ha. reflexivity.
Qed.

Lemma stub_read_step (s : state regfile) (addr : Z) :
  buff_ok (dev s) ->
  exists s',
    max14906_reg_read (H := platform o) addr s
    = (0, Some (to_u8 (world s (addr mod 32))), s')
    /\ world s' = world s
    /\ bus_step s s'
    /\ accesses (trace s') = accesses (trace s) ++ [RegRead (addr mod 32)].
Proof.
  intros Hok.
  destruct (StubFacts.stub_reg_read o s addr Hok) as (s' & Hrun & Hw).
  exists s'. split; [exact Hrun|]. split; [exact Hw|].
  split; [eapply bus_only_reg_read; eassumption|].
  destruct (reg_read_effect _ _ _ _ _ Hok Hrun) as (x & Ht & Ha & _).
  rewrite Ht. apply accesses_snoc, Ha.
Qed.

Lemma stub_write_step (s : state regfile) (addr val : Z) :
  buff_ok (dev s) ->
  exists s',
    max14906_reg_write (H := platform o) addr val s = (0, s')
    /\ world s' = reg_set (world s) (addr mod 32) (to_u8 val)
    /\ bus_step s s'
    /\ accesses (trace s')
       = accesses (trace s) ++ [RegWrite (addr mod 32) (to_u8 val)].
Proof.
  intros Hok.
  destruct (StubFacts.stub_reg_write o s addr val Hok) as (s' & Hrun & Hw).
  exists s'. split; [exact Hrun|]. split; [exact Hw|].
  split; [eapply bus_only_reg_write; eassumption|].
  destruct (reg_write_effect _ _ _ _ _ Hok Hrun) as (x & Ht & Ha & _).
  rewrite Ht. apply accesses_snoc, Ha.
Qed.

Lemma stub_update_step (s : state regfile) (addr mask val : Z) :
  buff_ok (dev s) ->
  let v := to_u8 (world s (addr mod 32)) in
  exists s',
    max14906_reg_update (H := platform o) addr mask val s = (0, s')
    /\ world s' = reg_set (world s) (addr mod 32) (reg_merge v mask val)
    /\ bus_step s s'
    /\ accesses (trace s')
       = accesses (trace s)
         ++ [RegRead (addr mod 32); RegWrite (addr mod 32) (reg_merge v mask val)].
Proof.
  intros Hok v.
  destruct (stub_read_step s addr Hok) as (s1 & Hread & Hw1 & B1 & Ha1).
  assert (Hupd := reg_update_read_succeeds s s1 addr mask val _ Hread).
  pose proof (to_u8_range (world s (addr mod 32))) as Hrange.
  specialize (Hupd ltac:(lia)).
  destruct (stub_write_step s1 addr
              (Z.lor (Z.land (to_u8 (world s (addr mod 32))) (Z.lnot mask))
                     (Z.land mask val))
              (bus_step_ok _ _ B1)) as (s2 & Hwrite & Hw2 & B2 & Ha2).
  exists s2. rewrite Hupd.
  split; [exact Hwrite|].
  split; [rewrite Hw2, Hw1; reflexivity|].
  split; [eapply bus_step_trans; eassumption|].
  rewrite Ha2, Ha1, <- app_assoc. reflexivity.
Qed.

Lemma stub_channel_step (s : state regfile) (i : Z) :
  buff_ok (dev s) ->
  exists s',
    init_channel (H := platform o) i s = (0, s')
    /\ world s' = channel_regs 1 i (world s)
    /\ bus_step s s'
    /\ accesses (trace s')
       = accesses (trace s)
         ++ expected_channel_accesses 1 i
              (to_u8 (world s MAX14906_CONFIG_DO_REG))
              (to_u8 (world s MAX14906_SETOUT_REG))
              (to_u8 (world s MAX14906_CONFIG_CURR_LIM)).
Proof.
  intros Hok.
  unfold init_channel, max14906_ch_func, max14906_climit_set, mbind.
  destruct (stub_update_step s MAX14906_CONFIG_DO_REG (MAX14906_DO_MASK i)
              (no_os_field_prep (MAX14906_DO_MASK i) (do_mode_value MAX14906_PUSH_PULL))
              Hok) as (s1 & Hrun1 & Hw1 & B1 & Ha1).
  rewrite Hrun1. cbn [nonzero Z.eqb negb].
  destruct (stub_update_step s1 MAX14906_SETOUT_REG (MAX14906_CH_DIR_MASK i)
              (no_os_field_prep (MAX14906_CH_DIR_MASK i) 1)
              (bus_step_ok _ _ B1)) as (s2 & Hrun2 & Hw2 & B2 & Ha2).
  rewrite Hrun2. cbn [nonzero Z.eqb negb].
  destruct (stub_update_step s2 MAX14906_CONFIG_CURR_LIM (MAX14906_CL_MASK i)
              (no_os_field_prep (MAX14906_CL_MASK i) (climit_value MAX14906_CL_130))
              (bus_step_ok _ _ B2)) as (s3 & Hrun3 & Hw3 & B3 & Ha3).
  rewrite Hrun3.
  change (MAX14906_CONFIG_DO_REG mod 32) with MAX14906_CONFIG_DO_REG in *.
  change (MAX14906_SETOUT_REG mod 32) with MAX14906_SETOUT_REG in *.
  change (MAX14906_CONFIG_CURR_LIM mod 32) with MAX14906_CONFIG_CURR_LIM in *.
  rewrite Hw2, Hw1 in Hw3. rewrite Hw2, Hw1 in Ha3. rewrite Hw1 in Hw2, Ha2.
  rewrite !reg_set_other in Hw3, Ha3, Ha2, Hw2 by other_register.
  exists s3. split; [reflexivity|].
  split; [exact Hw3|].
  split; [eapply bus_step_trans; [eapply bus_step_trans|]; eassumption|].
  rewrite Ha3, Ha2, Ha1, <- !app_assoc. reflexivity.
Qed.

Lemma stub_channels (n : nat) :
  forall (i : Z) (s : state regfile),
    buff_ok (dev s) ->
    exists s',
      for_ret n i (init_channel (H := platform o)) s = (0, s')
      /\ world s' = channel_regs n i (world s)
      /\ bus_step s s'
      /\ accesses (trace s')
         = accesses (trace s)
           ++ expected_channel_accesses n i
                (to_u8 (world s MAX14906_CONFIG_DO_REG))
                (to_u8 (world s MAX14906_SETOUT_REG))
                (to_u8 (world s MAX14906_CONFIG_CURR_LIM)).
Proof.
  induction n as [|n IH]; intros i s Hok.
  - exists s. cbn [for_ret channel_regs expected_channel_accesses].
    rewrite app_nil_r. repeat split. apply bus_step_refl, Hok.
  - destruct (stub_channel_step s i Hok) as (s1 & Hrun1 & Hw1 & B1 & Ha1).
    destruct (IH (i + 1) s1 (bus_step_ok _ _ B1)) as (s2 & Hrun2 & Hw2 & B2 & Ha2).
    exists s2. cbn [for_ret]. unfold mbind. rewrite Hrun1.
    cbn [nonzero Z.eqb negb].
    split; [exact Hrun2|].
    split; [rewrite Hw2, Hw1; reflexivity|].
    split; [eapply bus_step_trans; eassumption|].
    rewrite Ha2, Ha1, Hw1, <- app_assoc. f_equal.
    cbn [channel_regs expected_channel_accesses app].
    rewrite reg_set_other by other_register.
    rewrite reg_set_other by other_register.
    rewrite reg_set_same.
    rewrite (reg_set_other _ MAX14906_CONFIG_CURR_LIM MAX14906_SETOUT_REG)
      by other_register.
    rewrite !reg_set_same.
    unfold high_z_mode, high_z_dir, min_climit, set_field.
    rewrite !reg_merge_byte. reflexivity.
Qed.

Lemma stub_init_config (s : state regfile) :
  buff_ok (dev s) ->
  exists s',
    init_config (H := platform o) s = (0, Some (dev s'), s')
    /\ world s' = channel_regs 4 0 (world s)
    /\ bus_step s s'
    /\ accesses (trace s')
       = accesses (trace s) ++ fault_reads
         ++ expected_channel_accesses 4 0
              (to_u8 (world s MAX14906_CONFIG_DO_REG))
              (to_u8 (world s MAX14906_SETOUT_REG))
              (to_u8 (world s MAX14906_CONFIG_CURR_LIM)).
Proof.
  intros Hok. unfold init_config, mbind.
  destruct (stub_read_step s MAX14906_OVR_LD_REG Hok) as (s1 & R1 & W1 & B1 & A1).
  rewrite R1. cbn [nonzero Z.eqb negb].
  destruct (stub_read_step s1 MAX14906_OPN_WIR_FLT_REG (bus_step_ok _ _ B1))
    as (s2 & R2 & W2 & B2 & A2).
  rewrite R2. cbn [nonzero Z.eqb negb].
  destruct (stub_read_step s2 MAX14906_SHD_VDD_FLT_REG (bus_step_ok _ _ B2))
    as (s3 & R3 & W3 & B3 & A3).
  rewrite R3. cbn [nonzero Z.eqb negb].
  destruct (stub_read_step s3 MAX14906_GLOBAL_FLT_REG (bus_step_ok _ _ B3))
    as (s4 & R4 & W4 & B4 & A4).
  rewrite R4. cbn [nonzero Z.eqb negb].
  destruct (stub_channels 4 0 s4 (bus_step_ok _ _ B4)) as (s5 & R5 & W5 & B5 & A5).
  change (Z.to_nat MAX14906_CHANNELS) with 4%nat.
  rewrite R5. cbn [nonzero Z.eqb negb]. unfold get_dev, mret.
  exists s5. split; [reflexivity|].
  rewrite W4, W3, W2, W1 in W5. rewrite W4, W3, W2, W1 in A5.
  split; [exact W5|].
  split.
  { exact (bus_step_trans _ _ _
             (bus_step_trans _ _ _
                (bus_step_trans _ _ _ (bus_step_trans _ _ _ B1 B2) B3) B4) B5). }
  rewrite A5, A4, A3, A2, A1, <- !app_assoc. reflexivity.
Qed.

End WithOutcomes.

Lemma set_field_byte (mask : Z -> Z) (fv ch v : Z) :
  to_u8 (set_field mask fv ch v) = set_field mask fv ch v.
Proof. apply reg_merge_byte. Qed.





Lemma fields_set_all (ch v : Z) :
  0 <= ch < 4 -> 0 <= v < 256 ->
  fields_set MAX14906_DO_MASK (do_mode_value MAX14906_PUSH_PULL) ch v = true
  /\ fields_set MAX14906_CH_DIR_MASK 1 ch v = true
  /\ fields_set MAX14906_CL_MASK (climit_value MAX14906_CL_130) ch v = true.
Proof.
  intros Hch Hv.
  pose proof (forallb_Z_below2
    (fun ch v =>
       fields_set MAX14906_DO_MASK (do_mode_value MAX14906_PUSH_PULL) ch v
       && fields_set MAX14906_CH_DIR_MASK 1 ch v
       && fields_set MAX14906_CL_MASK (climit_value MAX14906_CL_130) ch v) 4 256) as Hchk.
  assert (Hall : forallb (fun ch => forallb (fun v =>
       fields_set MAX14906_DO_MASK (do_mode_value MAX14906_PUSH_PULL) ch v
       && fields_set MAX14906_CH_DIR_MASK 1 ch v
       && fields_set MAX14906_CL_MASK (climit_value MAX14906_CL_130) ch v)
       (map Z.of_nat (seq 0 256))) (map Z.of_nat (seq 0 4)) = true)
    by (vm_compute; reflexivity).
  specialize (Hchk Hall ch v Hch Hv). cbv beta in Hchk.
  apply andb_prop in Hchk as [Hchk H3]. apply andb_prop in Hchk as [H1 H2].
  repeat split; assumption.
Qed.




(** C1, the failing input evaluated. On the register file at power-up
    [max14906_ch_get] and [max14906_ch_set] refuse channel 4 with
    [-EINVAL] and leave no trace, whereas [max14906_climit_set] and
    [max14906_climit_get] accept channel 4, return 0 and access the
    current-limit register over SPI. *)
Theorem climit_accessors_do_not_check_the_channel :
  let s := start zeroed_desc power_on in
  max14906_ch_get (H := platform all_ok) 4 s = (- EINVAL, None, s)
  /\ max14906_ch_set (H := platform all_ok) 4 1 s = (- EINVAL, s)
  /\ fst (max14906_climit_set (H := platform all_ok) 4 MAX14906_CL_130 s) = 0
  /\ accesses (trace (snd (max14906_climit_set (H := platform all_ok) 4 MAX14906_CL_130 s)))
     = [RegRead MAX14906_CONFIG_CURR_LIM; RegWrite MAX14906_CONFIG_CURR_LIM 0]
  /\ fst (max14906_climit_get (H := platform all_ok) 4 true s) = (0, Some 0)
  /\ accesses (trace (snd (max14906_climit_get (H := platform all_ok) 4 true s)))
     = [RegRead MAX14906_CONFIG_CURR_LIM].
Proof. vm_compute. repeat split; reflexivity. Qed.

(** C8, as stated, fails when the step that fails is the acquisition of
    the optional enable GPIO: on the register file, with that call
    returning [-EINVAL] after the transport was acquired, init returns 0,
    hands out the descriptor, and calls none of [no_os_gpio_remove],
    [no_os_spi_remove] and [no_os_free]. *)
Lemma init_does_not_unwind_when_gpio_get_fails :
  let p := {| param_crc_en := true |} in
  let res := max14906_init (H := platform gpio_get_fails) p power_on [] in
  fst (no_os_spi_init (Platform := platform gpio_get_fails) power_on) = 0
  /\ fst (fst (no_os_gpio_get_optional (Platform := platform gpio_get_fails) power_on))
     = - EINVAL
  /\ fst (fst res) = 0
  /\ snd (fst res) = Some (dev (snd res))
  /\ existsb is_cleanup (trace (snd res)) = false.
Proof. vm_compute. repeat split; reflexivity. Qed.

End StubInit.

(** ** The theorems at concrete inputs *)

Module Witness.

Import Stub.

Lemma reg_write_frames_and_transfers_once_witness :
  buff_ok (dev s0)
  /\ exists s',
       max14906_reg_write (H := platform all_ok) MAX14906_CONFIG_DO_REG 0xFF s0 = (0, s')
       /\ world s' = reg_set power_on MAX14906_CONFIG_DO_REG 0xFF.
Proof.
  split; [reflexivity|].
  destruct (reg_write_frames_and_transfers_once (H := platform all_ok)
              s0 MAX14906_CONFIG_DO_REG 0xFF 0 []
              (reg_set power_on MAX14906_CONFIG_DO_REG 0xFF))
    as (_ & s' & Hrun & _ & Hw & _); [reflexivity|reflexivity|].
  exists s'. split; assumption.
Defined.

Lemma reg_read_checks_returned_crc_witness :
  crc_en (dev s0) = true
  /\ exists s',
       max14906_reg_read (H := platform all_ok) MAX14906_CONFIG_CURR_LIM s0
       = (0, Some 0, s').
Proof.
  split; [reflexivity|].
  destruct (reg_read_checks_returned_crc (H := platform all_ok)
              s0 MAX14906_CONFIG_CURR_LIM
              [0; 0; max14906_crc_decode [0; 0]] power_on)
    as (s' & _ & _ & _ & Hmatch); [reflexivity|reflexivity|].
  exists s'. apply Hmatch. reflexivity.
Defined.

Lemma reg_update_reads_then_writes_merged_value_witness :
  let r := max14906_reg_read (H := platform all_ok) MAX14906_CONFIG_CURR_LIM s0 in
  buff_ok (dev s0)
  /\ r = (0, Some 0, snd r)
  /\ exists v,
       Some 0 = Some v
       /\ max14906_reg_update (H := platform all_ok) MAX14906_CONFIG_CURR_LIM 0x03 0x01 s0
          = max14906_reg_write (H := platform all_ok) MAX14906_CONFIG_CURR_LIM
              (Z.lor (Z.land v (Z.lnot 0x03)) (Z.land 0x03 0x01)) (snd r).
Proof.
  cbv zeta. split; [reflexivity|]. split; [reflexivity|].
  apply (reg_update_reads_then_writes_merged_value (H := platform all_ok)
           s0 _ MAX14906_CONFIG_CURR_LIM 0x03 0x01 0 (Some 0));
    reflexivity.
Defined.

Lemma ch_func_writes_mode_before_direction_witness :
  let r := max14906_ch_func (H := platform all_ok) 0 MAX14906_HIGH_Z s0 in
  buff_ok (dev s0)
  /\ r = (0, snd r)
  /\ (exists new wmode wdir,
        trace (snd r) = trace s0 ++ new
        /\ accesses new
           = [RegRead MAX14906_CONFIG_DO_REG; RegWrite MAX14906_CONFIG_DO_REG wmode;
              RegRead MAX14906_SETOUT_REG; RegWrite MAX14906_SETOUT_REG wdir]
        /\ no_os_field_get (MAX14906_DO_MASK 0) wmode = do_mode_value MAX14906_PUSH_PULL
        /\ no_os_field_get (MAX14906_CH_DIR_MASK 0) wdir = 1)
  /\ max14906_reg_update (H := platform all_ok) MAX14906_SETOUT_REG
       (MAX14906_CH_DIR_MASK 0) (no_os_field_prep (MAX14906_CH_DIR_MASK 0) 0) s0
     = max14906_ch_func (H := platform all_ok) 0 MAX14906_OUT s0.
Proof.
  cbv zeta. split; [reflexivity|]. split; [reflexivity|]. split.
  - destruct (ch_func_writes_mode_before_direction (H := platform all_ok)
                s0 (snd (max14906_ch_func (H := platform all_ok) 0 MAX14906_HIGH_Z s0))
                0 0 MAX14906_HIGH_Z eq_refl eq_refl)
      as [(new & wmode & wdir & Ht & _ & Hall & Hfields) _].
    exists new, wmode, wdir.
    split; [exact Ht|]. split; [exact (Hall eq_refl)|].
    destruct Hfields as [Hdir Hmode]; [lia|].
    split; [apply Hmode; discriminate|exact Hdir].
  - destruct (ch_func_writes_mode_before_direction (H := platform all_ok)
                s0 (snd (max14906_ch_func (H := platform all_ok) 0 MAX14906_OUT s0))
                0 (fst (max14906_ch_func (H := platform all_ok) 0 MAX14906_OUT s0))
                MAX14906_OUT eq_refl (surjective_pairing _))
      as (_ & _ & Hout).
    exact (eq_trans (Hout eq_refl) (eq_sym (surjective_pairing _))).
Defined.


Lemma init_unwinds_on_checked_failures_witness :
  let p := {| param_crc_en := true |} in
  let r := max14906_init (H := platform gpio_set_fails) p power_on [] in
  let r' := max14906_init (H := dead_bus) p power_on [] in
  (r = (-5, snd (fst r), snd r)
   /\ snd (fst r) = None
   /\ exists pre,
        trace (snd r)
        = pre ++ [EvGpioRemove (enable (dev (snd r))); EvSpiRemove; EvFree])
  /\ exists s' sk',
       read_step (H := dead_bus) MAX14906_OVR_LD_REG
         {| dev := {| enable := Some 1; crc_en := true; chip_address := 0;
                      buff := [0; 0; 0] |};
            world := power_on;
            trace := [EvCalloc; EvSpiInit; EvGpioGetOptional;
                      EvGpioSetValue (Some 1) NO_OS_GPIO_HIGH] |} = (-5, sk')
       /\ r' = (-5, None, s')
       /\ trace s' = trace sk' ++ [EvGpioRemove (Some 1); EvSpiRemove; EvFree].
Proof.
  cbv zeta. split.
  - assert (Hrun : max14906_init (H := platform gpio_set_fails)
                     {| param_crc_en := true |} power_on []
                   = (-5, snd (fst (max14906_init (H := platform gpio_set_fails)
                                      {| param_crc_en := true |} power_on [])),
                      snd (max14906_init (H := platform gpio_set_fails)
                             {| param_crc_en := true |} power_on [])))
      by (vm_compute; reflexivity).
    split; [exact Hrun|].
    destruct (init_unwinds_on_checked_failures (H := platform gpio_set_fails)
                {| param_crc_en := true |} power_on []) as [Herr _].
    destruct (Herr (-5) _ _ Hrun) as [Hout Hpre]; [discriminate|].
    split; [exact Hout|].
    apply (Hpre power_on power_on); reflexivity.
  - destruct (init_unwinds_on_checked_failures (H := dead_bus)
                {| param_crc_en := true |} power_on []) as [_ Hstep].
    destruct (Hstep power_on power_on power_on 0 (Some 1) eq_refl eq_refl eq_refl)
      as [_ Hcfg].
    set (s := {| dev := {| enable := Some 1; crc_en := true; chip_address := 0;
                           buff := [0; 0; 0] |};
                 world := power_on;
                 trace := [EvCalloc; EvSpiInit; EvGpioGetOptional;
                           EvGpioSetValue (Some 1) NO_OS_GPIO_HIGH] |}).
    assert (Hm : read_step (H := dead_bus) MAX14906_OVR_LD_REG s
                 = (-5, snd (read_step (H := dead_bus) MAX14906_OVR_LD_REG s)))
      by (vm_compute; reflexivity).
    destruct (Hcfg s [] (read_step (H := dead_bus) MAX14906_OVR_LD_REG)
                (tl (config_steps (H := dead_bus))) s
                (snd (read_step (H := dead_bus) MAX14906_OVR_LD_REG s)) (-5))
      as (s' & Hrun & Ht).
    + right. split; [reflexivity|]. exists power_on. split; reflexivity.
    + reflexivity.
    + reflexivity.
    + exact Hm.
    + discriminate.
    + exists s', (snd (read_step (H := dead_bus) MAX14906_OVR_LD_REG s)).
      split; [exact Hm|]. split; [exact Hrun|exact Ht].
Defined.

Lemma init_discards_gpio_get_error_witness :
  let p := {| param_crc_en := true |} in
  let r := max14906_init (H := platform gpio_get_fails) p power_on [] in
  fst (fst (no_os_gpio_get_optional (Platform := platform gpio_get_fails) power_on)) <> 0
  /\ fst r = (0, Some (dev (snd r))).
Proof.
  cbv zeta. split; [discriminate|].
  destruct (init_discards_gpio_get_error (H := platform gpio_get_fails)
              {| param_crc_en := true |} power_on power_on power_on power_on []
              (- EINVAL) None eq_refl eq_refl eq_refl)
    as (_ & _ & Hok); [discriminate|].
  apply Hok. vm_compute. reflexivity.
Defined.

End Witness.

(** ** Further properties of the driver *)

(** *** The CRC5 routines as error-detecting codes *)

Section Crc5Errors.

Local Opaque max14906_crc_encode max14906_crc_decode.

Lemma div_step_linear (r r' : Z) (b b' : bool) :
  0 <= r < 32 -> 0 <= r' < 32 ->
  div_step crc5_poly (Z.lxor r r') (xorb b b')
  = Z.lxor (div_step crc5_poly r b) (div_step crc5_poly r' b')
  /\ 0 <= Z.lxor r r' < 32.
Proof.
  intros Hr Hr'.
  assert (Hall : forallb (fun r => forallb (step_linear_check r)
                                     (map Z.of_nat (seq 0 32)))
                         (map Z.of_nat (seq 0 32)) = true)
    by (vm_compute; reflexivity).
  pose proof (forallb_Z_below2 step_linear_check 32 32 Hall r r' Hr Hr') as Hchk.
  unfold step_linear_check in Hchk. rewrite !forallb_forall in Hchk.
  assert (Hb : In b [false; true]) by (destruct b; cbn; auto).
  assert (Hb' : In b' [false; true]) by (destruct b'; cbn; auto).
  specialize (Hchk b Hb). rewrite forallb_forall in Hchk.
  specialize (Hchk b' Hb').
  apply andb_prop in Hchk as [Hchk H3]. apply andb_prop in Hchk as [H1 H2].
  apply Z.eqb_eq in H1. split; [exact H1|lia].
Qed.

Lemma fold_div_step_linear (l : list bool) :
  forall (l' : list bool) (r r' : Z),
    length l = length l' -> 0 <= r < 32 -> 0 <= r' < 32 ->
    fold_left (div_step crc5_poly) (zip_with xorb l l') (Z.lxor r r')
    = Z.lxor (fold_left (div_step crc5_poly) l r)
             (fold_left (div_step crc5_poly) l' r').
Proof.
  induction l as [|b l IH]; intros [|b' l'] r r' Hlen Hr Hr';
    try discriminate Hlen; [reflexivity|].
  cbn [zip_with fold_left].
  destruct (div_step_linear r r' b b' Hr Hr') as [-> _].
  apply IH; [cbn in Hlen; lia | apply div_step_range, Hr | apply div_step_range, Hr'].
Qed.

Lemma bits_at_lxor (ps : list Z) (a e : Z) :
  bits_at ps (Z.lxor a e) = zip_with xorb (bits_at ps a) (bits_at ps e).
Proof.
  induction ps as [|p ps IH]; [reflexivity|].
  unfold bits_at in *. cbn [map zip_with]. rewrite Z.lxor_spec, IH. reflexivity.
Qed.

Lemma bits_at_length (ps : list Z) (a : Z) : length (bits_at ps a) = length ps.
Proof. unfold bits_at. apply length_map. Qed.

(** The division of a frame with an error pattern exclusive-ored in is
    the division of the frame, exclusive-ored with the division of the
    pattern started at 0. *)
Lemma crc5_divide_lxor (ps : list Z) (c ec d ed : Z) :
  crc5_divide 0x1f 0x15
    (bits_at ps (Z.lxor c ec) ++ msb_first (Z.lxor d ed) ++ zero_pad)
  = Z.lxor (crc5_divide 0x1f 0x15 (bits_at ps c ++ msb_first d ++ zero_pad))
           (crc5_divide 0 0x15 (bits_at ps ec ++ msb_first ed ++ zero_pad)).
Proof.
  unfold crc5_divide, msb_first.
  rewrite !bits_at_lxor.
  replace zero_pad with (zip_with xorb zero_pad zero_pad) at 1 by reflexivity.
  rewrite <- !zip_with_app by (rewrite ?bits_at_length; reflexivity).
  change 31 with (Z.lxor 31 0) at 1.
  apply fold_div_step_linear; [|lia|lia].
  rewrite !length_app, !bits_at_length. reflexivity.
Qed.

Lemma crc_encode_lxor (c ec d ed : Z) :
  max14906_crc_encode [Z.lxor c ec; Z.lxor d ed]
  = Z.lxor (max14906_crc_encode [c; d]) (encode_syndrome ec ed).
Proof.
  rewrite !crc_encode_divide. unfold crc5_encode_spec, encode_syndrome.
  apply (crc5_divide_lxor [7; 6; 5; 4; 3; 2; 1; 0]).
Qed.

Lemma crc_decode_lxor (c ec d ed : Z) :
  max14906_crc_decode [Z.lxor c ec; Z.lxor d ed]
  = Z.lxor (max14906_crc_decode [c; d]) (decode_syndrome ec ed).
Proof.
  rewrite !crc_decode_divide. unfold crc5_decode_high_skipped, decode_syndrome.
  apply (crc5_divide_lxor [5; 4; 3; 2; 1; 0]).
Qed.

Lemma lxor_changes (a s : Z) : s <> 0 -> Z.lxor a s <> a.
Proof.
  intros Hs Heq. apply Hs.
  assert (Hs' : Z.lxor a (Z.lxor a s) = s)
    by (rewrite <- Z.lxor_assoc, Z.lxor_nilpotent; apply Z.lxor_0_l).
  rewrite Heq, Z.lxor_nilpotent in Hs'. symmetry. exact Hs'.
Qed.

(** X1. Every single-bit error in the command byte or in the data byte
    changes the CRC5 that [max14906_crc_encode] computes. *)
Theorem crc_encode_detects_single_bit_errors (cmd data k : Z) :
  0 <= k < 8 ->
  max14906_crc_encode [Z.lxor cmd (Z.shiftl 1 k); data]
  <> max14906_crc_encode [cmd; data]
  /\ max14906_crc_encode [cmd; Z.lxor data (Z.shiftl 1 k)]
     <> max14906_crc_encode [cmd; data].
Proof.
  intros Hk. split.
  - rewrite <- (Z.lxor_0_r data) at 1. rewrite crc_encode_lxor.
    apply lxor_changes.
    assert (k = 0 \/ k = 1 \/ k = 2 \/ k = 3 \/ k = 4 \/ k = 5 \/ k = 6 \/ k = 7)
      as Hcases by lia.
    repeat (destruct Hcases as [-> | Hcases]); [..|subst k];
      vm_compute; discriminate.
  - rewrite <- (Z.lxor_0_r cmd) at 1. rewrite crc_encode_lxor.
    apply lxor_changes.
    assert (k = 0 \/ k = 1 \/ k = 2 \/ k = 3 \/ k = 4 \/ k = 5 \/ k = 6 \/ k = 7)
      as Hcases by lia.
    repeat (destruct Hcases as [-> | Hcases]); [..|subst k];
      vm_compute; discriminate.
Qed.

Lemma crc_decode_cmd_bit (cmd data k : Z) :
  0 <= k < 6 ->
  max14906_crc_decode [Z.lxor cmd (Z.shiftl 1 k); data]
  <> max14906_crc_decode [cmd; data].
Proof.
  intros Hk.
  rewrite <- (Z.lxor_0_r data) at 1. rewrite crc_decode_lxor.
  apply lxor_changes.
  assert (k = 0 \/ k = 1 \/ k = 2 \/ k = 3 \/ k = 4 \/ k = 5) as Hcases by lia.
  repeat (destruct Hcases as [-> | Hcases]); [..|subst k];
    vm_compute; discriminate.
Qed.

Lemma crc_decode_data_bit (cmd data k : Z) :
  0 <= k < 8 ->
  max14906_crc_decode [cmd; Z.lxor data (Z.shiftl 1 k)]
  <> max14906_crc_decode [cmd; data].
Proof.
  intros Hk.
  rewrite <- (Z.lxor_0_r cmd) at 1. rewrite crc_decode_lxor.
  apply lxor_changes.
  assert (k = 0 \/ k = 1 \/ k = 2 \/ k = 3 \/ k = 4 \/ k = 5 \/ k = 6 \/ k = 7)
    as Hcases by lia.
  repeat (destruct Hcases as [-> | Hcases]); [..|subst k];
    vm_compute; discriminate.
Qed.

Lemma crc_decode_low_six (cmd data : Z) :
  max14906_crc_decode [cmd mod 64; data] = max14906_crc_decode [cmd; data].
Proof.
  rewrite !crc_decode_divide. unfold crc5_decode_high_skipped.
  f_equal. f_equal. unfold bits_at. cbn [map].
  change 64 with (2 ^ 6).
  rewrite !Z.mod_pow2_bits_low by lia. reflexivity.
Qed.

(** X2. [max14906_crc_decode] covers bits 5 down to 0 of the command
    byte and the whole data byte: a single-bit error there changes its
    result. It does not cover bits 7 and 6 of the command byte: the
    result is the same for a command byte and for its low six bits. *)
Theorem crc_decode_coverage (cmd data : Z) :
  (forall k, 0 <= k < 6 ->
     max14906_crc_decode [Z.lxor cmd (Z.shiftl 1 k); data]
     <> max14906_crc_decode [cmd; data])
  /\ (forall k, 0 <= k < 8 ->
        max14906_crc_decode [cmd; Z.lxor data (Z.shiftl 1 k)]
        <> max14906_crc_decode [cmd; data])
  /\ max14906_crc_decode [cmd mod 64; data] = max14906_crc_decode [cmd; data].
Proof.
  split; [|split].
  - intros k Hk. apply crc_decode_cmd_bit, Hk.
  - intros k Hk. apply crc_decode_data_bit, Hk.
  - apply crc_decode_low_six.
Qed.

Lemma flipped_byte (r k : Z) :
  0 <= r < 256 -> 0 <= k < 8 ->
  0 <= Z.lxor r (Z.shiftl 1 k) < 256
  /\ (6 <= k -> Z.lxor r (Z.shiftl 1 k) mod 64 = r mod 64).
Proof.
  intros Hr Hk.
  assert (Hall : forallb (fun r => forallb (flipped_byte_check r)
                                     (map Z.of_nat (seq 0 8)))
                         (map Z.of_nat (seq 0 256)) = true)
    by (vm_compute; reflexivity).
  pose proof (forallb_Z_below2 flipped_byte_check 256 8 Hall r k Hr Hk) as Hchk.
  unfold flipped_byte_check in Hchk.
  repeat (apply andb_prop in Hchk as [Hchk ?]).
  split; [lia|]. intros H6.
  destruct (k <? 6) eqn:Hlt; [lia|]. cbn [orb] in *. lia.
Qed.

End Crc5Errors.

(** *** Register and channel access on any platform *)

Section AccessProperties.

Context {W : Type} `{Platform W}.

Local Opaque max14906_crc_encode max14906_crc_decode command_byte.

(** X3. [max14906_reg_read] sends one frame: byte 0 carries the chip
    address, the register address and RW = 0, byte 1 is zero, with CRC
    enabled byte 2 is the encode CRC5 and the length is 3 instead of 2;
    a receive buffer is given and [cs_change] is set. When the transfer
    fails its error is returned and nothing is stored through [val];
    with CRC disabled a transfer that succeeded yields received byte 1
    with no check at all. *)
Theorem reg_read_frames_and_propagates
  (s : state W) (addr ret : Z) (rx : list Z) (w' : W) :
  let b0 := 64 * (chip_address (dev s) mod 4) + 2 * (addr mod 32) in
  let xfer := {| tx_buff := if crc_en (dev s)
                            then [b0; 0; max14906_crc_encode [b0; 0]]
                            else [b0; 0];
                 rx_buff := true;
                 bytes_number := if crc_en (dev s) then 3 else 2;
                 cs_change := 1 |} in
  buff_ok (dev s) ->
  no_os_spi_transfer xfer (world s) = (ret, rx, w') ->
  exists res s',
    max14906_reg_read addr s = (res, s')
    /\ trace s' = trace s ++ [EvSpiTransfer xfer]
    /\ world s' = w'
    /\ (ret <> 0 -> res = (ret, None))
    /\ (ret = 0 -> crc_en (dev s) = false ->
        forall r0 r1 rest, rx = r0 :: r1 :: rest -> res = (0, Some (r1 mod 256))).
Proof.
  cbv zeta. intros Hok Hx. unfold buff_ok in Hok.
  destruct (buff (dev s)) as [|x [|y [|z [|? ?]]]] eqn:Hb; try discriminate Hok.
  rewrite reg_read_run, (read_frame_explicit (dev s) addr x y z Hb).
  pose proof (command_byte_layout (chip_address (dev s)) addr 0) as Hl.
  change (0 mod 2) with 0 in Hl. rewrite Z.add_0_r in Hl. rewrite Hl.
  destruct (crc_en (dev s)) eqn:Hcrc; rewrite Hx; cbv zeta;
    cbn [bytes_number andb].
  - destruct (nonzero ret) eqn:Hnz.
    + eexists _, _. split; [reflexivity|]. split; [reflexivity|].
      split; [reflexivity|]. split; [reflexivity|]. discriminate.
    + unfold nonzero in Hnz. apply negb_false_iff, Z.eqb_eq in Hnz. subst ret.
      destruct (negb _); eexists _, _;
        (split; [reflexivity|]; split; [reflexivity|]; split; [reflexivity|];
         split; [intros Hne; contradiction|discriminate]).
  - destruct (nonzero ret) eqn:Hnz.
    + eexists _, _. split; [reflexivity|]. split; [reflexivity|].
      split; [reflexivity|]. split; [reflexivity|].
      intros ->. discriminate Hnz.
    + unfold nonzero in Hnz. apply negb_false_iff, Z.eqb_eq in Hnz. subst ret.
      eexists _, _. split; [reflexivity|]. split; [reflexivity|].
      split; [reflexivity|]. split; [intros Hne; contradiction|].
      intros _ _ r0 r1 rest ->. reflexivity.
Qed.

Lemma bus_only_ch_get (ch : Z) : bus_only (max14906_ch_get ch).
Proof.
  unfold max14906_ch_get. destruct (ch >=? MAX14906_CHANNELS);
    [apply bus_only_ret|].
  apply bus_only_bind; [apply bus_only_reg_read|].
  intros [ret val]. destruct (nonzero ret); apply bus_only_ret.
Qed.

Lemma bus_only_ch_set (ch val : Z) : bus_only (max14906_ch_set ch val).
Proof.
  unfold max14906_ch_set. destruct (ch >=? MAX14906_CHANNELS);
    [apply bus_only_ret|apply bus_only_reg_update].
Qed.

Lemma bus_only_climit_get (ch : Z) (climit : bool) :
  bus_only (max14906_climit_get ch climit).
Proof.
  unfold max14906_climit_get. destruct (negb climit); [apply bus_only_ret|].
  apply bus_only_bind; [apply bus_only_reg_read|].
  intros [ret val]. destruct (nonzero ret); apply bus_only_ret.
Qed.

(** X4. No register or channel operation calls anything of the platform
    but the SPI transfer, and none changes the enable handle, the CRC
    flag or the chip address of the descriptor or the length of its
    three-byte buffer. *)
Theorem operations_only_use_the_bus :
  (forall addr, bus_only (max14906_reg_read addr))
  /\ (forall addr val, bus_only (max14906_reg_write addr val))
  /\ (forall addr mask val, bus_only (max14906_reg_update addr mask val))
  /\ (forall ch, bus_only (max14906_ch_get ch))
  /\ (forall ch val, bus_only (max14906_ch_set ch val))
  /\ (forall ch function, bus_only (max14906_ch_func ch function))
  /\ (forall ch climit, bus_only (max14906_climit_set ch climit))
  /\ (forall ch climit, bus_only (max14906_climit_get ch climit)).
Proof.
  repeat split; intros.
  - apply bus_only_reg_read.
  - apply bus_only_reg_write.
  - apply bus_only_reg_update.
  - apply bus_only_ch_get.
  - apply bus_only_ch_set.
  - apply bus_only_ch_func.
  - apply bus_only_climit_set.
  - apply bus_only_climit_get.
Qed.

Lemma level_bit (ch v : Z) :
  0 <= ch < 4 -> 0 <= v < 256 ->
  no_os_field_get (MAX14906_DOI_LEVEL_MASK ch) v = Z.b2z (Z.testbit v ch).
Proof.
  intros Hch Hv. apply Z.eqb_eq.
  apply (forallb_Z_below2 level_bit_check 4 256); [|assumption|assumption].
  vm_compute. reflexivity.
Qed.

(** X5. For a channel below 4, [max14906_ch_get] is one read of the
    level register: a failed read returns its error and stores nothing,
    a read of [v] stores bit [ch] of [v], so the stored level is 0 or 1. *)
Theorem ch_get_yields_level_bit
  (s s1 : state W) (ch ret : Z) (out : option Z) :
  buff_ok (dev s) -> 0 <= ch < 4 ->
  max14906_reg_read MAX14906_DOILEVEL_REG s = (ret, out, s1) ->
  (ret <> 0 -> max14906_ch_get ch s = (ret, None, s1))
  /\ (ret = 0 ->
      exists v, out = Some v
        /\ max14906_ch_get ch s = (0, Some (Z.b2z (Z.testbit v ch)), s1)).
Proof.
  intros Hok Hch Hread.
  destruct (reg_read_value _ _ _ _ _ Hok Hread) as [Hnone Hsome].
  unfold max14906_ch_get, mbind.
  destruct (ch >=? MAX14906_CHANNELS) eqn:Hc; [unfold MAX14906_CHANNELS in Hc; lia|].
  rewrite Hread. unfold nonzero. split; intros Hret.
  - rewrite (Hnone Hret). apply Z.eqb_neq in Hret. rewrite Hret. reflexivity.
  - destruct (Hsome Hret) as (v & -> & Hv). subst ret.
    exists v. split; [reflexivity|]. cbn [Z.eqb negb fmap option_fmap option_map].
    unfold mret. rewrite (level_bit ch v Hch Hv). reflexivity.
Qed.

(** What [max14906_reg_read] makes of a three-byte answer when CRC is
    enabled. *)
Lemma reg_read_crc_answer (s : state W) (addr a b c : Z) (w' : W) :
  crc_en (dev s) = true -> buff_ok (dev s) ->
  0 <= a < 256 -> 0 <= b < 256 -> 0 <= c < 256 ->
  no_os_spi_transfer (snd (read_frame (dev s) addr)) (world s) = (0, [a; b; c], w') ->
  fst (max14906_reg_read addr s)
  = if max14906_crc_decode [a; b] =? c then (0, Some b) else (- EINVAL, None).
Proof.
  intros Hcrc Hok Ha Hb Hc Hx. unfold buff_ok in Hok.
  destruct (buff (dev s)) as [|x [|y [|z [|? ?]]]] eqn:Hbuf; try discriminate Hok.
  rewrite reg_read_run.
  rewrite (read_frame_explicit (dev s) addr x y z Hbuf) in Hx |- *.
  rewrite Hcrc in Hx |- *. cbn [snd] in Hx. rewrite Hx. cbv zeta.
  cbn [bytes_number andb nonzero Z.eqb negb].
  change (Z.to_nat 3) with 3%nat. cbn [store_rx].
  rewrite !to_u8_small by assumption.
  cbn [lookup_total list_lookup_total].
  rewrite (crc_decode_divide a b [c]), <- (crc_decode_divide a b []).
  destruct (max14906_crc_decode [a; b] =? c); reflexivity.
Qed.

(** X16. With CRC enabled, [max14906_reg_read] accepts an answer whose
    byte 2 is the decode CRC5 of bytes 0 and 1 and yields byte 1. It
    rejects the answer with [-EINVAL], storing nothing, when one bit of
    byte 1, one bit of the CRC byte, or one of bits 5 down to 0 of byte 0
    is flipped. A flipped bit 7 or 6 of byte 0 is not noticed: the
    answer is accepted. *)
Theorem reg_read_rejects_single_bit_errors
  (s : state W) (addr r0 r1 k : Z) (rx : list Z) (w' : W) :
  let crc := max14906_crc_decode [r0; r1] in
  let flip := fun x => Z.lxor x (Z.shiftl 1 k) in
  crc_en (dev s) = true -> buff_ok (dev s) ->
  0 <= r0 < 256 -> 0 <= r1 < 256 -> 0 <= k < 8 ->
  no_os_spi_transfer (snd (read_frame (dev s) addr)) (world s) = (0, rx, w') ->
  (rx = [r0; r1; crc] -> fst (max14906_reg_read addr s) = (0, Some r1))
  /\ (rx = [r0; flip r1; crc] -> fst (max14906_reg_read addr s) = (- EINVAL, None))
  /\ (rx = [r0; r1; flip crc] -> fst (max14906_reg_read addr s) = (- EINVAL, None))
  /\ (rx = [flip r0; r1; crc] ->
      fst (max14906_reg_read addr s)
      = if k <? 6 then (- EINVAL, None) else (0, Some r1)).
Proof.
  cbv zeta. intros Hcrc Hok H0 H1 Hk Hx.
  pose proof (crc_decode_range r0 r1 []) as Hc.
  assert (Hc' : 0 <= max14906_crc_decode [r0; r1] < 256) by lia.
  destruct (flipped_byte r0 k H0 Hk) as [Hf0 Hhigh].
  destruct (flipped_byte r1 k H1 Hk) as [Hf1 _].
  destruct (flipped_byte (max14906_crc_decode [r0; r1]) k Hc' Hk) as [Hfc _].
  split; [|split; [|split]]; intros ->.
  - rewrite (reg_read_crc_answer s addr _ _ _ w' Hcrc Hok H0 H1 Hc' Hx).
    rewrite Z.eqb_refl. reflexivity.
  - rewrite (reg_read_crc_answer s addr _ _ _ w' Hcrc Hok H0 Hf1 Hc' Hx).
    pose proof (crc_decode_data_bit r0 r1 k Hk) as Hne.
    apply Z.eqb_neq in Hne. rewrite Hne. reflexivity.
  - rewrite (reg_read_crc_answer s addr _ _ _ w' Hcrc Hok H0 H1 Hfc Hx).
    assert (Hne : max14906_crc_decode [r0; r1]
                  <> Z.lxor (max14906_crc_decode [r0; r1]) (Z.shiftl 1 k)).
    { intros Heq. symmetry in Heq. revert Heq. apply lxor_changes.
      rewrite Z.shiftl_1_l. apply Z.pow_nonzero; lia. }
    apply Z.eqb_neq in Hne. rewrite Hne. reflexivity.
  - rewrite (reg_read_crc_answer s addr _ _ _ w' Hcrc Hok Hf0 H1 Hc' Hx).
    destruct (k <? 6) eqn:Hlt.
    + pose proof (crc_decode_cmd_bit r0 r1 k ltac:(lia)) as Hne.
      apply Z.eqb_neq in Hne. rewrite Hne. reflexivity.
    + rewrite <- (crc_decode_low_six (Z.lxor r0 (Z.shiftl 1 k)) r1).
      rewrite Hhigh by lia. rewrite crc_decode_low_six, Z.eqb_refl. reflexivity.
Qed.

End AccessProperties.

(** *** Init and remove on any platform *)

Section LifecycleProperties.

Context {W : Type} `{Platform W}.

Lemma init_alloc_fails
  (param : max14906_init_param) (w w1 : W) (tr : list event) :
  no_os_calloc w = (false, w1) ->
  exists s',
    max14906_init param w tr = (- ENOMEM, None, s')
    /\ world s' = w1 /\ trace s' = tr ++ [EvCalloc].
Proof.
  intros Hc. unfold max14906_init. rewrite Hc. cbn [negb].
  eexists. split; [reflexivity|]. split; reflexivity.
Qed.

Lemma init_spi_init_fails
  (param : max14906_init_param) (w w1 w2 : W) (tr : list event) (r : Z) :
  no_os_calloc w = (true, w1) -> no_os_spi_init w1 = (r, w2) -> r <> 0 ->
  exists s',
    max14906_init param w tr = (r, None, s')
    /\ world s' = no_os_free w2
    /\ trace s' = tr ++ [EvCalloc; EvSpiInit; EvFree].
Proof.
  intros Hc Hs Hr. unfold max14906_init. rewrite Hc. cbn [negb].
  unfold init_body. unfold mbind at 1. unfold call at 1.
  cbn [dev world trace]. rewrite Hs.
  unfold nonzero. apply Z.eqb_neq in Hr. rewrite Hr. cbn [negb].
  unfold init_err, mbind, call, mret. cbn [dev world trace].
  eexists. split; [reflexivity|]. split; [reflexivity|].
  cbn [trace]. rewrite <- !app_assoc. reflexivity.
Qed.

(** X6. When the allocation fails, [max14906_init] returns [-ENOMEM]
    after that one call; when [no_os_spi_init] fails, it returns that
    error after freeing the descriptor, without touching GPIO or bus. In
    both cases nothing is stored through the caller's pointer. *)
Theorem init_fails_before_the_transport_is_acquired
  (param : max14906_init_param) (w : W) (tr : list event) :
  (forall w1,
     no_os_calloc w = (false, w1) ->
     exists s',
       max14906_init param w tr = (- ENOMEM, None, s')
       /\ world s' = w1 /\ trace s' = tr ++ [EvCalloc])
  /\ (forall w1 r w2,
        no_os_calloc w = (true, w1) -> no_os_spi_init w1 = (r, w2) -> r <> 0 ->
        exists s',
          max14906_init param w tr = (r, None, s')
          /\ world s' = no_os_free w2
          /\ trace s' = tr ++ [EvCalloc; EvSpiInit; EvFree]).
Proof.
  split.
  - intros w1. apply init_alloc_fails.
  - intros w1 r w2. apply init_spi_init_fails.
Qed.

Lemma not_cleanup_of_transfers (l : list event) :
  forallb is_transfer l = true -> forallb (fun ev => negb (is_cleanup ev)) l = true.
Proof.
  rewrite !forallb_forall. intros Hl ev Hin.
  specialize (Hl ev Hin). destruct ev; try discriminate Hl; reflexivity.
Qed.

(** An init that succeeded went through the configuration phase; the
    state in which that phase started. *)
Lemma init_success_start
  (param : max14906_init_param) (w : W) (tr : list event)
  (out : option max14906_desc) (s' : state W) :
  max14906_init param w tr = (0, out, s') ->
  exists s0 pre,
    crc_en (dev s0) = param_crc_en param /\ chip_address (dev s0) = 0
    /\ buff_ok (dev s0)
    /\ trace s0 = tr ++ [EvCalloc; EvSpiInit; EvGpioGetOptional] ++ pre
    /\ forallb (fun ev => negb (is_cleanup ev)) pre = true
    /\ init_config s0 = (0, out, s').
Proof.
  intros Hrun.
  destruct (no_os_calloc w) as [[|] w1] eqn:Hc.
  2: { destruct (init_alloc_fails param w w1 tr Hc) as (s1 & Hrun1 & _).
       rewrite Hrun1 in Hrun. discriminate Hrun. }
  destruct (no_os_spi_init w1) as [r1 w2] eqn:Hs.
  destruct (Z.eq_dec r1 0) as [->|Hr1].
  2: { destruct (init_spi_init_fails param w w1 w2 tr r1 Hc Hs Hr1)
         as (s1 & Hrun1 & _).
       rewrite Hrun1 in Hrun. injection Hrun as -> _ _. contradiction. }
  destruct (no_os_gpio_get_optional w2) as [[e h] w3] eqn:Hg.
  destruct (init_reaches_config param w w1 w2 w3 tr e h Hc Hs Hg) as [Hne Heq].
  destruct (Z.eq_dec e 0) as [->|He].
  - destruct (no_os_gpio_set_value h NO_OS_GPIO_HIGH w3) as [r w4] eqn:Hv.
    rewrite (Heq eq_refl r w4 eq_refl) in Hrun.
    destruct (nonzero r) eqn:Hnz.
    + destruct (init_gpio_err_effect _ _ _ _ _ Hrun) as (<- & _).
      discriminate Hnz.
    + eexists _, [EvGpioSetValue h NO_OS_GPIO_HIGH].
      split; [|split; [|split; [|split; [|split; [|exact Hrun]]]]];
        try reflexivity.
      cbn [trace]. rewrite <- !app_assoc. reflexivity.
  - rewrite (Hne He) in Hrun.
    eexists _, []. 
    split; [|split; [|split; [|split; [|split; [|exact Hrun]]]]];
      try reflexivity.
Qed.

(** X7. When [max14906_init] succeeds, the descriptor it hands out
    carries the CRC flag of the parameters, chip address 0 and a
    three-byte buffer; the platform calls were the allocation, the SPI
    init and the GPIO acquisition, followed by calls none of which
    releases anything. *)
Theorem init_success_hands_out_configured_descriptor
  (param : max14906_init_param) (w : W) (tr : list event)
  (ret : Z) (out : option max14906_desc) (s' : state W) :
  max14906_init param w tr = (ret, out, s') ->
  ret = 0 ->
  out = Some (dev s')
  /\ crc_en (dev s') = param_crc_en param
  /\ chip_address (dev s') = 0
  /\ buff_ok (dev s')
  /\ exists new,
       trace s' = tr ++ [EvCalloc; EvSpiInit; EvGpioGetOptional] ++ new
       /\ forallb (fun ev => negb (is_cleanup ev)) new = true.
Proof.
  intros Hrun ->.
  destruct (init_success_start param w tr out s' Hrun)
    as (s0 & pre & Hcrc & Hchip & Hok & Ht & Hpre & Hcfg).
  pose proof (init_config_ends_well s0 Hok) as Hend. rewrite Hcfg in Hend.
  destruct Hend as [(_ & Hout & new & Htr & Hnew & (_ & Hc1 & Hc2) & Hok')
                   |(Hne & _)]; [|contradiction].
  split; [exact Hout|]. split; [congruence|]. split; [congruence|].
  split; [exact Hok'|].
  exists (pre ++ new). split.
  - rewrite Htr, Ht, <- !app_assoc. reflexivity.
  - rewrite forallb_app, Hpre, (not_cleanup_of_transfers _ Hnew). reflexivity.
Qed.

Lemma bus_only_high_z_steps : Forall bus_only high_z_steps.
Proof.
  unfold high_z_steps. cbn [map]. repeat constructor; apply bus_only_ch_func.
Qed.

(** [max14906_remove] on a descriptor, with its channel loop as a list
    of steps. *)
Lemma remove_steps (s : state W) :
  max14906_remove true s
  = mbind (run_until_failure high_z_steps)
      (fun ret =>
         if nonzero ret then mret ret else
         ret <- call EvSpiRemove no_os_spi_remove ;;
         if nonzero ret then mret ret else
         d <- get_dev ;;
         ret <- match enable d with
                | Some _ => call (EvGpioSetValue (enable d) NO_OS_GPIO_HIGH_Z)
                                 (no_os_gpio_set_value (enable d) NO_OS_GPIO_HIGH_Z)
                | None => mret 0
                end ;;
         if nonzero ret then mret ret else
         call EvFree (fun w => (tt, no_os_free w)) ;;;
         mret 0) s.
Proof. reflexivity. Qed.

(** X8. [max14906_remove] on a descriptor first issues transfers only
    (the channels going to high-Z); when it returns 0 it then called
    [no_os_spi_remove], drove the enable line to high-Z if the
    descriptor has one, and freed the descriptor last. When it returns
    an error it stopped at the step that failed: when the step of a
    channel fails, remove returns that error in the state the step left,
    so that only transfers were issued and neither the transport is
    released nor the descriptor freed; when [no_os_spi_remove] fails it
    is the last call, and when driving the enable line fails that call
    is the last, the descriptor not being freed. It never calls
    [no_os_gpio_remove]. *)
Theorem remove_releases_in_order_and_stops_at_failure
  (s s' : state W) (ret : Z) :
  let gpio := match enable (dev s) with
              | Some _ => [EvGpioSetValue (enable (dev s)) NO_OS_GPIO_HIGH_Z]
              | None => []
              end in
  buff_ok (dev s) ->
  max14906_remove true s = (ret, s') ->
  (exists xfers tail,
     trace s' = trace s ++ xfers ++ tail
     /\ forallb is_transfer xfers = true
     /\ (ret = 0 -> tail = EvSpiRemove :: gpio ++ [EvFree])
     /\ (ret <> 0 ->
         tail = [] \/ tail = [EvSpiRemove] \/ (tail = EvSpiRemove :: gpio /\ gpio <> [])))
  /\ (forall pre m post sk sk' r,
        high_z_steps = pre ++ m :: post ->
        run_until_failure pre s = (0, sk) ->
        m sk = (r, sk') -> r <> 0 ->
        ret = r /\ s' = sk'
        /\ exists xfers,
             trace s' = trace s ++ xfers /\ forallb is_transfer xfers = true)
  /\ (forall s1 r2 w2,
        run_until_failure high_z_steps s = (0, s1) ->
        no_os_spi_remove (world s1) = (r2, w2) ->
        (r2 <> 0 -> ret = r2 /\ trace s' = trace s1 ++ [EvSpiRemove])
        /\ (r2 = 0 ->
            forall r3 w3,
              enable (dev s) <> None ->
              no_os_gpio_set_value (enable (dev s)) NO_OS_GPIO_HIGH_Z w2 = (r3, w3) ->
              r3 <> 0 ->
              ret = r3
              /\ trace s'
                 = trace s1
                   ++ [EvSpiRemove; EvGpioSetValue (enable (dev s)) NO_OS_GPIO_HIGH_Z])).
Proof.
  cbv zeta. intros Hok Hrun. split; [|split].
  { unfold max14906_remove in Hrun. cbn [negb] in Hrun. unfold mbind at 1 in Hrun.
  destruct (for_ret (Z.to_nat MAX14906_CHANNELS) 0
              (fun i => max14906_ch_func i MAX14906_HIGH_Z) s) as [r1 s1] eqn:Hloop.
  pose proof (bus_only_for_ret _ _
                (fun i => bus_only_ch_func i MAX14906_HIGH_Z) _ _ _ _ Hok Hloop)
    as (xfers & Ht1 & Hx & (He & _) & _).
  exists xfers.
  destruct (nonzero r1) eqn:N1.
  { injection Hrun as <- <-. exists []. rewrite app_nil_r.
    split; [exact Ht1|]. split; [exact Hx|].
    unfold nonzero in N1. apply negb_true_iff, Z.eqb_neq in N1.
    split; [intros Hz; contradiction|intros _; left; reflexivity]. }
  unfold mbind at 1 in Hrun. unfold call at 1 in Hrun.
  destruct (no_os_spi_remove (world s1)) as [r2 w2].
  destruct (nonzero r2) eqn:N2.
  { injection Hrun as <- <-. exists [EvSpiRemove]. cbn [trace].
    split; [rewrite Ht1, <- app_assoc; reflexivity|]. split; [exact Hx|].
    unfold nonzero in N2. apply negb_true_iff, Z.eqb_neq in N2.
    split; [intros Hz; contradiction|intros _; right; left; reflexivity]. }
  unfold mbind at 1 in Hrun. unfold get_dev at 1 in Hrun. cbn [dev] in Hrun.
  rewrite He in Hrun.
  destruct (enable (dev s)) as [g|] eqn:Hen.
  - unfold mbind at 1 in Hrun. unfold call at 1 in Hrun.
    cbn [dev world trace] in Hrun.
    destruct (no_os_gpio_set_value (Some g) NO_OS_GPIO_HIGH_Z w2) as [r3 w3].
    destruct (nonzero r3) eqn:N3.
    + injection Hrun as <- <-.
      exists [EvSpiRemove; EvGpioSetValue (Some g) NO_OS_GPIO_HIGH_Z]. cbn [trace].
      split; [rewrite Ht1, <- !app_assoc; reflexivity|]. split; [exact Hx|].
      unfold nonzero in N3. apply negb_true_iff, Z.eqb_neq in N3.
      split; [intros Hz; contradiction|].
      intros _. right; right. split; [reflexivity|discriminate].
    + unfold mbind, call, mret in Hrun. cbn [dev world trace] in Hrun.
      injection Hrun as <- <-.
      exists [EvSpiRemove; EvGpioSetValue (Some g) NO_OS_GPIO_HIGH_Z; EvFree].
      cbn [trace].
      split; [rewrite Ht1, <- !app_assoc; reflexivity|]. split; [exact Hx|].
      split; [reflexivity|intros Hne; contradiction].
  - unfold mbind, call, mret in Hrun. cbn [dev world trace nonzero Z.eqb negb] in Hrun.
    injection Hrun as <- <-.
    exists [EvSpiRemove; EvFree]. cbn [trace].
    split; [rewrite Ht1, <- !app_assoc; reflexivity|]. split; [exact Hx|].
    split; [reflexivity|intros Hne; contradiction]. }
  - intros pre m post sk sk' r Hsteps Hpre Hm Hr.
    pose proof (run_until_failure_first_failure pre post m s sk sk' r Hpre Hm Hr)
      as Hfail.
    rewrite <- Hsteps in Hfail.
    pose proof (bus_only_run_until_failure _ bus_only_high_z_steps _ _ _ Hok Hfail)
      as (xfers & Ht & Hx & _).
    rewrite remove_steps in Hrun. unfold mbind at 1 in Hrun. rewrite Hfail in Hrun.
    unfold nonzero at 1 in Hrun. apply Z.eqb_neq in Hr. rewrite Hr in Hrun.
    cbn [negb] in Hrun. injection Hrun as <- <-.
    split; [reflexivity|]. split; [reflexivity|].
    exists xfers. split; [exact Ht|exact Hx].
  - intros s1 r2 w2 Hloop Hspi.
    pose proof (bus_only_run_until_failure _ bus_only_high_z_steps _ _ _ Hok Hloop)
      as (_ & _ & _ & (He & _) & _).
    rewrite remove_steps in Hrun. unfold mbind at 1 in Hrun. rewrite Hloop in Hrun.
    cbn [nonzero Z.eqb negb] in Hrun.
    unfold mbind at 1 in Hrun. unfold call at 1 in Hrun. rewrite Hspi in Hrun.
    split.
    + intros Hr2. unfold nonzero at 1 in Hrun. apply Z.eqb_neq in Hr2.
      rewrite Hr2 in Hrun. cbn [negb] in Hrun. injection Hrun as <- <-.
      split; reflexivity.
    + intros -> r3 w3 Hen Hset Hr3. cbn [nonzero Z.eqb negb] in Hrun.
      unfold mbind at 1 in Hrun. unfold get_dev at 1 in Hrun. cbn [dev] in Hrun.
      rewrite He in Hrun.
      destruct (enable (dev s)) as [g|]; [|contradiction].
      unfold mbind at 1 in Hrun. unfold call at 1 in Hrun.
      cbn [dev world trace] in Hrun. rewrite Hset in Hrun.
      unfold nonzero at 1 in Hrun. apply Z.eqb_neq in Hr3. rewrite Hr3 in Hrun.
      cbn [negb] in Hrun. injection Hrun as <- <-.
      split; [reflexivity|]. cbn [trace]. rewrite <- app_assoc. reflexivity.
Qed.

End LifecycleProperties.

(** *** The driver against the register file *)

Module StubProperties.

Import Stub StubInit.

Lemma reg_merge_bits (v mask val i : Z) :
  0 <= i < 8 ->
  Z.testbit (reg_merge (to_u8 v) mask val) i
  = if Z.testbit mask i then Z.testbit val i else Z.testbit v i.
Proof.
  intros Hi. unfold reg_merge, to_u8. change 256 with (2 ^ 8).
  rewrite Z.mod_pow2_bits_low by lia.
  rewrite Z.lor_spec, !Z.land_spec, Z.lnot_spec by lia.
  rewrite Z.mod_pow2_bits_low by lia.
  destruct (Z.testbit mask i), (Z.testbit val i), (Z.testbit v i); reflexivity.
Qed.

Lemma to_u8_bits_high (x i : Z) : 8 <= i -> Z.testbit (to_u8 x) i = false.
Proof.
  intros Hi. unfold to_u8. change 256 with (2 ^ 8).
  apply Z.mod_pow2_bits_high. lia.
Qed.

(** A mask that selects no bit of a byte leaves the byte as it is. *)
Lemma reg_merge_outside_byte (v mask val : Z) :
  (forall i, 0 <= i < 8 -> Z.testbit mask i = false) ->
  reg_merge (to_u8 v) mask val = to_u8 v.
Proof.
  intros Hmask. apply Z.bits_inj'. intros i Hi.
  destruct (Z.lt_ge_cases i 8) as [Hlt|Hge].
  - rewrite reg_merge_bits, Hmask by lia.
    unfold to_u8. change 256 with (2 ^ 8).
    rewrite Z.mod_pow2_bits_low by lia. reflexivity.
  - unfold reg_merge. rewrite !to_u8_bits_high by assumption. reflexivity.
Qed.

Lemma mask_bits (ch i : Z) :
  0 <= ch < 4 -> 0 <= i < 8 ->
  Z.testbit (MAX14906_HIGHO_MASK ch) i = (i =? ch)
  /\ Z.testbit (MAX14906_CH_DIR_MASK ch) i = (i =? ch + 4)
  /\ Z.testbit (MAX14906_DO_MASK ch) i = ((i =? 2 * ch) || (i =? 2 * ch + 1))
  /\ Z.testbit (MAX14906_CL_MASK ch) i = ((i =? 2 * ch) || (i =? 2 * ch + 1)).
Proof.
  intros Hch Hi.
  assert (Hall : forallb (fun ch => forallb (mask_bits_check ch)
                                     (map Z.of_nat (seq 0 8)))
                         (map Z.of_nat (seq 0 4)) = true)
    by (vm_compute; reflexivity).
  pose proof (forallb_Z_below2 mask_bits_check 4 8 Hall ch i Hch Hi) as Hchk.
  unfold mask_bits_check in Hchk.
  repeat (apply andb_prop in Hchk as [Hchk ?]).
  repeat split; apply Bool.eqb_prop; assumption.
Qed.

Lemma mask_outside_byte (ch i : Z) :
  4 <= ch < 16 -> 0 <= i < 8 ->
  Z.testbit (MAX14906_CH_DIR_MASK ch) i = false
  /\ Z.testbit (MAX14906_DO_MASK ch) i = false
  /\ Z.testbit (MAX14906_CL_MASK ch) i = false.
Proof.
  intros Hch Hi.
  assert (Hall : forallb (fun ch => forallb (mask_outside_byte_check ch)
                                     (map Z.of_nat (seq 0 8)))
                         (map Z.of_nat (seq 0 16)) = true)
    by (vm_compute; reflexivity).
  pose proof (forallb_Z_below2 mask_outside_byte_check 16 8 Hall ch i
                ltac:(lia) Hi) as Hchk.
  unfold mask_outside_byte_check in Hchk.
  destruct (ch <? 4) eqn:Hlt; [lia|]. cbn [orb] in Hchk.
  repeat (apply andb_prop in Hchk as [Hchk ?]).
  repeat split; apply negb_true_iff; assumption.
Qed.

Section WithOutcomes.

Variable o : outcomes.

(** X9. On the register file a write followed by a read of the same
    address yields the written value as a byte, with or without CRC; the
    address is taken modulo 32, and a read of a register at another
    address yields what that register held before. *)
Theorem write_then_read_round_trip (s : state regfile) (addr val : Z) :
  buff_ok (dev s) ->
  exists s1 s2,
    max14906_reg_write (H := platform o) addr val s = (0, s1)
    /\ max14906_reg_read (H := platform o) addr s1 = (0, Some (val mod 256), s2)
    /\ (forall addr', addr' mod 32 <> addr mod 32 ->
        fst (max14906_reg_read (H := platform o) addr' s1)
        = (0, Some (to_u8 (world s (addr' mod 32))))).
Proof.
  intros Hok.
  destruct (stub_write_step o s addr val Hok) as (s1 & Hw & Hworld & B1 & _).
  pose proof (bus_step_ok _ _ B1) as Hok1.
  destruct (stub_read_step o s1 addr Hok1) as (s2 & Hr & _).
  exists s1, s2. split; [exact Hw|]. split.
  - rewrite Hr, Hworld, reg_set_same, StubFacts.to_u8_idem. reflexivity.
  - intros addr' Hne.
    destruct (stub_read_step o s1 addr' Hok1) as (s3 & Hr' & _).
    rewrite Hr', Hworld, reg_set_other by assumption. reflexivity.
Qed.

(** X10. On the register file [max14906_reg_update] succeeds and changes
    only the bits the mask selects: each bit of the register byte takes
    the bit of [val] where the mask has a 1 and stays as it was where
    the mask has a 0; all other registers stay as they were. *)
Theorem reg_update_changes_only_masked_bits (s : state regfile) (addr mask val : Z) :
  buff_ok (dev s) ->
  exists s',
    max14906_reg_update (H := platform o) addr mask val s = (0, s')
    /\ (forall i, 0 <= i < 8 ->
        Z.testbit (world s' (addr mod 32)) i
        = if Z.testbit mask i then Z.testbit val i
          else Z.testbit (world s (addr mod 32)) i)
    /\ (forall a, a <> addr mod 32 -> world s' a = world s a).
Proof.
  intros Hok.
  destruct (stub_update_step o s addr mask val Hok) as (s' & Hrun & Hw & _).
  exists s'. split; [exact Hrun|]. split.
  - intros i Hi. rewrite Hw, reg_set_same. apply reg_merge_bits, Hi.
  - intros a Ha. rewrite Hw. apply reg_set_other, Ha.
Qed.

(** X11. On the register file [max14906_ch_set] of a channel below 4
    succeeds, makes bit [ch] of SETOUT 1 for every nonzero [val] and 0
    for [val = 0], and leaves the other bits of SETOUT and all other
    registers as they were. *)
Theorem ch_set_sets_only_its_bit (s : state regfile) (ch val : Z) :
  buff_ok (dev s) -> 0 <= ch < 4 ->
  exists s',
    max14906_ch_set (H := platform o) ch val s = (0, s')
    /\ Z.testbit (world s' MAX14906_SETOUT_REG) ch = negb (val =? 0)
    /\ (forall i, 0 <= i < 8 -> i <> ch ->
        Z.testbit (world s' MAX14906_SETOUT_REG) i
        = Z.testbit (world s MAX14906_SETOUT_REG) i)
    /\ (forall a, a <> MAX14906_SETOUT_REG -> world s' a = world s a).
Proof.
  intros Hok Hch. unfold max14906_ch_set.
  destruct (ch >=? MAX14906_CHANNELS) eqn:Hc; [unfold MAX14906_CHANNELS in Hc; lia|].
  destruct (stub_update_step o s MAX14906_SETOUT_REG (MAX14906_HIGHO_MASK ch)
              (if nonzero val then MAX14906_HIGHO_MASK ch else 0) Hok)
    as (s' & Hrun & Hw & _).
  change (MAX14906_SETOUT_REG mod 32) with MAX14906_SETOUT_REG in Hw.
  exists s'. split; [exact Hrun|]. split; [|split].
  - rewrite Hw, reg_set_same, reg_merge_bits by lia.
    destruct (mask_bits ch ch Hch ltac:(lia)) as (Hm & _).
    rewrite Hm, Z.eqb_refl. unfold nonzero.
    destruct (val =? 0); cbn [negb]; [apply Z.bits_0|].
    rewrite Hm. apply Z.eqb_refl.
  - intros i Hi Hne. rewrite Hw, reg_set_same, reg_merge_bits by assumption.
    destruct (mask_bits ch i Hch Hi) as (Hm & _). rewrite Hm.
    apply Z.eqb_neq in Hne. rewrite Hne. reflexivity.
  - intros a Ha. rewrite Hw. apply reg_set_other, Ha.
Qed.

Lemma stub_climit_get (s : state regfile) (ch : Z) :
  buff_ok (dev s) ->
  fst (max14906_climit_get (H := platform o) ch true s)
  = (0, Some (no_os_field_get (MAX14906_CL_MASK ch)
                (to_u8 (world s MAX14906_CONFIG_CURR_LIM)))).
Proof.
  intros Hok. unfold max14906_climit_get, mbind. cbn [negb].
  destruct (stub_read_step o s MAX14906_CONFIG_CURR_LIM Hok) as (s1 & Hr & _).
  rewrite Hr. reflexivity.
Qed.

Lemma climit_field_written (c : max14906_climit) (ch v : Z) :
  0 <= ch < 4 -> 0 <= v < 256 ->
  no_os_field_get (MAX14906_CL_MASK ch)
    (reg_merge v (MAX14906_CL_MASK ch)
       (no_os_field_prep (MAX14906_CL_MASK ch) (climit_value c)))
  = climit_value c.
Proof.
  intros Hch Hv. apply Z.eqb_eq.
  apply (forallb_Z_below2
           (fun ch v => field_after_update (MAX14906_CL_MASK ch) (climit_value c) v)
           4 256); [|assumption|assumption].
  destruct c; vm_compute; reflexivity.
Qed.

Lemma climit_field_kept (c : max14906_climit) (ch ch' v : Z) :
  0 <= ch < 4 -> 0 <= ch' < 4 -> ch' <> ch -> 0 <= v < 256 ->
  no_os_field_get (MAX14906_CL_MASK ch')
    (reg_merge v (MAX14906_CL_MASK ch)
       (no_os_field_prep (MAX14906_CL_MASK ch) (climit_value c)))
  = no_os_field_get (MAX14906_CL_MASK ch') v.
Proof.
  intros Hch Hch' Hne Hv.
  assert (Hall : forallb (fun ch => forallb (fun ch' =>
            forallb (field_kept_check MAX14906_CL_MASK (climit_value c) ch ch')
                    (map Z.of_nat (seq 0 256)))
            (map Z.of_nat (seq 0 4))) (map Z.of_nat (seq 0 4)) = true)
    by (destruct c; vm_compute; reflexivity).
  pose proof (forallb_Z_below2 _ 4 4 Hall ch ch' Hch Hch') as Hrow.
  cbv beta in Hrow.
  pose proof (forallb_Z_below _ 256 Hrow v Hv) as Hchk.
  unfold field_kept_check in Hchk.
  apply orb_prop in Hchk as [Heq|Heq]; [apply Z.eqb_eq in Heq; lia|].
  apply Z.eqb_eq, Heq.
Qed.

(** X12. On the register file, setting the current limit of a channel
    below 4 and getting it again yields the limit that was set; the
    limits of the other channels read as before, and only the
    current-limit register changes. *)
Theorem climit_set_then_get (s : state regfile) (ch : Z) (c : max14906_climit) :
  buff_ok (dev s) -> 0 <= ch < 4 ->
  exists s1,
    max14906_climit_set (H := platform o) ch c s = (0, s1)
    /\ fst (max14906_climit_get (H := platform o) ch true s1)
       = (0, Some (climit_value c))
    /\ (forall ch', 0 <= ch' < 4 -> ch' <> ch ->
        fst (max14906_climit_get (H := platform o) ch' true s1)
        = fst (max14906_climit_get (H := platform o) ch' true s))
    /\ (forall a, a <> MAX14906_CONFIG_CURR_LIM -> world s1 a = world s a).
Proof.
  intros Hok Hch. unfold max14906_climit_set.
  destruct (stub_update_step o s MAX14906_CONFIG_CURR_LIM (MAX14906_CL_MASK ch)
              (no_os_field_prep (MAX14906_CL_MASK ch) (climit_value c)) Hok)
    as (s1 & Hrun & Hw & B1 & _).
  change (MAX14906_CONFIG_CURR_LIM mod 32) with MAX14906_CONFIG_CURR_LIM in Hw.
  pose proof (bus_step_ok _ _ B1) as Hok1.
  pose proof (to_u8_range (world s MAX14906_CONFIG_CURR_LIM)) as Hv.
  exists s1. split; [exact Hrun|]. split; [|split].
  - rewrite (stub_climit_get s1 ch Hok1), Hw, reg_set_same, reg_merge_byte.
    rewrite climit_field_written by assumption. reflexivity.
  - intros ch' Hch' Hne.
    rewrite (stub_climit_get s1 ch' Hok1), (stub_climit_get s ch' Hok).
    rewrite Hw, reg_set_same, reg_merge_byte.
    rewrite climit_field_kept by assumption. reflexivity.
  - intros a Ha. rewrite Hw. apply reg_set_other, Ha.
Qed.

(** What [max14906_ch_func] leaves on the register file. *)
Lemma stub_ch_func (s : state regfile) (ch : Z) (function : max14906_function) :
  buff_ok (dev s) ->
  let d := reg_merge (to_u8 (world s MAX14906_CONFIG_DO_REG)) (MAX14906_DO_MASK ch)
             (no_os_field_prep (MAX14906_DO_MASK ch)
                (do_mode_value (mode_of function))) in
  let t := reg_merge (to_u8 (world s MAX14906_SETOUT_REG)) (MAX14906_CH_DIR_MASK ch)
             (no_os_field_prep (MAX14906_CH_DIR_MASK ch) (direction_of function)) in
  exists s',
    max14906_ch_func (H := platform o) ch function s = (0, s')
    /\ bus_step s s'
    /\ world s'
       = reg_set (match function with
                  | MAX14906_OUT => world s
                  | _ => reg_set (world s) MAX14906_CONFIG_DO_REG d
                  end) MAX14906_SETOUT_REG t
    /\ accesses (trace s')
       = accesses (trace s)
         ++ match function with
            | MAX14906_OUT => []
            | _ => [RegRead MAX14906_CONFIG_DO_REG; RegWrite MAX14906_CONFIG_DO_REG d]
            end
         ++ [RegRead MAX14906_SETOUT_REG; RegWrite MAX14906_SETOUT_REG t].
Proof.
  intros Hok. cbv zeta.
  destruct function; unfold max14906_ch_func, mbind; cbn [mode_of direction_of].
  - unfold mret. cbn [nonzero Z.eqb negb].
    destruct (stub_update_step o s MAX14906_SETOUT_REG (MAX14906_CH_DIR_MASK ch)
                (no_os_field_prep (MAX14906_CH_DIR_MASK ch)
                   (function_value MAX14906_OUT)) Hok)
      as (s1 & Hrun & Hw & B1 & Ha).
    exists s1. split; [exact Hrun|]. split; [exact B1|].
    split; [exact Hw|exact Ha].
  - destruct (stub_update_step o s MAX14906_CONFIG_DO_REG (MAX14906_DO_MASK ch)
                (no_os_field_prep (MAX14906_DO_MASK ch)
                   (do_mode_value MAX14906_HIGH_SIDE)) Hok)
      as (s1 & Hrun1 & Hw1 & B1 & Ha1).
    rewrite Hrun1. cbn [nonzero Z.eqb negb].
    destruct (stub_update_step o s1 MAX14906_SETOUT_REG (MAX14906_CH_DIR_MASK ch)
                (no_os_field_prep (MAX14906_CH_DIR_MASK ch)
                   (function_value MAX14906_IN)) (bus_step_ok _ _ B1))
      as (s2 & Hrun2 & Hw2 & B2 & Ha2).
    change (MAX14906_CONFIG_DO_REG mod 32) with MAX14906_CONFIG_DO_REG in *.
    change (MAX14906_SETOUT_REG mod 32) with MAX14906_SETOUT_REG in *.
    rewrite Hw1 in Hw2, Ha2. rewrite reg_set_other in Hw2, Ha2 by other_register.
    exists s2. split; [exact Hrun2|].
    split; [eapply bus_step_trans; eassumption|].
    split; [exact Hw2|]. rewrite Ha2, Ha1, <- app_assoc. reflexivity.
  - destruct (stub_update_step o s MAX14906_CONFIG_DO_REG (MAX14906_DO_MASK ch)
                (no_os_field_prep (MAX14906_DO_MASK ch)
                   (do_mode_value MAX14906_PUSH_PULL)) Hok)
      as (s1 & Hrun1 & Hw1 & B1 & Ha1).
    rewrite Hrun1. cbn [nonzero Z.eqb negb].
    destruct (stub_update_step o s1 MAX14906_SETOUT_REG (MAX14906_CH_DIR_MASK ch)
                (no_os_field_prep (MAX14906_CH_DIR_MASK ch) 1) (bus_step_ok _ _ B1))
      as (s2 & Hrun2 & Hw2 & B2 & Ha2).
    change (MAX14906_CONFIG_DO_REG mod 32) with MAX14906_CONFIG_DO_REG in *.
    change (MAX14906_SETOUT_REG mod 32) with MAX14906_SETOUT_REG in *.
    rewrite Hw1 in Hw2, Ha2. rewrite reg_set_other in Hw2, Ha2 by other_register.
    exists s2. split; [exact Hrun2|].
    split; [eapply bus_step_trans; eassumption|].
    split; [exact Hw2|]. rewrite Ha2, Ha1, <- app_assoc. reflexivity.
Qed.

(** X13. On the register file [max14906_ch_func] of a channel below 4
    succeeds and configures that channel only: the direction bit of the
    channel in SETOUT becomes 0 for output and 1 for input and high-Z,
    and for input and high-Z the mode field of the channel in CONFIG_DO
    becomes high-side and push-pull; every other bit of the two registers
    and every other register stays as it was, and for output CONFIG_DO
    is not touched. *)
Theorem ch_func_configures_one_channel
  (s : state regfile) (ch : Z) (function : max14906_function) :
  buff_ok (dev s) -> 0 <= ch < 4 ->
  exists s',
    max14906_ch_func (H := platform o) ch function s = (0, s')
    /\ no_os_field_get (MAX14906_CH_DIR_MASK ch) (world s' MAX14906_SETOUT_REG)
       = direction_of function
    /\ (forall i, 0 <= i < 8 -> i <> ch + 4 ->
        Z.testbit (world s' MAX14906_SETOUT_REG) i
        = Z.testbit (world s MAX14906_SETOUT_REG) i)
    /\ (function <> MAX14906_OUT ->
        no_os_field_get (MAX14906_DO_MASK ch) (world s' MAX14906_CONFIG_DO_REG)
        = do_mode_value (mode_of function)
        /\ forall i, 0 <= i < 8 -> i <> 2 * ch -> i <> 2 * ch + 1 ->
             Z.testbit (world s' MAX14906_CONFIG_DO_REG) i
             = Z.testbit (world s MAX14906_CONFIG_DO_REG) i)
    /\ (function = MAX14906_OUT ->
        world s' MAX14906_CONFIG_DO_REG = world s MAX14906_CONFIG_DO_REG)
    /\ (forall a, a <> MAX14906_SETOUT_REG -> a <> MAX14906_CONFIG_DO_REG ->
        world s' a = world s a).
Proof.
  intros Hok Hch.
  destruct (stub_ch_func s ch function Hok) as (s' & Hrun & _ & Hw & _).
  exists s'. split; [exact Hrun|].
  assert (Hdir : 0 <= direction_of function < 2) by (destruct function; cbn; lia).
  split; [|split; [|split; [|split]]].
  - rewrite Hw, reg_set_same.
    apply direction_field_written; [assumption|assumption|apply to_u8_range].
  - intros i Hi Hne. rewrite Hw, reg_set_same, reg_merge_bits by assumption.
    destruct (mask_bits ch i Hch Hi) as (_ & Hm & _). rewrite Hm.
    apply Z.eqb_neq in Hne. rewrite Hne. reflexivity.
  - intros Hf.
    assert (Hd : world s' MAX14906_CONFIG_DO_REG
                 = reg_merge (to_u8 (world s MAX14906_CONFIG_DO_REG))
                     (MAX14906_DO_MASK ch)
                     (no_os_field_prep (MAX14906_DO_MASK ch)
                        (do_mode_value (mode_of function)))).
    { rewrite Hw. rewrite reg_set_other by other_register.
      destruct function; [contradiction| |]; apply reg_set_same. }
    split.
    + rewrite Hd. apply do_mode_field_written; [assumption|apply to_u8_range].
    + intros i Hi Hn1 Hn2. rewrite Hd, reg_merge_bits by assumption.
      destruct (mask_bits ch i Hch Hi) as (_ & _ & Hm & _). rewrite Hm.
      apply Z.eqb_neq in Hn1, Hn2. rewrite Hn1, Hn2. reflexivity.
  - intros ->. rewrite Hw. apply reg_set_other. other_register.
  - intros a H1 H2. rewrite Hw, reg_set_other by assumption.
    destruct function; [reflexivity| |]; apply reg_set_other; assumption.
Qed.

(** X14. [max14906_ch_func] and [max14906_climit_set] do not check the
    channel index: for an index from 4 to 15 they succeed on the register
    file and run their read and write transfers, writing each register
    back with the byte it held, so that no register changes its byte. *)
Theorem ch_func_and_climit_set_do_not_check_the_channel
  (s : state regfile) (ch : Z) (function : max14906_function) (c : max14906_climit) :
  buff_ok (dev s) -> 4 <= ch < 16 ->
  exists s1 s2,
    max14906_ch_func (H := platform o) ch function s = (0, s1)
    /\ accesses (trace s1)
       = accesses (trace s)
         ++ match function with
            | MAX14906_OUT => []
            | _ => [RegRead MAX14906_CONFIG_DO_REG;
                    RegWrite MAX14906_CONFIG_DO_REG
                      (to_u8 (world s MAX14906_CONFIG_DO_REG))]
            end
         ++ [RegRead MAX14906_SETOUT_REG;
             RegWrite MAX14906_SETOUT_REG (to_u8 (world s MAX14906_SETOUT_REG))]
    /\ (forall a, to_u8 (world s1 a) = to_u8 (world s a))
    /\ max14906_climit_set (H := platform o) ch c s = (0, s2)
    /\ accesses (trace s2)
       = accesses (trace s)
         ++ [RegRead MAX14906_CONFIG_CURR_LIM;
             RegWrite MAX14906_CONFIG_CURR_LIM
               (to_u8 (world s MAX14906_CONFIG_CURR_LIM))]
    /\ (forall a, to_u8 (world s2 a) = to_u8 (world s a)).
Proof.
  intros Hok Hch.
  assert (Hdir : forall v val,
             reg_merge (to_u8 v) (MAX14906_CH_DIR_MASK ch) val = to_u8 v).
  { intros v val. apply reg_merge_outside_byte. intros i Hi.
    apply (mask_outside_byte ch i Hch Hi). }
  assert (Hdo : forall v val,
             reg_merge (to_u8 v) (MAX14906_DO_MASK ch) val = to_u8 v).
  { intros v val. apply reg_merge_outside_byte. intros i Hi.
    apply (mask_outside_byte ch i Hch Hi). }
  assert (Hcl : forall v val,
             reg_merge (to_u8 v) (MAX14906_CL_MASK ch) val = to_u8 v).
  { intros v val. apply reg_merge_outside_byte. intros i Hi.
    apply (mask_outside_byte ch i Hch Hi). }
  destruct (stub_ch_func s ch function Hok) as (s1 & Hrun1 & _ & Hw1 & Ha1).
  destruct (stub_update_step o s MAX14906_CONFIG_CURR_LIM (MAX14906_CL_MASK ch)
              (no_os_field_prep (MAX14906_CL_MASK ch) (climit_value c)) Hok)
    as (s2 & Hrun2 & Hw2 & _ & Ha2).
  change (MAX14906_CONFIG_CURR_LIM mod 32) with MAX14906_CONFIG_CURR_LIM in *.
  rewrite Hdir in Hw1, Ha1. rewrite Hdo in Hw1, Ha1. rewrite Hcl in Hw2, Ha2.
  exists s1, s2. split; [exact Hrun1|]. split; [exact Ha1|].
  split; [|split; [exact Hrun2|split; [exact Ha2|]]].
  - intros a. rewrite Hw1. unfold reg_set.
    destruct (a =? MAX14906_SETOUT_REG) eqn:E1.
    + apply Z.eqb_eq in E1. subst a. apply StubFacts.to_u8_idem.
    + destruct function; [reflexivity| |];
        (destruct (a =? MAX14906_CONFIG_DO_REG) eqn:E2;
         [apply Z.eqb_eq in E2; subst a; apply StubFacts.to_u8_idem|reflexivity]).
  - intros a. rewrite Hw2. unfold reg_set.
    destruct (a =? MAX14906_CONFIG_CURR_LIM) eqn:E1; [|reflexivity].
    apply Z.eqb_eq in E1. subst a. apply StubFacts.to_u8_idem.
Qed.

Lemma stub_high_z_loop (n : nat) :
  forall (i : Z) (s : state regfile),
    buff_ok (dev s) ->
    exists s',
      for_ret n i (fun i => max14906_ch_func (H := platform o) i MAX14906_HIGH_Z) s
      = (0, s')
      /\ world s' = high_z_regs n i (world s)
      /\ bus_step s s'.
Proof.
  induction n as [|n IH]; intros i s Hok.
  - exists s. split; [reflexivity|]. split; [reflexivity|].
    apply bus_step_refl, Hok.
  - destruct (stub_ch_func s i MAX14906_HIGH_Z Hok) as (s1 & Hrun & B1 & Hw & _).
    destruct (IH (i + 1) s1 (bus_step_ok _ _ B1)) as (s2 & Hloop & Hw2 & B2).
    exists s2. cbn [for_ret]. unfold mbind at 1. rewrite Hrun.
    cbn [nonzero Z.eqb negb]. split; [exact Hloop|].
    split; [|eapply bus_step_trans; eassumption].
    rewrite Hw2, Hw. reflexivity.
Qed.

Lemma high_z_regs_other (n : nat) :
  forall (i : Z) (regs : regfile) (a : Z),
    a <> MAX14906_CONFIG_DO_REG -> a <> MAX14906_SETOUT_REG ->
    high_z_regs n i regs a = regs a.
Proof.
  induction n as [|n IH]; intros i regs a H1 H2; [reflexivity|].
  cbn [high_z_regs]. rewrite IH by assumption.
  rewrite !reg_set_other by assumption. reflexivity.
Qed.

Lemma high_z_regs_mode (n : nat) :
  forall (i : Z) (regs : regfile),
    high_z_regs (S n) i regs MAX14906_CONFIG_DO_REG
    = field_chain MAX14906_DO_MASK (do_mode_value MAX14906_PUSH_PULL) (S n) i
        (to_u8 (regs MAX14906_CONFIG_DO_REG)).
Proof.
  induction n as [|n IH]; intros i regs.
  - cbn [high_z_regs field_chain].
    rewrite reg_set_other by other_register. apply reg_set_same.
  - change (high_z_regs (S (S n)) i regs)
      with (high_z_regs (S n) (i + 1) (high_z_regs 1 i regs)).
    rewrite IH. cbn [high_z_regs field_chain].
    rewrite reg_set_other by other_register. rewrite reg_set_same.
    unfold high_z_mode. rewrite set_field_byte. reflexivity.
Qed.

Lemma high_z_regs_dir (n : nat) :
  forall (i : Z) (regs : regfile),
    high_z_regs (S n) i regs MAX14906_SETOUT_REG
    = field_chain MAX14906_CH_DIR_MASK 1 (S n) i (to_u8 (regs MAX14906_SETOUT_REG)).
Proof.
  induction n as [|n IH]; intros i regs.
  - cbn [high_z_regs field_chain].
    rewrite reg_set_same, reg_set_other by other_register. reflexivity.
  - change (high_z_regs (S (S n)) i regs)
      with (high_z_regs (S n) (i + 1) (high_z_regs 1 i regs)).
    rewrite IH. cbn [high_z_regs field_chain].
    rewrite reg_set_same.
    unfold high_z_dir. rewrite set_field_byte. reflexivity.
Qed.

(** X15. On the register file [max14906_remove] of a descriptor puts the
    four channels in high-Z: afterwards every channel has the push-pull
    mode in CONFIG_DO and the direction bit 1 in SETOUT, and no other
    register has changed. The result is what setting the enable line
    answered, and 0 when the descriptor holds no enable line. *)
Theorem remove_leaves_all_channels_high_z (s : state regfile) :
  buff_ok (dev s) ->
  exists s',
    max14906_remove (H := platform o) true s
    = (match enable (dev s) with Some _ => gpio_set_ret o | None => 0 end, s')
    /\ (forall ch, 0 <= ch < 4 ->
        no_os_field_get (MAX14906_DO_MASK ch) (world s' MAX14906_CONFIG_DO_REG)
        = do_mode_value MAX14906_PUSH_PULL
        /\ no_os_field_get (MAX14906_CH_DIR_MASK ch) (world s' MAX14906_SETOUT_REG) = 1)
    /\ (forall a, a <> MAX14906_CONFIG_DO_REG -> a <> MAX14906_SETOUT_REG ->
        world s' a = world s a).
Proof.
  intros Hok.
  destruct (stub_high_z_loop 4 0 s Hok) as (s1 & Hloop & Hw & B1).
  destruct B1 as (new & Htr & _ & (Hen & _ & _) & _).
  assert (Hfields : forall regs : regfile,
    regs = world s1 ->
    (forall ch, 0 <= ch < 4 ->
        no_os_field_get (MAX14906_DO_MASK ch) (regs MAX14906_CONFIG_DO_REG)
        = do_mode_value MAX14906_PUSH_PULL
        /\ no_os_field_get (MAX14906_CH_DIR_MASK ch) (regs MAX14906_SETOUT_REG) = 1)
    /\ (forall a, a <> MAX14906_CONFIG_DO_REG -> a <> MAX14906_SETOUT_REG ->
        regs a = world s a)).
  { intros regs ->. rewrite Hw. split.
    - intros ch Hch. rewrite high_z_regs_mode, high_z_regs_dir.
      destruct (fields_set_all ch (to_u8 (world s MAX14906_CONFIG_DO_REG)) Hch
                  (to_u8_range _)) as (Hm & _ & _).
      destruct (fields_set_all ch (to_u8 (world s MAX14906_SETOUT_REG)) Hch
                  (to_u8_range _)) as (_ & Hd & _).
      unfold fields_set in Hm, Hd. apply Z.eqb_eq in Hm, Hd.
      split; assumption.
    - intros a H1 H2. apply high_z_regs_other; assumption. }
  unfold max14906_remove. cbn [negb]. unfold mbind at 1.
  change (Z.to_nat MAX14906_CHANNELS) with 4%nat. rewrite Hloop.
  cbn [nonzero Z.eqb negb].
  unfold mbind, call, get_dev, mret.
  cbn [no_os_spi_remove no_os_gpio_set_value no_os_free platform
       dev world trace nonzero Z.eqb negb].
  rewrite Hen.
  destruct (enable (dev s)) as [h|].
  - cbn [dev world trace].
    destruct (nonzero (gpio_set_ret o)) eqn:Hz.
    + eexists. split; [reflexivity|]. apply Hfields. reflexivity.
    + unfold nonzero in Hz. apply negb_false_iff, Z.eqb_eq in Hz. rewrite Hz.
      eexists. split; [reflexivity|]. apply Hfields. reflexivity.
  - cbn [dev world trace nonzero Z.eqb negb].
    eexists. split; [reflexivity|]. apply Hfields. reflexivity.
Qed.

(** X17. On the register file [max14906_init] succeeds whenever the
    allocation and [no_os_spi_init] succeed and setting the enable line,
    where it is attempted, succeeds: from any register contents and with
    or without CRC it returns 0 and hands out a descriptor that holds the
    enable handle the GPIO call stored and the CRC flag of the
    parameters. *)
Theorem init_succeeds_when_the_platform_does
  (param : max14906_init_param) (regs : regfile) (tr : list event) :
  alloc_ok o = true -> spi_init_ret o = 0 ->
  (gpio_get_ret o = 0 -> gpio_set_ret o = 0) ->
  exists s',
    max14906_init (H := platform o) param regs tr = (0, Some (dev s'), s')
    /\ enable (dev s') = gpio_get_handle o
    /\ crc_en (dev s') = param_crc_en param.
Proof.
  intros Hal Hsi Hset.
  unfold max14906_init. cbn [no_os_calloc platform]. rewrite Hal. cbn [negb].
  unfold init_body, mbind, call, set_crc_en, set_enable, get_dev.
  cbn [no_os_spi_init no_os_gpio_get_optional no_os_gpio_set_value platform
       dev world trace enable crc_en chip_address buff zeroed_desc].
  rewrite Hsi. cbn [nonzero Z.eqb negb].
  cbn [dev world trace enable crc_en chip_address buff zeroed_desc].
  assert (Hcfg : forall s0 : state regfile,
            buff_ok (dev s0) -> enable (dev s0) = gpio_get_handle o ->
            crc_en (dev s0) = param_crc_en param ->
            exists s',
              init_config (H := platform o) s0 = (0, Some (dev s'), s')
              /\ enable (dev s') = gpio_get_handle o
              /\ crc_en (dev s') = param_crc_en param).
  { intros s0 Hok He Hc.
    destruct (stub_init_config o s0 Hok) as (s' & Hrun & _ & B & _).
    destruct B as (_ & _ & _ & (He' & Hc' & _) & _).
    exists s'. split; [exact Hrun|]. split; congruence. }
  unfold nonzero.
  destruct (gpio_get_ret o =? 0) eqn:Hge;
    cbn [negb dev world trace enable crc_en chip_address buff].
  - apply Z.eqb_eq in Hge. rewrite (Hset Hge).
    cbn [Z.eqb negb]. apply Hcfg; reflexivity.
  - apply Hcfg; reflexivity.
Qed.

End WithOutcomes.

End StubProperties.

(** ** The further properties at concrete inputs *)

Module Examples.

Import Stub StubInit.

Lemma crc_encode_detects_single_bit_errors_witness :
  0 <= 3 < 8
  /\ max14906_crc_encode [Z.lxor 0x1B (Z.shiftl 1 3); 0xFF]
     <> max14906_crc_encode [0x1B; 0xFF].
Proof.
  split; [lia|].
  apply (crc_encode_detects_single_bit_errors 0x1B 0xFF 3). lia.
Defined.

Lemma crc_decode_coverage_witness :
  0 <= 2 < 6
  /\ max14906_crc_decode [Z.lxor 0x1B (Z.shiftl 1 2); 0xFF]
     <> max14906_crc_decode [0x1B; 0xFF].
Proof.
  split; [lia|].
  destruct (crc_decode_coverage 0x1B 0xFF) as [Hcmd _].
  apply (Hcmd 2). lia.
Defined.

Lemma reg_read_frames_and_propagates_witness :
  buff_ok (dev s0)
  /\ exists s',
       max14906_reg_read (H := dead_bus) MAX14906_SETOUT_REG s0 = (-5, None, s').
Proof.
  split; [reflexivity|].
  destruct (reg_read_frames_and_propagates (H := dead_bus)
              s0 MAX14906_SETOUT_REG (-5) [] power_on eq_refl eq_refl)
    as (res & s' & Hrun & _ & _ & Hfail & _).
  exists s'. rewrite Hrun, Hfail; [reflexivity|lia].
Defined.

Lemma operations_only_use_the_bus_witness :
  buff_ok (dev s0)
  /\ bus_step s0 (snd (max14906_ch_func (H := platform all_ok) 2 MAX14906_IN s0)).
Proof.
  split; [reflexivity|].
  destruct (operations_only_use_the_bus (H := platform all_ok))
    as (_ & _ & _ & _ & _ & Hfunc & _).
  apply (Hfunc 2 MAX14906_IN s0
           (fst (max14906_ch_func (H := platform all_ok) 2 MAX14906_IN s0)));
    reflexivity.
Defined.

Lemma ch_get_yields_level_bit_witness :
  let s := start crc_desc (reg_set power_on MAX14906_DOILEVEL_REG 0x04) in
  buff_ok (dev s) /\ 0 <= 2 < 4
  /\ exists v s1,
       max14906_reg_read (H := platform all_ok) MAX14906_DOILEVEL_REG s = (0, Some v, s1)
       /\ max14906_ch_get (H := platform all_ok) 2 s = (0, Some 1, s1).
Proof.
  cbv zeta. split; [reflexivity|]. split; [lia|].
  set (s := start crc_desc (reg_set power_on MAX14906_DOILEVEL_REG 0x04)).
  assert (Hread : max14906_reg_read (H := platform all_ok) MAX14906_DOILEVEL_REG s
                  = (0, Some 4,
                     snd (max14906_reg_read (H := platform all_ok)
                            MAX14906_DOILEVEL_REG s)))
    by (vm_compute; reflexivity).
  destruct (ch_get_yields_level_bit (H := platform all_ok) s _ 2 0 (Some 4)
              eq_refl ltac:(lia) Hread) as [_ Hok].
  destruct (Hok eq_refl) as (v & Hv & Hget).
  exists 4, (snd (max14906_reg_read (H := platform all_ok) MAX14906_DOILEVEL_REG s)).
  split; [exact Hread|].
  injection Hv as <-. exact Hget.
Defined.

Lemma init_fails_before_the_transport_is_acquired_witness :
  let o := {| alloc_ok := true; spi_init_ret := -5; gpio_get_ret := 0;
              gpio_get_handle := Some 1; gpio_set_ret := 0 |} in
  fst (no_os_spi_init (Platform := platform o) power_on) <> 0
  /\ exists s',
       max14906_init (H := platform o) {| param_crc_en := true |} power_on []
       = (-5, None, s')
       /\ trace s' = [EvCalloc; EvSpiInit; EvFree].
Proof.
  cbv zeta. split; [discriminate|].
  destruct (init_fails_before_the_transport_is_acquired
              (H := platform {| alloc_ok := true; spi_init_ret := -5; gpio_get_ret := 0;
                                gpio_get_handle := Some 1; gpio_set_ret := 0 |})
              {| param_crc_en := true |} power_on []) as [_ Hspi].
  destruct (Hspi power_on (-5) power_on eq_refl eq_refl ltac:(lia))
    as (s' & Hrun & _ & Ht).
  exists s'. split; [exact Hrun|exact Ht].
Defined.

Lemma init_success_hands_out_configured_descriptor_witness :
  let p := {| param_crc_en := true |} in
  let r := max14906_init (H := platform all_ok) p power_on [] in
  r = (0, snd (fst r), snd r)
  /\ crc_en (dev (snd r)) = true
  /\ chip_address (dev (snd r)) = 0
  /\ buff_ok (dev (snd r)).
Proof.
  cbv zeta.
  assert (Hrun : max14906_init (H := platform all_ok) {| param_crc_en := true |} power_on []
                 = (0, snd (fst (max14906_init (H := platform all_ok)
                                   {| param_crc_en := true |} power_on [])),
                    snd (max14906_init (H := platform all_ok)
                           {| param_crc_en := true |} power_on [])))
    by (vm_compute; reflexivity).
  split; [exact Hrun|].
  destruct (init_success_hands_out_configured_descriptor (H := platform all_ok)
              _ power_on [] 0 _ _ Hrun eq_refl) as (_ & Hcrc & Hchip & Hok & _).
  split; [exact Hcrc|]. split; [exact Hchip|exact Hok].
Defined.

Lemma remove_releases_in_order_and_stops_at_failure_witness :
  let r := max14906_remove (H := platform all_ok) true s0 in
  let r' := max14906_remove (H := dead_bus) true s0 in
  buff_ok (dev s0)
  /\ r = (0, snd r)
  /\ (exists xfers,
        trace (snd r)
        = trace s0 ++ xfers
          ++ [EvSpiRemove; EvGpioSetValue (Some 1) NO_OS_GPIO_HIGH_Z; EvFree]
        /\ forallb is_transfer xfers = true)
  /\ max14906_ch_func (H := dead_bus) 0 MAX14906_HIGH_Z s0 = (-5, snd r')
  /\ fst r' = -5
  /\ forallb is_transfer (trace (snd r')) = true.
Proof.
  cbv zeta. split; [reflexivity|].
  assert (Hrun : max14906_remove (H := platform all_ok) true s0
                 = (0, snd (max14906_remove (H := platform all_ok) true s0)))
    by (vm_compute; reflexivity).
  split; [exact Hrun|]. split.
  - destruct (remove_releases_in_order_and_stops_at_failure (H := platform all_ok)
                s0 _ 0 eq_refl Hrun) as [(xfers & tail & Ht & Hx & Hok & _) _].
    exists xfers. rewrite Ht, (Hok eq_refl). split; [reflexivity|exact Hx].
  - assert (Hm : max14906_ch_func (H := dead_bus) 0 MAX14906_HIGH_Z s0
                 = (-5, snd (max14906_ch_func (H := dead_bus) 0 MAX14906_HIGH_Z s0)))
      by (vm_compute; reflexivity).
    destruct (remove_releases_in_order_and_stops_at_failure (H := dead_bus)
                s0 (snd (max14906_remove (H := dead_bus) true s0))
                (fst (max14906_remove (H := dead_bus) true s0))
                eq_refl (surjective_pairing _)) as (_ & Hstep & _).
    destruct (Hstep [] (max14906_ch_func (H := dead_bus) 0 MAX14906_HIGH_Z)
                (tl (high_z_steps (H := dead_bus))) s0 _ (-5)
                eq_refl eq_refl Hm ltac:(lia)) as (Hret & Hs & xfers & Ht & Hx).
    split; [rewrite Hs; exact Hm|]. split; [exact Hret|].
    rewrite Ht. exact Hx.
Defined.

Lemma write_then_read_round_trip_witness :
  buff_ok (dev s0)
  /\ exists s1 s2,
       max14906_reg_write (H := platform all_ok) MAX14906_CONFIG_DO_REG 0x1A5 s0 = (0, s1)
       /\ max14906_reg_read (H := platform all_ok) MAX14906_CONFIG_DO_REG s1
          = (0, Some 0xA5, s2).
Proof.
  split; [reflexivity|].
  destruct (StubProperties.write_then_read_round_trip all_ok s0
              MAX14906_CONFIG_DO_REG 0x1A5 eq_refl) as (s1 & s2 & Hw & Hr & _).
  exists s1, s2. split; [exact Hw|exact Hr].
Defined.

Lemma reg_update_changes_only_masked_bits_witness :
  buff_ok (dev s0)
  /\ exists s',
       max14906_reg_update (H := platform all_ok) MAX14906_CONFIG_DO_REG 0x0C 0xFF s0
       = (0, s')
       /\ Z.testbit (world s' MAX14906_CONFIG_DO_REG) 2 = true
       /\ Z.testbit (world s' MAX14906_CONFIG_DO_REG) 4 = false.
Proof.
  split; [reflexivity|].
  destruct (StubProperties.reg_update_changes_only_masked_bits all_ok s0
              MAX14906_CONFIG_DO_REG 0x0C 0xFF eq_refl) as (s' & Hrun & Hbits & _).
  exists s'. split; [exact Hrun|].
  split; [apply (Hbits 2); lia|apply (Hbits 4); lia].
Defined.

Lemma ch_set_sets_only_its_bit_witness :
  buff_ok (dev s0) /\ 0 <= 3 < 4
  /\ exists s',
       max14906_ch_set (H := platform all_ok) 3 7 s0 = (0, s')
       /\ Z.testbit (world s' MAX14906_SETOUT_REG) 3 = true.
Proof.
  split; [reflexivity|]. split; [lia|].
  destruct (StubProperties.ch_set_sets_only_its_bit all_ok s0 3 7 eq_refl ltac:(lia))
    as (s' & Hrun & Hbit & _).
  exists s'. split; [exact Hrun|exact Hbit].
Defined.

Lemma climit_set_then_get_witness :
  buff_ok (dev s0) /\ 0 <= 1 < 4
  /\ exists s1,
       max14906_climit_set (H := platform all_ok) 1 MAX14906_CL_1200 s0 = (0, s1)
       /\ fst (max14906_climit_get (H := platform all_ok) 1 true s1) = (0, Some 3).
Proof.
  split; [reflexivity|]. split; [lia|].
  destruct (StubProperties.climit_set_then_get all_ok s0 1 MAX14906_CL_1200
              eq_refl ltac:(lia)) as (s1 & Hset & Hget & _).
  exists s1. split; [exact Hset|exact Hget].
Defined.

Lemma ch_func_configures_one_channel_witness :
  buff_ok (dev s0) /\ 0 <= 2 < 4
  /\ exists s',
       max14906_ch_func (H := platform all_ok) 2 MAX14906_IN s0 = (0, s')
       /\ no_os_field_get (MAX14906_CH_DIR_MASK 2) (world s' MAX14906_SETOUT_REG) = 1
       /\ no_os_field_get (MAX14906_DO_MASK 2) (world s' MAX14906_CONFIG_DO_REG) = 0.
Proof.
  split; [reflexivity|]. split; [lia|].
  destruct (StubProperties.ch_func_configures_one_channel all_ok s0 2 MAX14906_IN
              eq_refl ltac:(lia)) as (s' & Hrun & Hdir & _ & Hmode & _).
  exists s'. split; [exact Hrun|]. split; [exact Hdir|].
  apply Hmode. discriminate.
Defined.

Lemma ch_func_and_climit_set_do_not_check_the_channel_witness :
  buff_ok (dev s0) /\ 4 <= 7 < 16
  /\ exists s1 s2,
       max14906_ch_func (H := platform all_ok) 7 MAX14906_HIGH_Z s0 = (0, s1)
       /\ max14906_climit_set (H := platform all_ok) 7 MAX14906_CL_300 s0 = (0, s2).
Proof.
  split; [reflexivity|]. split; [lia|].
  destruct (StubProperties.ch_func_and_climit_set_do_not_check_the_channel all_ok s0 7
              MAX14906_HIGH_Z MAX14906_CL_300 eq_refl ltac:(lia))
    as (s1 & s2 & Hf & _ & _ & Hc & _).
  exists s1, s2. split; [exact Hf|exact Hc].
Defined.

Lemma remove_leaves_all_channels_high_z_witness :
  buff_ok (dev s0)
  /\ exists s',
       max14906_remove (H := platform all_ok) true s0 = (0, s')
       /\ no_os_field_get (MAX14906_DO_MASK 3) (world s' MAX14906_CONFIG_DO_REG) = 3
       /\ no_os_field_get (MAX14906_CH_DIR_MASK 3) (world s' MAX14906_SETOUT_REG) = 1.
Proof.
  split; [reflexivity|].
  destruct (StubProperties.remove_leaves_all_channels_high_z all_ok s0 eq_refl)
    as (s' & Hrun & Hch & _).
  exists s'. split; [exact Hrun|]. apply (Hch 3). lia.
Defined.

Lemma reg_read_rejects_single_bit_errors_witness :
  let answer := [0; 0; max14906_crc_decode [0; 0]] in
  crc_en (dev s0) = true /\ buff_ok (dev s0) /\ 0 <= 3 < 8
  /\ no_os_spi_transfer (Platform := platform all_ok)
       (snd (read_frame (dev s0) MAX14906_SETOUT_REG)) (world s0)
     = (0, answer, power_on)
  /\ fst (max14906_reg_read (H := platform all_ok) MAX14906_SETOUT_REG s0)
     = (0, Some 0).
Proof.
  cbv zeta. split; [reflexivity|]. split; [reflexivity|]. split; [lia|].
  split; [reflexivity|].
  destruct (reg_read_rejects_single_bit_errors (H := platform all_ok)
              s0 MAX14906_SETOUT_REG 0 0 3 [0; 0; max14906_crc_decode [0; 0]] power_on
              eq_refl eq_refl ltac:(lia) ltac:(lia) ltac:(lia) eq_refl)
    as (Hgood & _).
  apply Hgood. reflexivity.
Defined.

Lemma init_succeeds_when_the_platform_does_witness :
  alloc_ok all_ok = true /\ spi_init_ret all_ok = 0 /\ gpio_set_ret all_ok = 0
  /\ exists s',
       max14906_init (H := platform all_ok) {| param_crc_en := true |} power_on []
       = (0, Some (dev s'), s')
       /\ enable (dev s') = Some 1.
Proof.
  split; [reflexivity|]. split; [reflexivity|]. split; [reflexivity|].
  destruct (StubProperties.init_succeeds_when_the_platform_does all_ok
              {| param_crc_en := true |} power_on [] eq_refl eq_refl (fun _ => eq_refl))
    as (s' & Hrun & Hen & _).
  exists s'. split; [exact Hrun|exact Hen].
Defined.

End Examples.
